(** * AuditAI: the audit rule engine of [App.tsx]

  A shallow embedding of [runAuditRules] and of the identifier
  auto-correction of [handleAnalyze], with the properties stated about
  them in the specification.

  Conventions of the embedding.
  - A JavaScript [string] is a [string] of 8-bit code units (the Latin-1
    range); [.length] is [String.length].  The text constants of the source
    are kept verbatim.
  - A JavaScript [number] is an IEEE-754 binary64 value: [float], with the
    primitive operations of the kernel ([PrimFloat.add], [PrimFloat.sub],
    [PrimFloat.abs], [PrimFloat.ltb]).
  - [T | null] is [option T]; [undefined] for an optional field of a
    finding is [None].
  - A [Map<string, V>] is an association list in insertion order with
    unique keys; a [Set<string>] is a duplicate-free list.
  - What the source takes from the platform (date parsing, the local time
    zone, number rendering) is a field of the record [Host]. *)

From Stdlib Require Import Floats String Ascii List ZArith Bool Arith Lia.
From Stdlib Require Import DecimalString Sorted.
Import ListNotations.
Open Scope string_scope.

Set Implicit Arguments.
Set Warnings "-inexact-float".

(* ---------------------------------------------------------------------- *)
(** * Strings as the source uses them *)

Module JsString.

(** The code unit of a character. *)
Definition code (c : ascii) : N := N_of_ascii c.

Definition between (lo hi : N) (c : ascii) : bool :=
  (lo <=? code c)%N && (code c <=? hi)%N.

(** [0-9] *)
Definition isDigit (c : ascii) : bool := between 48 57 c.
(** [A-Z] *)
Definition isUpperAZ (c : ascii) : bool := between 65 90 c.
(** [a-z] *)
Definition isLowerAZ (c : ascii) : bool := between 97 122 c.
(** [a-zA-Z0-9] *)
Definition isAlnum (c : ascii) : bool :=
  isLowerAZ c || isUpperAZ c || isDigit c.

(** [s.replace(/[^...]/g, '')]: the characters of the class are kept. *)
Fixpoint keep (p : ascii -> bool) (s : string) : string :=
  match s with
  | EmptyString => EmptyString
  | String c s' => if p c then String c (keep p s') else keep p s'
  end.

(** The upper-case letters of Latin-1: [A-Z], and U+00C0..U+00DE
    without the multiplication sign U+00D7. *)
Definition isUpper (c : ascii) : bool :=
  isUpperAZ c || (between 192 222 c && negb (code c =? 215)%N).

Definition lowerChar (c : ascii) : ascii :=
  if isUpper c then ascii_of_N (code c + 32) else c.

(** [s.toLowerCase()] *)
Fixpoint toLowerCase (s : string) : string :=
  match s with
  | EmptyString => EmptyString
  | String c s' => String (lowerChar c) (toLowerCase s')
  end.

(** [s.split(sep)] for a separator of one character. *)
Fixpoint split (sep : ascii) (s : string) : list string :=
  match s with
  | EmptyString => [EmptyString]
  | String c s' =>
      if Ascii.eqb c sep then EmptyString :: split sep s'
      else match split sep s' with
           | w :: ws => String c w :: ws
           | [] => [String c EmptyString]
           end
  end.

(** [s.includes(t)] *)
Fixpoint includes (s t : string) : bool :=
  if String.prefix t s then true
  else match s with
       | EmptyString => false
       | String _ s' => includes s' t
       end.

(** [s.substring(0, n)] *)
Definition substring0 (n : nat) (s : string) : string := String.substring 0 n s.

(** [l.join(sep)] *)
Definition join (sep : string) (l : list string) : string := String.concat sep l.

(** Truthiness of a [string | null]: neither [null] nor the empty string. *)
Definition truthy (o : option string) : bool :=
  match o with
  | Some s => negb (s =? EmptyString)
  | None => false
  end.

(** [a || b] on [string | null]. *)
Definition orElse (a b : option string) : option string :=
  if truthy a then a else b.

(** A [string | null] inside a template literal: [null] prints as the
    word null. *)
Definition tmpl (o : option string) : string :=
  match o with
  | Some s => s
  | None => "null"
  end.

(** The line feed and the double quote of the source's literals. *)
Definition nl : string := String (ascii_of_nat 10) EmptyString.
Definition dq : string := String (ascii_of_nat 34) EmptyString.

End JsString.
Import JsString.

(* ---------------------------------------------------------------------- *)
(** * Numbers *)

Module JsNumber.

Definition isNaN (x : float) : bool := negb (PrimFloat.eqb x x).

(** Truthiness of a number: neither zero (of either sign) nor NaN. *)
Definition truthy (x : float) : bool :=
negb (PrimFloat.eqb x PrimFloat.zero) && negb (isNaN x).

(** The number with an integer value (exact below 2^53). *)
Definition ofZ (z : Z) : float :=
if (z <? 0)%Z then PrimFloat.opp (PrimFloat.of_uint63 (Uint63.of_Z (- z)))
else PrimFloat.of_uint63 (Uint63.of_Z z).

(** A time value or a year read from a [Date]: NaN for an invalid date. *)
Definition ofTime (t : option Z) : float :=
match t with
| Some z => ofZ z
| None => PrimFloat.nan
end.

(** The tolerances of the source, [0.05] and [0.01], as the binary64
    values the literals denote. *)
Definition tol_value : float := 0.05%float.
Definition tol_qty : float := 0.01%float.

(** [Math.abs(a - b) < tol] *)
Definition within (tol a b : float) : bool :=
PrimFloat.ltb (PrimFloat.abs (PrimFloat.sub a b)) tol.

End JsNumber.

(* ---------------------------------------------------------------------- *)
(** * The types of [types.ts] *)

Inductive CheckStatus : Type := PENDING | PASS | FAIL | WARNING.

(** The element type of [subItems]. *)
Module SubItem.
Record t : Type := mk {
  label : string;
  status : CheckStatus;
  details : string
}.
End SubItem.

Record AuditResult : Type := mkAuditResult {
  id : string;
  title : string;
  description : string;
  status : CheckStatus;
  details : option string;
  recommendation : option string;
  subItems : option (list SubItem.t)
}.

Record SicafDates : Type := mkSicafDates {
  federal_pgfn : option string;
  fgts : option string;
  trabalhista : option string;
  estadual_distrital : option string;
  municipal : option string
}.

Module LineItem.
Record t : Type := mk {
  description : string;
  partNumber : option string;
  quantity : float;
  unit : option string
}.
End LineItem.

Module Sicaf.
Record t : Type := mk {
  found : bool;
  cnpj : option string;
  validityDates : SicafDates
}.
End Sicaf.

Module TermoRecebimento.
Record t : Type := mk {
  found : bool;
  cnpj : option string;
  signatureDate : option string;
  isDefinitive : bool;
  bulletinDate : option string;
  hasContractReference : bool;
  contractStartYear : option float;
  totalValue : option float;
  contractNumber : option string
}.
End TermoRecebimento.

Module NotaFiscal.
Record t : Type := mk {
  found : bool;
  number : option string;
  supplierName : option string;
  cnpj : option string;
  possibleCnpjs : list string;
  emissionDate : option string;
  grossValue : option float;
  liquidValue : option float;
  isMaterial : bool;
  isService : bool;
  items : list LineItem.t
}.
(** The assignment [notaFiscal.cnpj = v]. *)
Definition set_cnpj (v : option string) (n : t) : t :=
mk (found n) (number n) (supplierName n) v (possibleCnpjs n)
   (emissionDate n) (grossValue n) (liquidValue n) (isMaterial n)
   (isService n) (items n).
End NotaFiscal.

Record Empenho : Type := mkEmpenho {
  ne : string;
  nd : string;
  value : float
}.

Module RelatorioFatura.
Record t : Type := mk {
  found : bool;
  emissionDate : option string;
  arrivalDate : option string;
  dueDate : option string;
  totalValue : option float;
  empenhos : list Empenho
}.
End RelatorioFatura.

Module Rmm.
Record t : Type := mk {
  found : bool;
  items : list LineItem.t
}.
End Rmm.

Module InformacaoAdministrativa.
Record t : Type := mk {
  found : bool;
  substitutesRmm : bool;
  justifiesServiceND : bool;
  justification : option string;
  wrongDocumentDetected : bool
}.
End InformacaoAdministrativa.

Record ExtractedData : Type := mkExtractedData {
  sicaf : Sicaf.t;
  termoRecebimento : TermoRecebimento.t;
  notaFiscal : NotaFiscal.t;
  relatorioFatura : RelatorioFatura.t;
  rmm : Rmm.t;
  informacaoAdministrativa : InformacaoAdministrativa.t
}.

(** The assignment [data.notaFiscal.cnpj = v]. *)
Definition set_notaFiscal_cnpj (v : option string) (d : ExtractedData) : ExtractedData :=
mkExtractedData (sicaf d) (termoRecebimento d)
  (NotaFiscal.set_cnpj v (notaFiscal d)) (relatorioFatura d) (rmm d)
  (informacaoAdministrativa d).

(* ---------------------------------------------------------------------- *)
(** * The platform *)

(** What [runAuditRules] and [formatDate] take from the JavaScript host.
    - [Date_parse s] is the time value of [new Date(s)] in milliseconds
      since the epoch, [None] for an invalid date (time value NaN);
    - [LocalTZA t] is the offset of local time at the time value [t], in
      milliseconds;
    - [DateTimeFormat_ptBR t] is
      [new Intl.DateTimeFormat('pt-BR').format(d)] for a valid date [d] of
      time value [t];
    - [NumberFormat_BRL x] is
      [new Intl.NumberFormat('pt-BR', {style: 'currency', currency: 'BRL'}).format(x)];
    - [Number_toString x] is the number [x] inside a template literal. *)
Record Host : Type := mkHost {
  Date_parse : string -> option Z;
  LocalTZA : Z -> Z;
  DateTimeFormat_ptBR : Z -> string;
  NumberFormat_BRL : float -> string;
  Number_toString : float -> string
}.

(** The calendar of ECMA-262 (Day, YearFromTime, MonthFromTime,
    DateFromTime), computed with the era decomposition of the proleptic
    Gregorian calendar. *)
Module Calendar.
Local Open Scope Z_scope.

Definition msPerDay : Z := 86400000.

Definition Day (t : Z) : Z := t / msPerDay.

(** (year, month 1..12, day 1..31) of a day number counted from the epoch. *)
Definition civil_from_days (z0 : Z) : Z * Z * Z :=
let z := z0 + 719468 in
let era := z / 146097 in
let doe := z - era * 146097 in
let yoe := (doe - doe / 1460 + doe / 36524 - doe / 146096) / 365 in
let y := yoe + era * 400 in
let doy := doe - (365 * yoe + yoe / 4 - yoe / 100) in
let mp := (5 * doy + 2) / 153 in
let d := doy - (153 * mp + 2) / 5 + 1 in
let m := if mp <? 10 then mp + 3 else mp - 9 in
(if m <=? 2 then y + 1 else y, m, d).

(** The day number of a calendar date. *)
Definition days_from_civil (y0 m d : Z) : Z :=
let y := if m <=? 2 then y0 - 1 else y0 in
let era := y / 400 in
let yoe := y - era * 400 in
let doy := (153 * (if 2 <? m then m - 3 else m + 9) + 2) / 5 + d - 1 in
let doe := yoe * 365 + yoe / 4 - yoe / 100 + doy in
era * 146097 + doe - 719468.

Definition YearFromTime (t : Z) : Z := fst (fst (civil_from_days (Day t))).

End Calendar.

Section Engine.

Variable host : Host.

(** [new Date(s).getTime()]; [new Date(null)] is the epoch. *)
Definition Date_getTime (s : option string) : option Z :=
match s with
| Some str => Date_parse host str
| None => Some 0%Z
end.

(** [new Date(s).getFullYear()]: the year of the local time, NaN ([None])
    for an invalid date. *)
Definition Date_getFullYear (s : option string) : option Z :=
match Date_getTime s with
| Some t => Some (Calendar.YearFromTime (t + LocalTZA host t))
| None => None
end.

(** [a >= b] on two [Date] objects: false when either is invalid. *)
Definition Date_ge (a b : option Z) : bool :=
match a, b with
| Some x, Some y => (y <=? x)%Z
| _, _ => false
end.

(* ---------------------------------------------------------------------- *)
(** * [utils.ts] *)

(** The fallback of [formatDate]: [Intl.DateTimeFormat.format] throws on
    an invalid date and the [catch] returns the input. *)
Definition formatDate_fallback (s : string) : string :=
match Date_parse host s with
| Some t => DateTimeFormat_ptBR host t
| None => s
end.

Definition formatDate (dateString : option string) : string :=
match dateString with
| None => "N/A"
| Some s =>
    if negb (truthy dateString) then "N/A"
    else match split "-" s with
         | year :: month :: day :: _ =>
             if negb (year =? EmptyString) && negb (month =? EmptyString)
                && negb (day =? EmptyString)
             then day ++ "/" ++ month ++ "/" ++ year
             else formatDate_fallback s
         | _ => formatDate_fallback s
         end
end.

Definition formatCurrency (value : float) : string := NumberFormat_BRL host value.

(* ---------------------------------------------------------------------- *)
(** * [runAuditRules] *)

(** [results.push(r)] *)
Definition push (A : Type) (results : list A) (r : A) : list A :=
(results ++ [r])%list.

Definition CheckStatus_eqb (a b : CheckStatus) : bool :=
match a, b with
| PENDING, PENDING | PASS, PASS | FAIL, FAIL | WARNING, WARNING => true
| _, _ => false
end.

(** ** 0. Document validation *)

Definition rule_docValidation (data : ExtractedData) (results : list AuditResult) : list AuditResult :=
if InformacaoAdministrativa.wrongDocumentDetected (informacaoAdministrativa data) then
  push results
    {| id := "doc-validation-info-admin";
       title := "Validação de Documentos";
       description := "Verificação da integridade e tipologia dos documentos apresentados.";
       status := FAIL;
       details := Some ("ERRO DE DOCUMENTAÇÃO: O sistema detectou que o arquivo nomeado ou enviado como "
                        ++ dq ++ "Informação Administrativa" ++ dq
                        ++ " na verdade contém uma Nota Fiscal (DANFE). " ++ nl ++ nl
                        ++ "Isso indica que o documento correto de justificativa não foi anexado ou houve troca de arquivos.");
       recommendation := Some "Verifique os nomes dos arquivos. Remova a Nota Fiscal duplicada e anexe a Informação Administrativa correta.";
       subItems := None |}
else results.

(** ** 1. SICAF *)

(** One entry of [certChecks]. *)
Record CertCheck : Type := mkCertCheck {
  cc_key : string;
  cc_label : string;
  dateStr : option string
}.

Definition certChecks (data : ExtractedData) : list CertCheck :=
let v := Sicaf.validityDates (sicaf data) in
[ mkCertCheck "federal_pgfn" "Receita Federal e PGFN" (federal_pgfn v);
  mkCertCheck "fgts" "FGTS" (fgts v);
  mkCertCheck "trabalhista" "Trabalhista" (trabalhista v);
  mkCertCheck "estadual_distrital" "Estadual/Distrital" (estadual_distrital v);
  mkCertCheck "municipal" "Municipal" (municipal v) ].

(** The body of [certChecks.map]: [status] and [details] start as
    [PENDING] and a placeholder, and every branch assigns both. *)
Definition certSubItem (signatureDate : option Z) (cert : CertCheck) : SubItem.t :=
let status0 := PENDING in
let details0 := "Não encontrado" in
let '(status1, details1) :=
  if truthy (dateStr cert) then
    let certDate := Date_getTime (dateStr cert) in
    if Date_ge certDate signatureDate
    then (PASS, formatDate (dateStr cert))
    else (FAIL, formatDate (dateStr cert) ++ " (Vencido)")
  else (FAIL, "Data não encontrada") in
SubItem.mk (cc_label cert) status1 details1.

Definition rule_sicaf (data : ExtractedData) (results : list AuditResult) : list AuditResult :=
if Sicaf.found (sicaf data) && TermoRecebimento.found (termoRecebimento data)
   && truthy (TermoRecebimento.signatureDate (termoRecebimento data))
then
  let signatureDateStr := TermoRecebimento.signatureDate (termoRecebimento data) in
  let signatureDate := Date_getTime signatureDateStr in
  let subs := map (certSubItem signatureDate) (certChecks data) in
  let hasFailures := existsb (fun i => CheckStatus_eqb (SubItem.status i) FAIL) subs in
  push results
    {| id := "sicaf-detailed";
       title := "Regularidade SICAF";
       description := "Conferência das validades em relação à data de assinatura do Termo ("
                      ++ formatDate signatureDateStr ++ ").";
       status := if hasFailures then FAIL else PASS;
       details := Some (if hasFailures
                        then "Uma ou mais certidões estavam vencidas ou não foram encontradas na data da assinatura."
                        else "Todas as certidões estavam vigentes na data da assinatura.");
       recommendation := if hasFailures
                         then Some "Solicitar SICAF atualizado ou devolver Nota Fiscal."
                         else None;
       subItems := Some subs |}
else
  push results
    {| id := "sicaf-missing";
       title := "Validação SICAF";
       description := "Verificação da existência do SICAF e Termo de Recebimento.";
       status := WARNING;
       details := Some "Não foi possível realizar o cruzamento de datas. Verifique se o SICAF e o Termo de Recebimento (com data de assinatura) foram enviados.";
       recommendation := None;
       subItems := None |}.

(** ** 2. CNPJ consistency *)

(** [cnpj.replace(/\D/g, '')] *)
Definition onlyDigits (s : string) : string := keep isDigit s.

(** [set.add(x)] on a [Set<string>]: no effect when [x] is a member. *)
Definition Set_add (x : string) (s : list string) : list string :=
if existsb (String.eqb x) s then s else (s ++ [x])%list.

(** One of the three guarded statements that fill [cnpjs] and
    [cnpjSources]. *)
Definition addCnpj (source : string) (cnpj : option string)
    (st : list string * list string) : list string * list string :=
match cnpj with
| Some raw =>
    if truthy cnpj
    then (Set_add (onlyDigits raw) (fst st), push (snd st) (source ++ ": " ++ raw))
    else st
| None => st
end.

Definition collectCnpjs (data : ExtractedData) : list string * list string :=
let st0 := ([], []) in
let st1 := addCnpj "NF" (NotaFiscal.cnpj (notaFiscal data)) st0 in
let st2 := addCnpj "Termo" (TermoRecebimento.cnpj (termoRecebimento data)) st1 in
addCnpj "SICAF" (Sicaf.cnpj (sicaf data)) st2.

Definition rule_cnpj (data : ExtractedData) (results : list AuditResult) : list AuditResult :=
let '(cnpjs, cnpjSources) := collectCnpjs data in
if (1 <? List.length cnpjs)%nat then
  push results
    {| id := "cnpj-match";
       title := "Consistência de CNPJ";
       description := "O CNPJ deve ser o mesmo em todos os documentos.";
       status := FAIL;
       details := Some ("Divergência encontrada:" ++ nl ++ join nl cnpjSources);
       recommendation := Some "Verificar se os documentos pertencem ao mesmo processo.";
       subItems := None |}
else if (List.length cnpjs =? 1)%nat then
  push results
    {| id := "cnpj-match";
       title := "Consistência de CNPJ";
       description := "Verificação do fornecedor nos documentos.";
       status := PASS;
       details := Some ("CNPJ "
                        ++ tmpl (orElse (NotaFiscal.cnpj (notaFiscal data))
                                        (TermoRecebimento.cnpj (termoRecebimento data)))
                        ++ " consistente em todos os documentos.");
       recommendation := None;
       subItems := None |}
else results.

(** ** 3. Termo de Recebimento definitivo *)

Definition rule_definitive (data : ExtractedData) (results : list AuditResult) : list AuditResult :=
if TermoRecebimento.found (termoRecebimento data) then
  if TermoRecebimento.isDefinitive (termoRecebimento data) then
    push results
      {| id := "tr-definitive";
         title := "Termo de Recebimento";
         description := "Verificação do aceite definitivo.";
         status := PASS;
         details := Some ("Consta " ++ dq ++ "recebido e aceito definitivamente" ++ dq ++ ".");
         recommendation := None;
         subItems := None |}
  else
    push results
      {| id := "tr-definitive";
         title := "Termo de Recebimento";
         description := "Verificação do aceite definitivo.";
         status := FAIL;
         details := Some ("A expressão " ++ dq ++ "recebido e aceito definitivamente" ++ dq
                          ++ " não foi encontrada. Pode ser um recebimento provisório ou parcial.");
         recommendation := Some "Devolver para correção do Termo de Recebimento.";
         subItems := None |}
else results.

(** ** 4. Value check (gross against liquid) *)

(** The finding pushed once [grossValue] and [totalValue] are known to be
    non-null. *)
Definition valueFinding (nfGross : float) (nfLiquid : option float) (trTotal : float) : AuditResult :=
let isMatchGross := JsNumber.within JsNumber.tol_value nfGross trTotal in
if isMatchGross then
  {| id := "value-check-gross";
     title := "Conferência de Valores";
     description := "Comparação do Valor Bruto da NF com o Termo de Recebimento.";
     status := PASS;
     details := Some ("Valor Bruto NF (" ++ formatCurrency nfGross
                      ++ ") confere com o Termo de Recebimento (" ++ formatCurrency trTotal ++ ").");
     recommendation := None;
     subItems := None |}
else
  if match nfLiquid with
     | Some l => JsNumber.within JsNumber.tol_value l trTotal
     | None => false
     end
  then
    {| id := "value-check-gross";
       title := "Conferência de Valores";
       description := "O Termo de Recebimento deve utilizar o Valor Bruto (Total) da Nota Fiscal.";
       status := FAIL;
       details := Some ("ERRO CRÍTICO: O Termo de Recebimento está preenchido com o Valor Líquido ("
                        ++ formatCurrency trTotal ++ "). Deveria ser o Valor Bruto ("
                        ++ formatCurrency nfGross ++ ").");
       recommendation := Some "Corrigir Termo de Recebimento para constar o Valor Total da Nota.";
       subItems := None |}
  else
    {| id := "value-check-gross";
       title := "Conferência de Valores";
       description := "Comparação do Valor Bruto da NF com o Termo de Recebimento.";
       status := WARNING;
       details := Some ("Divergência de valores. NF Bruto: " ++ formatCurrency nfGross
                        ++ " | TR Total: " ++ formatCurrency trTotal ++ ".");
       recommendation := Some "Verificar se há erro de digitação ou faturamento parcial.";
       subItems := None |}.

Definition rule_value (data : ExtractedData) (results : list AuditResult) : list AuditResult :=
if NotaFiscal.found (notaFiscal data) && TermoRecebimento.found (termoRecebimento data) then
  match NotaFiscal.grossValue (notaFiscal data),
        TermoRecebimento.totalValue (termoRecebimento data) with
  | Some nfGross, Some trTotal =>
      push results (valueFinding nfGross (NotaFiscal.liquidValue (notaFiscal data)) trTotal)
  | _, _ => results
  end
else results.

(** ** 5. Contract year *)

Definition rule_contractYear (data : ExtractedData) (results : list AuditResult) : list AuditResult :=
match TermoRecebimento.contractStartYear (termoRecebimento data) with
| Some contractStartYear =>
    if TermoRecebimento.found (termoRecebimento data)
       && truthy (TermoRecebimento.bulletinDate (termoRecebimento data))
       && JsNumber.truthy contractStartYear
    then
      let bulletinYear :=
        JsNumber.ofTime (Date_getFullYear (TermoRecebimento.bulletinDate (termoRecebimento data))) in
      if PrimFloat.ltb bulletinYear contractStartYear then
        push results
          {| id := "contract-date";
             title := "Comissão vs Contrato";
             description := "Validade da comissão de recebimento.";
             status := FAIL;
             details := Some ("A comissão (Boletim de " ++ Number_toString host bulletinYear
                              ++ ") é anterior ao início do contrato ("
                              ++ Number_toString host contractStartYear ++ ").");
             recommendation := Some "Verificar designação da comissão.";
             subItems := None |}
      else results
    else results
| None => results
end.

(** ** 6. RMM: aggregated line check *)

(** [normalize]: [str ? str.replace(/[^a-zA-Z0-9]/g, '').toLowerCase() : ''] *)
Definition normalize (str : option string) : string :=
match str with
| Some s => if truthy str then toLowerCase (keep isAlnum s) else EmptyString
| None => EmptyString
end.

Record AggregatedItem : Type := mkAggregatedItem {
  totalQty : float;
  agg_description : string;
  agg_partNumber : option string;
  originalCount : nat
}.

(** A [Map<string, AggregatedItem>], in insertion order. *)
Definition AggMap : Type := list (string * AggregatedItem).

Fixpoint Map_get (V : Type) (m : list (string * V)) (key : string) : option V :=
match m with
| [] => None
| (k, v) :: m' => if String.eqb key k then Some v else Map_get m' key
end.

Definition Map_has (V : Type) (m : list (string * V)) (key : string) : bool :=
match Map_get m key with
| Some _ => true
| None => false
end.

(** [map.set(key, v)]: a present key keeps its place, a new key goes last. *)
Fixpoint Map_set (V : Type) (m : list (string * V)) (key : string) (v : V) : list (string * V) :=
match m with
| [] => [(key, v)]
| (k, w) :: m' =>
    if String.eqb key k then (k, v) :: m' else (k, w) :: Map_set m' key v
end.

Definition Map_values (V : Type) (m : list (string * V)) : list V := map snd m.

(** The key of a line item. *)
Definition itemKey (item : LineItem.t) : string :=
match LineItem.partNumber item with
| Some pn =>
    if truthy (LineItem.partNumber item) && (2 <? String.length pn)%nat
    then normalize (LineItem.partNumber item)
    else substring0 30 (normalize (Some (LineItem.description item)))
| None => substring0 30 (normalize (Some (LineItem.description item)))
end.

(** The three assignments on the entry of the item's key. *)
Definition bumpEntry (entry : AggregatedItem) (item : LineItem.t) : AggregatedItem :=
{| totalQty := PrimFloat.add (totalQty entry) (LineItem.quantity item);
   agg_description :=
     if (String.length (agg_description entry) <? String.length (LineItem.description item))%nat
     then LineItem.description item
     else agg_description entry;
   agg_partNumber := agg_partNumber entry;
   originalCount := originalCount entry + 1 |}.

(** The body of [items.forEach]. *)
Definition aggregateStep (m : AggMap) (item : LineItem.t) : AggMap :=
let key := itemKey item in
let m1 :=
  if negb (Map_has m key)
  then Map_set m key
         {| totalQty := PrimFloat.zero;
            agg_description := LineItem.description item;
            agg_partNumber := LineItem.partNumber item;
            originalCount := 0 |}
  else m in
match Map_get m1 key with
| Some entry => Map_set m1 key (bumpEntry entry item)
| None => m1
end.

Definition aggregateItems (items : list LineItem.t) : AggMap :=
fold_left aggregateStep items [].

(** [nfItem.description.toLowerCase().split(' ').filter(w => w.length > 3)] *)
Definition descTokens (desc : string) : list string :=
filter (fun w => (3 <? String.length w)%nat) (split " " (toLowerCase desc)).

(** The inner [for ... of rmmMap.values()] with its [break]. *)
Fixpoint fuzzyLoop (nfDescTokens : list string) (values : list AggregatedItem) : option AggregatedItem :=
match values with
| [] => None
| rItem :: rest =>
    let rDesc := toLowerCase (agg_description rItem) in
    let isFuzzyMatch := existsb (fun token => includes rDesc token) nfDescTokens in
    if isFuzzyMatch then Some rItem else fuzzyLoop nfDescTokens rest
end.

(** [rmmMatch] at the end of the lookup of one invoice group. *)
Definition findRmmMatch (rmmMap : AggMap) (key : string) (nfItem : AggregatedItem) : option AggregatedItem :=
match Map_get rmmMap key with
| Some r => Some r
| None =>
    if truthy (agg_partNumber nfItem)
    then fuzzyLoop (descTokens (agg_description nfItem)) (Map_values rmmMap)
    else None
end.

Definition groupLabel (nfItem : AggregatedItem) : string :=
tmpl (orElse (agg_partNumber nfItem) (Some "S/N")) ++ " - "
++ substring0 30 (agg_description nfItem) ++ "...".

(** The body of [for (const [key, nfItem] of nfMap)], on the pair of
    [subItemsResults] and [matchStatus]. *)
Definition matchStep (rmmMap : AggMap) (st : list SubItem.t * CheckStatus)
    (kv : string * AggregatedItem) : list SubItem.t * CheckStatus :=
let '(subItemsResults, matchStatus) := st in
let '(key, nfItem) := kv in
let lbl := groupLabel nfItem in
match findRmmMatch rmmMap key nfItem with
| Some rmmMatch =>
    if JsNumber.within JsNumber.tol_qty (totalQty rmmMatch) (totalQty nfItem) then
      (push subItemsResults
         (SubItem.mk lbl PASS
            ("Qtd Total NF: " ++ Number_toString host (totalQty nfItem)
             ++ " = Qtd Total RMM: " ++ Number_toString host (totalQty rmmMatch))),
       matchStatus)
    else
      (push subItemsResults
         (SubItem.mk lbl WARNING
            ("Divergência Qtd: NF(" ++ Number_toString host (totalQty nfItem)
             ++ ") vs RMM(" ++ Number_toString host (totalQty rmmMatch) ++ ")")),
       if negb (CheckStatus_eqb matchStatus FAIL) then WARNING else matchStatus)
| None =>
    (push subItemsResults (SubItem.mk lbl FAIL "Item não encontrado no RMM"), FAIL)
end.

(** The branch where the RMM was found: sub-items, status and details.
    [matchStatus] starts as [PASS], [subItemsResults] empty, and
    [matchDetails] with a text that every path overwrites. *)
Definition crossCheck (data : ExtractedData) : list SubItem.t * CheckStatus * string :=
let matchStatus0 := PASS in
let matchDetails0 := "Documento RMM identificado." in
let subItemsResults0 : list SubItem.t := [] in
match NotaFiscal.items (notaFiscal data) with
| _ :: _ =>
    let nfMap := aggregateItems (NotaFiscal.items (notaFiscal data)) in
    let rmmMap := aggregateItems (Rmm.items (rmm data)) in
    let '(subItemsResults, matchStatus) :=
      fold_left (matchStep rmmMap) nfMap (subItemsResults0, matchStatus0) in
    (subItemsResults, matchStatus,
     if CheckStatus_eqb matchStatus FAIL
     then "Alguns itens da Nota Fiscal não foram encontrados no RMM."
     else if CheckStatus_eqb matchStatus WARNING
     then "Itens encontrados, mas com divergência de quantidade acumulada."
     else "Todos os itens da Nota Fiscal foram conferidos no RMM com sucesso.")
| [] =>
    (subItemsResults0, WARNING,
     "RMM encontrado, mas não foi possível extrair a lista de itens da NF para cruzamento.")
end.

Definition rule_rmm (data : ExtractedData) (results : list AuditResult) : list AuditResult :=
if NotaFiscal.found (notaFiscal data) then
  if NotaFiscal.isMaterial (notaFiscal data) then
    let hasRmm := Rmm.found (rmm data) in
    let hasJustification :=
      InformacaoAdministrativa.found (informacaoAdministrativa data)
      && InformacaoAdministrativa.substitutesRmm (informacaoAdministrativa data)
      && negb (InformacaoAdministrativa.wrongDocumentDetected (informacaoAdministrativa data)) in
    if hasRmm then
      let '(subItemsResults, matchStatus, matchDetails) := crossCheck data in
      push results
        {| id := "rmm-check-detailed";
           title := "Conferência Detalhada: NF vs RMM";
           description := "Comparação item a item (agrupada por PN) entre Nota Fiscal e Relação de Materiais.";
           status := matchStatus;
           details := Some matchDetails;
           recommendation := None;
           subItems := if (0 <? List.length subItemsResults)%nat
                       then Some subItemsResults else None |}
    else if hasJustification then
      push results
        {| id := "rmm-check";
           title := "Entrada em Estoque (RMM)";
           description := "Conferência de entrada de material em estoque.";
           status := PASS;
           details := Some "Não há RMM, mas foi encontrada Informação Administrativa justificando a não entrada em estoque (consumo imediato ou substituição RMM).";
           recommendation := None;
           subItems := None |}
    else
      push results
        {| id := "rmm-check";
           title := "Entrada em Estoque (RMM)";
           description := "Materiais devem ter comprovante de entrada em estoque.";
           status := FAIL;
           details := Some "A Nota Fiscal contém itens de material/consumo, mas não foi encontrado RMM nem Informação Administrativa justificando a ausência.";
           recommendation := Some "Solicitar RMM ou Informação Administrativa justificando.";
           subItems := None |}
  else if NotaFiscal.isService (notaFiscal data) && negb (NotaFiscal.isMaterial (notaFiscal data)) then
    push results
      {| id := "rmm-check";
         title := "Entrada em Estoque";
         description := "Verificação de necessidade de RMM.";
         status := PASS;
         details := Some "Nota Fiscal identificada como Serviço. RMM não é obrigatório.";
         recommendation := None;
         subItems := None |}
  else results
else results.

(** ** 7. ND consistency *)

Definition rule_nd (data : ExtractedData) (results : list AuditResult) : list AuditResult :=
let ia := informacaoAdministrativa data in
if RelatorioFatura.found (relatorioFatura data)
   && (0 <? List.length (RelatorioFatura.empenhos (relatorioFatura data)))%nat
then
  let serviceNDs :=
    filter (fun e => includes (nd e) "339039") (RelatorioFatura.empenhos (relatorioFatura data)) in
  if (0 <? List.length serviceNDs)%nat && NotaFiscal.isMaterial (notaFiscal data) then
    if InformacaoAdministrativa.found ia && InformacaoAdministrativa.justifiesServiceND ia
       && negb (InformacaoAdministrativa.wrongDocumentDetected ia)
    then
      push results
        {| id := "nd-consistency";
           title := "Natureza de Despesa (ND)";
           description := "Compatibilidade da ND com o objeto da NF.";
           status := PASS;
           details := Some "Uso de ND de Serviço (339039) para materiais devidamente justificado pela Informação Administrativa.";
           recommendation := None;
           subItems := None |}
    else if InformacaoAdministrativa.found ia
            && negb (InformacaoAdministrativa.wrongDocumentDetected ia)
    then
      push results
        {| id := "nd-consistency";
           title := "Natureza de Despesa (ND)";
           description := "Compatibilidade da ND com o objeto da NF.";
           status := PASS;
           details := Some "Nota com materiais usando ND de Serviço. Informação Administrativa presente (presume-se justificativa).";
           recommendation := None;
           subItems := None |}
    else
      push results
        {| id := "nd-consistency";
           title := "Natureza de Despesa (ND)";
           description := "Verificar compatibilidade da ND com o objeto da NF.";
           status := WARNING;
           details := Some "Identificado empenho com ND de Serviço (339039) para uma Nota Fiscal que contém materiais, sem Informação Administrativa justificando (ex: material aplicado em serviço).";
           recommendation := Some "Verificar necessidade de Informação Administrativa para justificar o uso do empenho.";
           subItems := None |}
  else results
else results.

(** ** The whole function: the eight blocks in the order of the source,
    on [results] starting empty. *)
Definition runAuditRules (data : ExtractedData) : list AuditResult :=
let results := [] in
let results := rule_docValidation data results in
let results := rule_sicaf data results in
let results := rule_cnpj data results in
let results := rule_definitive data results in
let results := rule_value data results in
let results := rule_contractYear data results in
let results := rule_rmm data results in
let results := rule_nd data results in
results.

End Engine.

(* ---------------------------------------------------------------------- *)
(** * [handleAnalyze]: the CNPJ failsafe applied to the extracted data *)

Definition autoCorrectCnpj (data : ExtractedData) : ExtractedData :=
match TermoRecebimento.cnpj (termoRecebimento data) with
| Some trRaw =>
    if TermoRecebimento.found (termoRecebimento data)
       && truthy (TermoRecebimento.cnpj (termoRecebimento data))
       && NotaFiscal.found (notaFiscal data)
    then
      let trCnpj := onlyDigits trRaw in
      let currentNfCnpj :=
        match NotaFiscal.cnpj (notaFiscal data) with
        | Some nfRaw => if truthy (NotaFiscal.cnpj (notaFiscal data))
                        then onlyDigits nfRaw else EmptyString
        | None => EmptyString
        end in
      if negb (trCnpj =? currentNfCnpj)
         && (0 <? List.length (NotaFiscal.possibleCnpjs (notaFiscal data)))%nat
      then
        let found := find (fun c => onlyDigits c =? trCnpj)
                          (NotaFiscal.possibleCnpjs (notaFiscal data)) in
        if truthy found then set_notaFiscal_cnpj found data else data
      else data
    else data
| None => data
end.

(* ---------------------------------------------------------------------- *)
(** * [AuditCard.tsx]: how a finding is drawn *)

Module AuditCard.

(** [getStatusColor]: the classes of the card. *)
Definition getStatusColor (status : CheckStatus) : string :=
match status with
| PASS => "bg-green-50 border-green-200 text-green-800"
| FAIL => "bg-red-50 border-red-200 text-red-800"
| WARNING => "bg-yellow-50 border-yellow-200 text-yellow-800"
| _ => "bg-gray-50 border-gray-200 text-gray-800"
end.

(** [getIcon]: the classes of the icon element. *)
Definition getIcon (status : CheckStatus) : string :=
match status with
| PASS => "fas fa-check-circle text-xl text-green-600"
| FAIL => "fas fa-times-circle text-xl text-red-600"
| WARNING => "fas fa-exclamation-triangle text-xl text-yellow-600"
| _ => "fas fa-spinner fa-spin text-xl text-gray-400"
end.

(** The classes that colour the row of a sub-item. *)
Definition subItemColor (status : CheckStatus) : string :=
if CheckStatus_eqb status PASS then "bg-green-100/50 border-green-200 text-green-900"
else if CheckStatus_eqb status WARNING then "bg-yellow-100/50 border-yellow-200 text-yellow-900"
else "bg-red-100/50 border-red-200 text-red-900".

(** The classes of the icon of a sub-item. *)
Definition subItemIcon (status : CheckStatus) : string :=
if CheckStatus_eqb status PASS then "fas fa-check text-green-700"
else if CheckStatus_eqb status WARNING then "fas fa-exclamation text-yellow-700"
else "fas fa-times text-red-700".

(** [result.details && ...]: the analysis box is drawn. *)
Definition showDetails (result : AuditResult) : bool := truthy (details result).

(** [result.subItems && result.subItems.length > 0 && ...] *)
Definition showSubItems (result : AuditResult) : bool :=
match subItems result with
| Some items => (0 <? List.length items)%nat
| None => false
end.

(** [result.status !== CheckStatus.PASS && result.recommendation && ...] *)
Definition showRecommendation (result : AuditResult) : bool :=
negb (CheckStatus_eqb (status result) PASS) && truthy (recommendation result).

End AuditCard.

(* ---------------------------------------------------------------------- *)
(** * [fileToBase64] and the request of [geminiService.ts] *)

(** What the engine's callers read of a browser [File]. *)
Module File.
Record t : Type := mk {
  name : string;
  type : string
}.
End File.

(** [reader.result.split(',')[1]]: the value [fileToBase64] resolves to,
    [None] for [undefined]. *)
Definition base64OfDataUrl (result : string) : option string :=
nth_error (split "," result) 1.

(** An entry of [parts]. *)
Inductive Part : Type :=
| TextPart (text : string)
| InlineData (data : string) (mimeType : string).

Module ApiFilePart.
Record t : Type := mk {
  fileName : string;
  base64Data : string;
  mimeType : string
}.
End ApiFilePart.

(** The text pushed before the content of a file. *)
Definition fileNameText (fileName : string) : string :=
"*** FILE NAME: " ++ dq ++ fileName ++ dq ++ " ***" ++ nl
++ "(Analyze the following document content in the context of this filename)".

(** The text pushed after the files. *)
Definition promptText : string :=
"Analyze these documents and extract the fiscal data. Be extremely strict about classifying 'Informação Administrativa' - if a file named like an admin document actually contains a Nota Fiscal/DANFE layout, flag it as wrongDocumentDetected.".

(** The [parts] of [analyzeDocuments], given what [fileToBase64] resolves
    to on each file. *)
Definition analyzeDocuments_parts (fileToBase64 : File.t -> string) (files : list File.t)
    : list Part :=
let parts :=
  fold_left
    (fun parts file =>
       let base64Data := fileToBase64 file in
       let mimeType :=
         if File.type file =? "application/pdf" then "application/pdf" else File.type file in
       let parts := push parts (TextPart (fileNameText (File.name file))) in
       push parts (InlineData base64Data mimeType))
    files [] in
push parts (TextPart promptText).

(** The [parts] of [auditFromApi]. *)
Definition auditFromApi_parts (files : list ApiFilePart.t) : list Part :=
let parts :=
  fold_left
    (fun parts file =>
       let parts := push parts (TextPart (fileNameText (ApiFilePart.fileName file))) in
       push parts (InlineData (ApiFilePart.base64Data file) (ApiFilePart.mimeType file)))
    files [] in
push parts (TextPart promptText).

(* ---------------------------------------------------------------------- *)
(** * The state of [App] and its handlers *)

Inductive FileKind : Type := pdf | image.

Module FileWithPreview.
Record t : Type := mk {
  file : File.t;
  preview : string;
  type : FileKind
}.
End FileWithPreview.

(** [s.startsWith(t)] *)
Definition startsWith (s t : string) : bool := String.prefix t s.

(** The body of [newFiles.map] in [handleFilesSelected]. *)
Definition processFile (fileToBase64 : File.t -> string) (file : File.t) : FileWithPreview.t :=
{| FileWithPreview.file := file;
   FileWithPreview.preview :=
     if startsWith (File.type file) "image" then fileToBase64 file else EmptyString;
   FileWithPreview.type :=
     if File.type file =? "application/pdf" then pdf else image |}.

(** [xs.filter((_, i) => i !== index)], counting from [i]. *)
Fixpoint filterIndexFrom (A : Type) (i index : nat) (xs : list A) : list A :=
match xs with
| [] => []
| x :: rest =>
    if negb (i =? index)%nat then x :: filterIndexFrom (S i) index rest
    else filterIndexFrom (S i) index rest
end.

Record AppState : Type := mkAppState {
  files : list FileWithPreview.t;
  isAnalyzing : bool;
  extractedData : option ExtractedData;
  auditResults : list AuditResult;
  error : option string
}.

(** The initial values of the five [useState]. *)
Definition initialState : AppState :=
{| files := []; isAnalyzing := false; extractedData := None;
   auditResults := []; error := None |}.

(** [handleFilesSelected], once the previews are read. *)
Definition handleFilesSelected (fileToBase64 : File.t -> string) (newFiles : list File.t)
    (s : AppState) : AppState :=
let processedFiles := map (processFile fileToBase64) newFiles in
{| files := (files s ++ processedFiles)%list;
   isAnalyzing := isAnalyzing s;
   extractedData := extractedData s;
   auditResults := auditResults s;
   error := None |}.

Definition removeFile (index : nat) (s : AppState) : AppState :=
{| files := filterIndexFrom 0 index (files s);
   isAnalyzing := isAnalyzing s;
   extractedData := extractedData s;
   auditResults := auditResults s;
   error := error s |}.

(** The button Limpar: [setFiles([])]. *)
Definition clearFiles (s : AppState) : AppState :=
{| files := [];
   isAnalyzing := isAnalyzing s;
   extractedData := extractedData s;
   auditResults := auditResults s;
   error := error s |}.

Definition reset (s : AppState) : AppState :=
{| files := [];
   isAnalyzing := isAnalyzing s;
   extractedData := None;
   auditResults := [];
   error := None |}.

(** What the [await analyzeDocuments(rawFiles)] of [handleAnalyze] comes
    back with: extracted data of the declared type, on which neither the
    failsafe nor [runAuditRules] throws, or an exception. *)
Inductive Outcome : Type :=
| Extracted (data : ExtractedData)
| Thrown.

(** [handleAnalyze] up to its [await]. *)
Definition handleAnalyze_begin (s : AppState) : AppState :=
if (List.length (files s) =? 0)%nat then s
else {| files := files s;
        isAnalyzing := true;
        extractedData := extractedData s;
        auditResults := [];
        error := None |}.

(** [handleAnalyze] from its [await] on: the failsafe and the rules on the
    data, or the [catch]; then the [finally]. *)
Definition handleAnalyze_resume (host : Host) (o : Outcome) (s : AppState) : AppState :=
match o with
| Extracted data0 =>
    let data := autoCorrectCnpj data0 in
    let results := runAuditRules host data in
    {| files := files s;
       isAnalyzing := false;
       extractedData := Some data;
       auditResults := results;
       error := error s |}
| Thrown =>
    {| files := files s;
       isAnalyzing := false;
       extractedData := extractedData s;
       auditResults := auditResults s;
       error := Some "Ocorreu um erro ao analisar os documentos. Certifique-se de que os arquivos estão nítidos e contêm as informações necessárias." |}
end.

(** The upload section, with the button Auditar and the error box, is
    drawn: [auditResults.length === 0 && !extractedData]. *)
Definition introVisible (s : AppState) : bool :=
(List.length (auditResults s) =? 0)%nat
&& match extractedData s with Some _ => false | None => true end.

(** The button Auditar can be pressed: it is drawn, and not
    [disabled={isAnalyzing || files.length === 0}]. *)
Definition canAnalyze (s : AppState) : bool :=
introVisible s && negb (isAnalyzing s || (List.length (files s) =? 0)%nat).

(** What happens to the component. *)
Inductive Event : Type :=
| FilesRead (fileToBase64 : File.t -> string) (newFiles : list File.t)
| RemoveClicked (index : nat)
| ClearClicked
| AnalyzeClicked
| AnalysisReturned (o : Outcome)
| ResetClicked.

(** One event on the state: the state once the updates of the handler, up
    to its [await] or from it on, are applied.  The click on Auditar is
    taken only when the button can be pressed, and [analyzeDocuments]
    returns only while an analysis is running; the other events are taken
    in every state. *)
Definition dispatch (host : Host) (s : AppState) (e : Event) : AppState :=
match e with
| FilesRead fileToBase64 newFiles => handleFilesSelected fileToBase64 newFiles s
| RemoveClicked index => removeFile index s
| ClearClicked => clearFiles s
| AnalyzeClicked => if canAnalyze s then handleAnalyze_begin s else s
| AnalysisReturned o => if isAnalyzing s then handleAnalyze_resume host o s else s
| ResetClicked => reset s
end.

(** The state after a sequence of events from the initial state. *)
Definition run (host : Host) (events : list Event) : AppState :=
fold_left (dispatch host) events initialState.

(** ** The figures of the page *)

(** [auditResults.filter(r => r.status === s).length], the badges OK (for
    [PASS]) and Erro (for [FAIL]). *)
Definition countStatus (s : CheckStatus) (results : list AuditResult) : nat :=
List.length (filter (fun r => CheckStatus_eqb (status r) s) results).

(** The [useMemo] of the side panel: [isTrMismatch] and
    [isEmpenhosMismatch]. *)
Definition mismatches (extractedData : option ExtractedData) : bool * bool :=
match extractedData with
| None => (false, false)
| Some d =>
    match NotaFiscal.grossValue (notaFiscal d) with
    | None => (false, false)
    | Some nfVal =>
        if negb (JsNumber.truthy nfVal) then (false, false)
        else
          let trVal := TermoRecebimento.totalValue (termoRecebimento d) in
          let relatorioVal :=
            match RelatorioFatura.totalValue (relatorioFatura d) with
            | Some v => v
            | None =>
                if RelatorioFatura.found (relatorioFatura d)
                then fold_left (fun acc curr => PrimFloat.add acc (value curr))
                       (RelatorioFatura.empenhos (relatorioFatura d)) PrimFloat.zero
                else PrimFloat.zero
            end in
          let isTrMismatch :=
            match trVal with
            | Some t => PrimFloat.ltb 0.05 (PrimFloat.abs (PrimFloat.sub nfVal t))
            | None => false
            end in
          let isEmpenhosMismatch :=
            (match RelatorioFatura.totalValue (relatorioFatura d) with
             | Some _ => true
             | None => false
             end
             || (0 <? List.length (RelatorioFatura.empenhos (relatorioFatura d)))%nat)
            && PrimFloat.ltb 0.05 (PrimFloat.abs (PrimFloat.sub nfVal relatorioVal)) in
          (isTrMismatch, isEmpenhosMismatch)
    end
end.

(* ---------------------------------------------------------------------- *)
(** * Two hosts to run the engine on

    A host that reads ISO calendar dates ([YYYY-MM-DD], midnight UTC, as
    ECMA-262 fixes them) and rejects every other date string, renders
    numbers by the shortest-digits rule of [Number::toString], and formats
    dates and currency as the [pt-BR] locale does.  The host is a function
    of the offset of its time zone. *)

Module SampleHost.
Local Open Scope Z_scope.

Definition Z_to_string (z : Z) : string := NilZero.string_of_int (Z.to_int z).

Fixpoint digitsValue (acc : Z) (s : string) : option Z :=
match s with
| EmptyString => Some acc
| String c s' =>
    if isDigit c then digitsValue (10 * acc + (Z.of_N (code c) - 48)) s' else None
end.

Definition isLeap (y : Z) : bool :=
((y mod 4 =? 0) && negb (y mod 100 =? 0)) || (y mod 400 =? 0).

Definition daysInMonth (y m : Z) : Z :=
if m =? 2 then (if isLeap y then 29 else 28)
else if (m =? 4) || (m =? 6) || (m =? 9) || (m =? 11) then 30 else 31.

(** [YYYY-MM-DD] to its time value. *)
Definition parseIsoDate (s : string) : option Z :=
match split "-" s with
| [ys; ms; ds] =>
    if (String.length ys =? 4)%nat && (String.length ms =? 2)%nat
       && (String.length ds =? 2)%nat
    then match digitsValue 0 ys, digitsValue 0 ms, digitsValue 0 ds with
         | Some y, Some m, Some d =>
             if (1 <=? m) && (m <=? 12) && (1 <=? d) && (d <=? daysInMonth y m)
             then Some (Calendar.days_from_civil y m d * Calendar.msPerDay)
             else None
         | _, _, _ => None
         end
    else None
| _ => None
end.

Definition pad2 (z : Z) : string :=
if z <? 10 then "0" ++ Z_to_string z else Z_to_string z.

(** [dd/mm/yyyy] of the local day of a time value. *)
Definition formatLocalDate (tza : Z) (t : Z) : string :=
let '(y, m, d) := Calendar.civil_from_days (Calendar.Day (t + tza)) in
pad2 d ++ "/" ++ pad2 m ++ "/" ++ Z_to_string y.

(** The value of a finite number as sign, numerator and denominator. *)
Definition exact (x : float) : option (bool * Z * Z) :=
match Prim2SF x with
| S754_zero s => Some (s, 0, 1)
| S754_finite s m e =>
    if 0 <=? e then Some (s, Zpos m * 2 ^ e, 1) else Some (s, Zpos m, 2 ^ (- e))
| _ => None
end.

(** [10^n] as a fraction, for any integer [n]. *)
Definition pow10 (n : Z) : Z * Z :=
if 0 <=? n then (10 ^ n, 1) else (1, 10 ^ (- n)).

(** Comparison of fractions with positive denominators. *)
Definition qlt (a b : Z * Z) : bool := fst a * snd b <? fst b * snd a.
Definition qle (a b : Z * Z) : bool := fst a * snd b <=? fst b * snd a.
Definition qmid (a b : Z * Z) : Z * Z :=
(fst a * snd b + fst b * snd a, 2 * snd a * snd b).
Definition qdist (a b : Z * Z) : Z * Z :=
(Z.abs (fst a * snd b - fst b * snd a), snd a * snd b).

(** The least [n] from a starting point with [x < 10^n]. *)
Fixpoint magnitude (fuel : nat) (n : Z) (x : Z * Z) : Z :=
match fuel with
| O => n
| S fuel' => if qlt x (pow10 n) then n else magnitude fuel' (n + 1) x
end.

(** The interval of the reals that round to [x], for a positive finite
    [x], and whether its ends belong to it. *)
Definition roundingInterval (x : float) : option ((Z * Z) * (Z * Z) * bool) :=
match exact x, exact (PrimFloat.next_down x) with
| Some (_, n, d), Some (_, nd, dd) =>
    let v := (n, d) in
    let lo := qmid v (nd, dd) in
    let hi := match exact (PrimFloat.next_up x) with
              | Some (_, nu, du) => qmid v (nu, du)
              | None => (2 * fst v * snd lo - fst lo * snd v, snd v * snd lo)
              end in
    let even := match Prim2SF x with
                | S754_finite _ m _ => Z.even (Zpos m)
                | _ => true
                end in
    Some (lo, hi, even)
| _, _ => None
end.

Definition inInterval (iv : (Z * Z) * (Z * Z) * bool) (c : Z * Z) : bool :=
let '(lo, hi, closed) := iv in
if closed then qle lo c && qle c hi else qlt lo c && qlt c hi.

(** The candidates with [k] digits around [v]: [s * 10^(nx - k)] for [s]
    the floor and the floor plus one. *)
Definition candidates (v : Z * Z) (nx k : Z) : list (Z * Z) :=
let p := nx - k in
let scaled := (fst v * snd (pow10 p), snd v * fst (pow10 p)) in
let s := fst scaled / snd scaled in
[(s, p); (s + 1, p)].

Definition candValue (c : Z * Z) : Z * Z :=
let '(s, p) := c in (s * fst (pow10 p), snd (pow10 p)).

(** The closest candidate inside the interval. *)
Definition pick (iv : (Z * Z) * (Z * Z) * bool) (v : Z * Z) (cs : list (Z * Z)) : option (Z * Z) :=
match filter (fun c => inInterval iv (candValue c)) cs with
| [] => None
| [c] => Some c
| c1 :: c2 :: _ =>
    if qle (qdist (candValue c1) v) (qdist (candValue c2) v) then Some c1 else Some c2
end.

Fixpoint shortest (fuel : nat) (iv : (Z * Z) * (Z * Z) * bool) (v : Z * Z) (nx k : Z) : Z * Z :=
match fuel with
| O => (0, 0)
| S fuel' =>
    match pick iv v (candidates v nx k) with
    | Some c => c
    | None => shortest fuel' iv v nx (k + 1)
    end
end.

Fixpoint zeros (n : nat) : string :=
match n with
| O => EmptyString
| S n' => "0" ++ zeros n'
end.

(** Trailing zeros of the digits move into the exponent. *)
Fixpoint stripZeros (fuel : nat) (c : Z * Z) : Z * Z :=
match fuel with
| O => c
| S fuel' =>
    if (fst c mod 10 =? 0) && negb (fst c =? 0)
    then stripZeros fuel' (fst c / 10, snd c + 1) else c
end.

(** The digits [s], their count [k] and the position [n] of the decimal
    point, laid out as [Number::toString] does. *)
Definition layout (s p : Z) : string :=
let ds := Z_to_string s in
let k := Z.of_nat (String.length ds) in
let n := p + k in
if (k <=? n) && (n <=? 21) then ds ++ zeros (Z.to_nat (n - k))
else if (0 <? n) && (n <=? 21)
then String.substring 0 (Z.to_nat n) ds ++ "."
     ++ String.substring (Z.to_nat n) (Z.to_nat (k - n)) ds
else if (-6 <? n) && (n <=? 0) then "0." ++ zeros (Z.to_nat (- n)) ++ ds
else
  let e := n - 1 in
  let es := (if e <? 0 then "-" else "+") ++ Z_to_string (Z.abs e) in
  if k =? 1 then ds ++ "e" ++ es
  else String.substring 0 1 ds ++ "."
       ++ String.substring 1 (Z.to_nat (k - 1)) ds ++ "e" ++ es.

Definition positiveToString (x : float) : string :=
match exact x, roundingInterval x with
| Some (_, n, d), Some iv =>
    let nx := magnitude 700 (-330) (n, d) in
    let '(s, p) := stripZeros 20 (shortest 18 iv (n, d) nx 1) in
    layout s p
| _, _ => "NaN"
end.

Definition numberToString (x : float) : string :=
if JsNumber.isNaN x then "NaN"
else if PrimFloat.eqb x PrimFloat.zero then "0"
else if PrimFloat.eqb x PrimFloat.infinity then "Infinity"
else if PrimFloat.eqb x PrimFloat.neg_infinity then "-Infinity"
else if PrimFloat.ltb x PrimFloat.zero
then "-" ++ positiveToString (PrimFloat.opp x)
else positiveToString x.

(** Groups of three digits separated by a full stop. *)
Fixpoint groupThousands (fuel : nat) (z : Z) : string :=
match fuel with
| O => Z_to_string z
| S fuel' =>
    if z <? 1000 then Z_to_string z
    else groupThousands fuel' (z / 1000) ++ "."
         ++ (let r := z mod 1000 in
             if r <? 10 then "00" ++ Z_to_string r
             else if r <? 100 then "0" ++ Z_to_string r
             else Z_to_string r)
end.

(** The no-break space that follows the currency sign. *)
Definition nbsp : string := String (ascii_of_nat 160) EmptyString.

(** Currency of [pt-BR]: two decimals, halves rounded away from zero. *)
Definition formatBRL (x : float) : string :=
match exact x with
| Some (s, n, d) =>
    let cents := (2 * n * 100 + d) / (2 * d) in
    (if s then "-" else EmptyString) ++ "R$" ++ nbsp
    ++ groupThousands 120 (cents / 100) ++ "," ++ pad2 (cents mod 100)
| None =>
    if JsNumber.isNaN x then "R$" ++ nbsp ++ "NaN"
    else (if PrimFloat.ltb x PrimFloat.zero then "-" else EmptyString)
         ++ "R$" ++ nbsp ++ "∞"
end.

(** The host of a zone at a fixed offset from UTC, in minutes. *)
Definition atOffset (minutes : Z) : Host :=
{| Date_parse := parseIsoDate;
   LocalTZA := fun _ => minutes * 60000;
   DateTimeFormat_ptBR := formatLocalDate (minutes * 60000);
   NumberFormat_BRL := formatBRL;
   Number_toString := numberToString |}.

End SampleHost.

(** A host on UTC and a host on Brasília time (UTC-3). *)
Definition hostUTC : Host := SampleHost.atOffset 0.
Definition hostBRT : Host := SampleHost.atOffset (-180).

(* ---------------------------------------------------------------------- *)
(** * Bundles to run the engine on *)

Module Samples.

(** Nothing found in any document. *)
Definition blank : ExtractedData :=
{| sicaf := Sicaf.mk false None (mkSicafDates None None None None None);
   termoRecebimento :=
     TermoRecebimento.mk false None None false None false None None None;
   notaFiscal :=
     NotaFiscal.mk false None None None [] None None None false false [];
   relatorioFatura := RelatorioFatura.mk false None None None None [];
   rmm := Rmm.mk false [];
   informacaoAdministrativa :=
     InformacaoAdministrativa.mk false false false None false |}.

Definition with_sicaf (s : Sicaf.t) (d : ExtractedData) : ExtractedData :=
mkExtractedData s (termoRecebimento d) (notaFiscal d) (relatorioFatura d)
  (rmm d) (informacaoAdministrativa d).
Definition with_termo (t : TermoRecebimento.t) (d : ExtractedData) : ExtractedData :=
mkExtractedData (sicaf d) t (notaFiscal d) (relatorioFatura d)
  (rmm d) (informacaoAdministrativa d).
Definition with_nota (n : NotaFiscal.t) (d : ExtractedData) : ExtractedData :=
mkExtractedData (sicaf d) (termoRecebimento d) n (relatorioFatura d)
  (rmm d) (informacaoAdministrativa d).
Definition with_fatura (r : RelatorioFatura.t) (d : ExtractedData) : ExtractedData :=
mkExtractedData (sicaf d) (termoRecebimento d) (notaFiscal d) r
  (rmm d) (informacaoAdministrativa d).
Definition with_rmm (r : Rmm.t) (d : ExtractedData) : ExtractedData :=
mkExtractedData (sicaf d) (termoRecebimento d) (notaFiscal d)
  (relatorioFatura d) r (informacaoAdministrativa d).
Definition with_info (i : InformacaoAdministrativa.t) (d : ExtractedData) : ExtractedData :=
mkExtractedData (sicaf d) (termoRecebimento d) (notaFiscal d)
  (relatorioFatura d) (rmm d) i.

(** A receipt signed on 2024-03-10, definitive, for 1000.00. *)
Definition termo : TermoRecebimento.t :=
TermoRecebimento.mk true (Some "12.345.678/0001-99") (Some "2024-03-10") true
  (Some "2024-01-01") true (Some 2024%float) (Some 1000%float) (Some "102/CELOG").

(** Five certificates, the labour one expired before the signature. *)
Definition sicafB : Sicaf.t :=
Sicaf.mk true (Some "12345678000199")
  (mkSicafDates (Some "2024-06-30") (Some "2024-03-10") (Some "2024-03-09")
     (Some "2024-12-31") (Some "2025-01-15")).

(** A material invoice of 1000.00 gross and 950.00 net with two lines of
    one part number. *)
Definition nota : NotaFiscal.t :=
NotaFiscal.mk true (Some "4711") (Some "ACME Ltda") (Some "12.345.678/0001-99")
  ["12.345.678/0001-99"; "00.394.429/0001-00"] (Some "2024-03-01")
  (Some 1000%float) (Some 950%float) true false
  [ LineItem.mk "Parafuso sextavado M8" (Some "PN-100") 3%float (Some "UN");
    LineItem.mk "Parafuso sextavado M8 zincado" (Some "pn100") 2%float (Some "UN") ].

Definition rmmF : Rmm.t :=
Rmm.mk true [ LineItem.mk "PARAFUSO SEXT. M8" (Some "PN 100") 7%float (Some "UN") ].

Definition fatura : RelatorioFatura.t :=
RelatorioFatura.mk true (Some "2024-03-02") (Some "2024-03-05") (Some "2024-04-01")
  (Some 1000%float) [ mkEmpenho "2024NE000123" "339039" 1000%float ].

Definition info : InformacaoAdministrativa.t :=
InformacaoAdministrativa.mk true false false (Some "Material aplicado em serviço") false.

(** Every document present. *)
Definition full : ExtractedData :=
{| sicaf := sicafB; termoRecebimento := termo; notaFiscal := nota;
   relatorioFatura := fatura; rmm := rmmF; informacaoAdministrativa := info |}.

End Samples.

(* ---------------------------------------------------------------------- *)
(** * Definitions used to state the properties *)

(** ** The calendar *)

(** The first day of a year, as ECMA-262 defines it. *)
Definition DayFromYear (y : Z) : Z :=
(365 * (y - 1970) + (y - 1969) / 4 - (y - 1901) / 100 + (y - 1601) / 400)%Z.

(** A test on [n] consecutive days from [day]. *)
Fixpoint allDays (n : nat) (day : Z) (p : Z -> bool) : bool :=
match n with
| O => true
| S n' => p day && allDays n' (day + 1)%Z p
end.

(** ** The shape of the output *)

(** The rule categories in the order of the source, each with the ids its
    block can push. *)
Definition ruleOrder : list (list string) :=
[ ["doc-validation-info-admin"];
  ["sicaf-detailed"; "sicaf-missing"];
  ["cnpj-match"];
  ["tr-definitive"];
  ["value-check-gross"];
  ["contract-date"];
  ["rmm-check-detailed"; "rmm-check"];
  ["nd-consistency"] ].

Fixpoint indexFrom (n : nat) (groups : list (list string)) (i : string) : option nat :=
match groups with
| [] => None
| g :: rest => if existsb (String.eqb i) g then Some n else indexFrom (S n) rest i
end.

(** The position of the rule an id belongs to. *)
Definition ruleIndex (i : string) : option nat := indexFrom 0 ruleOrder i.

(** No status [PENDING] on a finding or on one of its sub-items. *)
Definition settled (r : AuditResult) : Prop :=
status r <> PENDING /\
forall subs, subItems r = Some subs ->
  Forall (fun s => SubItem.status s <> PENDING) subs.

(** What one block of the source adds to [results]: nothing, or one
    finding of the block's rule with no pending status. *)
Definition block (k : nat) (l : list AuditResult) : Prop :=
l = [] \/ exists r, l = [r] /\ ruleIndex (id r) = Some k /\ settled r.

(** The findings of an output that carry a given id. *)
Definition findingsWith (i : string) (l : list AuditResult) : list AuditResult :=
filter (fun r => id r =? i) l.

(** ** SICAF *)

(** The five validity dates in the order of [certChecks]. *)
Definition validityList (data : ExtractedData) : list (option string) :=
let v := Sicaf.validityDates (sicaf data) in
[federal_pgfn v; fgts v; trabalhista v; estadual_distrital v; municipal v].

(** The verdict the specification gives on one certificate with validity
    date [d], for a signature date [sig]: FAIL when the date is absent,
    FAIL when it is strictly before the signature, PASS when it is on or
    after it. *)
Definition certVerdict (host : Host) (sig d : option string) (s : SubItem.t) : Prop :=
(truthy d = false ->
   SubItem.status s = FAIL /\ SubItem.details s = "Data não encontrada") /\
(forall c g : Z,
   truthy d = true -> Date_getTime host d = Some c -> Date_getTime host sig = Some g ->
   ((c < g)%Z -> SubItem.status s = FAIL) /\
   ((g <= c)%Z -> SubItem.status s = PASS)).

(** ** Aggregation of line items *)

(** Normalization in the words of the specification: lower-case, then
    strip what is not alphanumeric. *)
Definition spec_normalize (s : string) : string := keep isAlnum (toLowerCase s).

(** The key of an item in the words of the specification. *)
Definition spec_key (item : LineItem.t) : string :=
match LineItem.partNumber item with
| Some pn =>
    if (2 <? String.length pn)%nat then spec_normalize pn
    else substring0 30 (spec_normalize (LineItem.description item))
| None => substring0 30 (spec_normalize (LineItem.description item))
end.

(** The members of the group of key [k], in the order of the list. *)
Definition groupOf (k : string) (items : list LineItem.t) : list LineItem.t :=
filter (fun it => itemKey it =? k) items.

(** The sum of the quantities of a group, added from zero in the order of
    the list. *)
Definition sumQty (g : list LineItem.t) : float :=
fold_left PrimFloat.add (map LineItem.quantity g) PrimFloat.zero.

(** The longest of a list of descriptions, the first of them when several
    are as long. *)
Fixpoint longestOf (ds : list string) : string :=
match ds with
| [] => EmptyString
| d :: rest =>
    let r := longestOf rest in
    if (String.length d <? String.length r)%nat then r else d
end.

(** The entry of a group: nothing for the empty group. *)
Definition summary (g : list LineItem.t) : option AggregatedItem :=
match g with
| [] => None
| first :: _ =>
    Some {| totalQty := sumQty g;
            agg_description := longestOf (map LineItem.description g);
            agg_partNumber := LineItem.partNumber first;
            originalCount := List.length g |}
end.

(** The distinct keys of a list, in the order of their first occurrence. *)
Fixpoint distinct (ks : list string) : list string :=
match ks with
| [] => []
| k :: rest => k :: filter (fun k' => negb (k' =? k)) (distinct rest)
end.

(** The entry created for a key met for the first time. *)
Definition fresh (item : LineItem.t) : AggregatedItem :=
{| totalQty := PrimFloat.zero;
   agg_description := LineItem.description item;
   agg_partNumber := LineItem.partNumber item;
   originalCount := 0 |}.

(** The entry of a key after one more item of that key. *)
Definition absorb (o : option AggregatedItem) (item : LineItem.t) : option AggregatedItem :=
Some (bumpEntry (match o with Some e => e | None => fresh item end) item).

(** The longer of the current description and a new one. *)
Definition longer (cur d : string) : string :=
if (String.length cur <? String.length d)%nat then d else cur.

(** ** Matching of the groups *)

(** [t] occurs in [s]. *)
Definition occursIn (t s : string) : Prop := exists a b, s = a ++ t ++ b.

(** The fuzzy test in the words of the specification: a token of the
    invoice group's description occurs in the lower-cased description of
    the stock-entry group. *)
Definition fuzzyAccepts (desc : string) (r : AggregatedItem) : Prop :=
exists token, In token (descTokens desc) /\ occursIn token (toLowerCase (agg_description r)).

(** [r] is the first element of [values] that satisfies [P]. *)
Definition firstSuch (P : AggregatedItem -> Prop) (values : list AggregatedItem)
    (r : AggregatedItem) : Prop :=
exists before after,
  values = (before ++ r :: after)%list /\ (forall x, In x before -> ~ P x) /\ P r.

(** The lookup as the specification states it: the exact key, and the
    fuzzy fallback whenever the key is absent. *)
Definition spec_findMatch (rmmMap : AggMap) (key : string) (nfItem : AggregatedItem)
    : option AggregatedItem :=
match Map_get rmmMap key with
| Some r => Some r
| None => fuzzyLoop (descTokens (agg_description nfItem)) (Map_values rmmMap)
end.

(** The sub-item pushed for an invoice group, given the result of its
    lookup. *)
Definition groupSubItem (host : Host) (nfItem : AggregatedItem)
    (rmmMatch : option AggregatedItem) : SubItem.t :=
match rmmMatch with
| Some r =>
    if JsNumber.within JsNumber.tol_qty (totalQty r) (totalQty nfItem)
    then SubItem.mk (groupLabel nfItem) PASS
           ("Qtd Total NF: " ++ Number_toString host (totalQty nfItem)
            ++ " = Qtd Total RMM: " ++ Number_toString host (totalQty r))
    else SubItem.mk (groupLabel nfItem) WARNING
           ("Divergência Qtd: NF(" ++ Number_toString host (totalQty nfItem)
            ++ ") vs RMM(" ++ Number_toString host (totalQty r) ++ ")")
| None => SubItem.mk (groupLabel nfItem) FAIL "Item não encontrado no RMM"
end.

(** ** The CNPJ failsafe *)

(** The normalized identifier of a record: its digits, nothing for a
    missing identifier. *)
Definition normId (o : option string) : string :=
match o with
| Some s => onlyDigits s
| None => EmptyString
end.

(** The condition of the specification for the replacement. *)
Definition spec_replaces (data : ExtractedData) : Prop :=
NotaFiscal.found (notaFiscal data) = true /\
TermoRecebimento.found (termoRecebimento data) = true /\
normId (NotaFiscal.cnpj (notaFiscal data)) <> normId (TermoRecebimento.cnpj (termoRecebimento data)) /\
exists c, In c (NotaFiscal.possibleCnpjs (notaFiscal data)) /\
          onlyDigits c = normId (TermoRecebimento.cnpj (termoRecebimento data)).

(** The condition of the source: the receipt's identifier is present and
    not empty, and the first listed value with the receipt's digits is not
    empty; [m] is that value. *)
Definition replacesWith (data : ExtractedData) (m : string) : Prop :=
NotaFiscal.found (notaFiscal data) = true /\
TermoRecebimento.found (termoRecebimento data) = true /\
exists trRaw,
  TermoRecebimento.cnpj (termoRecebimento data) = Some trRaw /\
  trRaw <> EmptyString /\
  normId (NotaFiscal.cnpj (notaFiscal data)) <> onlyDigits trRaw /\
  find (fun c => onlyDigits c =? onlyDigits trRaw)
       (NotaFiscal.possibleCnpjs (notaFiscal data)) = Some m /\
  m <> EmptyString.

(** ** The output and the host *)

(** Two hosts that answer alike. *)
Definition sameHost (h1 h2 : Host) : Prop :=
(forall s, Date_parse h1 s = Date_parse h2 s) /\
(forall t, LocalTZA h1 t = LocalTZA h2 t) /\
(forall t, DateTimeFormat_ptBR h1 t = DateTimeFormat_ptBR h2 t) /\
(forall x, NumberFormat_BRL h1 x = NumberFormat_BRL h2 x) /\
(forall x, Number_toString h1 x = Number_toString h2 x).

(** ** More bundles *)

(** The invoice and the receipt of a bundle replaced by a pair with the
    given gross, net and total values. *)
Definition valueBundle (g : float) (l : option float) (t : float) : ExtractedData :=
Samples.with_nota
  (NotaFiscal.mk true None None None [] None (Some g) l false true [])
  (Samples.with_termo
     (TermoRecebimento.mk true None None true None false None (Some t) None)
     Samples.blank).

(** An invoice line without part number and a stock-entry line of another
    key whose description shares a word with it. *)
Definition fuzzyBundle : ExtractedData :=
Samples.with_nota
  (NotaFiscal.mk true None None None [] None None None true false
     [ LineItem.mk "Parafuso sextavado M8" None 10%float (Some "UN") ])
  (Samples.with_rmm
     (Rmm.mk true
        [ LineItem.mk "PARAFUSO SEXT. M8 ZINCADO" (Some "PN-100") 10%float (Some "UN") ])
     Samples.blank).

(** The invoice group and the stock-entry group of [fuzzyBundle]. *)
Definition fuzzyNfGroup : AggregatedItem :=
{| totalQty := 10%float;
   agg_description := "Parafuso sextavado M8";
   agg_partNumber := None;
   originalCount := 1 |}.

Definition fuzzyRmmGroup : AggregatedItem :=
{| totalQty := 10%float;
   agg_description := "PARAFUSO SEXT. M8 ZINCADO";
   agg_partNumber := Some "PN-100";
   originalCount := 1 |}.

(** A receipt whose identifier is the empty string, next to an invoice
    with an identifier and a listed value without digits. *)
Definition emptyReceiptId : ExtractedData :=
Samples.with_nota
  (NotaFiscal.mk true None None (Some "12.345.678/0001-99") ["S/N"] None None None
     true false [])
  (Samples.with_termo
     (TermoRecebimento.mk true (Some EmptyString) None true None false None None None)
     Samples.blank).

(** An invoice whose listed values hold the receipt's identifier. *)
Definition wrongIssuer : ExtractedData :=
Samples.with_nota
  (NotaFiscal.mk true None None (Some "00.394.429/0001-00")
     ["00.394.429/0001-00"; "12.345.678/0001-99"] None None None true false [])
  (Samples.with_termo Samples.termo Samples.blank).

(** Only the SICAF carries an identifier. *)
Definition sicafOnly : ExtractedData :=
Samples.with_sicaf
  (Sicaf.mk true (Some "12.345.678/0001-99") (mkSicafDates None None None None None))
  Samples.blank.

(** A receipt whose bulletin is dated on the first day of the year the
    contract starts. *)
Definition newYearBulletin : ExtractedData :=
Samples.with_termo
  (TermoRecebimento.mk true None None true (Some "2024-01-01") true
     (Some 2024%float) None None)
  Samples.blank.

(* ---------------------------------------------------------------------- *)
(** * Definitions used to state further properties *)

(** ** Findings *)

(** A finding the card can draw whole: an analysis text that is not
    empty, a recommendation (when there is one) that is not empty and sits
    on a finding that is not a PASS, and a list of sub-items (when there is
    one) that is not empty. *)
Definition wellFormed (r : AuditResult) : Prop :=
(exists s, details r = Some s /\ s <> EmptyString) /\
(forall s, recommendation r = Some s -> s <> EmptyString /\ status r <> PASS) /\
(forall l, subItems r = Some l -> l <> []).

(** Every finding of a list comes from rule [n] or a later one. *)
Definition fromRule (n : nat) (l : list AuditResult) : Prop :=
Forall (fun r => exists k, ruleIndex (id r) = Some k /\ n <= k) l.

(** The worst of a list of statuses, in the order PASS, WARNING, FAIL. *)
Definition worstOf (l : list CheckStatus) : CheckStatus :=
if existsb (fun s => CheckStatus_eqb s FAIL) l then FAIL
else if existsb (fun s => CheckStatus_eqb s WARNING) l then WARNING
else PASS.

(** What a finding says, without its texts: id, status, and the labels
    and statuses of its sub-items. *)
Definition verdict (r : AuditResult) : string * CheckStatus * option (list (string * CheckStatus)) :=
(id r, status r,
 option_map (map (fun s => (SubItem.label s, SubItem.status s))) (subItems r)).

(** The findings other than that of the contract year. *)
Definition withoutContractDate (l : list AuditResult) : list AuditResult :=
filter (fun r => negb (id r =? "contract-date")) l.

(** Two states of the loop over the invoice groups with the same labels
    and statuses. *)
Definition alike (st1 st2 : list SubItem.t * CheckStatus) : Prop :=
map (fun s => (SubItem.label s, SubItem.status s)) (fst st1)
= map (fun s => (SubItem.label s, SubItem.status s)) (fst st2)
/\ snd st1 = snd st2.

(** ** CNPJ *)

(** The raw CNPJs that are present (not null, not empty), in the order
    invoice, receipt, SICAF. *)
Definition presentCnpjs (data : ExtractedData) : list string :=
flat_map (fun o => match o with
                   | Some s => if truthy o then [s] else []
                   | None => []
                   end)
  [ NotaFiscal.cnpj (notaFiscal data);
    TermoRecebimento.cnpj (termoRecebimento data);
    Sicaf.cnpj (sicaf data) ].

(** ** Strings *)

(** Every character of a string passes a test. *)
Fixpoint allChars (p : ascii -> bool) (s : string) : bool :=
match s with
| EmptyString => true
| String c s' => p c && allChars p s'
end.

(** A character does not occur in a string. *)
Definition noChar (c : ascii) (s : string) : Prop :=
allChars (fun x => negb (Ascii.eqb x c)) s = true.

(** [a-z0-9] *)
Definition isLowerAlnum (c : ascii) : bool := isLowerAZ c || isDigit c.

(** ** Aggregation *)

(** The number of lines counted in a map. *)
Definition countedLines (m : AggMap) : nat :=
list_sum (map (fun kv => originalCount (snd kv)) m).

(** ** The application *)

(** What holds of the state of [App] after every sequence of events. *)
Definition consistent (host : Host) (s : AppState) : Prop :=
match extractedData s with
| None => auditResults s = []
| Some d => auditResults s = runAuditRules host d /\ exists d0, d = autoCorrectCnpj d0
end /\
(isAnalyzing s = true -> extractedData s = None /\ error s = None) /\
(error s <> None -> extractedData s = None).

(** The request of [analyzeDocuments] as [auditFromApi] receives it. *)
Definition toApiFilePart (fileToBase64 : File.t -> string) (file : File.t) : ApiFilePart.t :=
{| ApiFilePart.fileName := File.name file;
   ApiFilePart.base64Data := fileToBase64 file;
   ApiFilePart.mimeType := File.type file |}.

(** A file of each kind, and what reading them gives. *)
Definition sampleFiles : list File.t :=
[ File.mk "nota.pdf" "application/pdf"; File.mk "termo.png" "image/png" ].

Definition sampleRead (file : File.t) : string :=
if File.name file =? "nota.pdf" then "JVBERi0xLjQ=" else "iVBORw0KGgo=".

(** An analysis that fails. *)
Definition failedAnalysis : list Event :=
[ FilesRead sampleRead sampleFiles; AnalyzeClicked; AnalysisReturned Thrown ].

(** An analysis that returns every document. *)
Definition fullAnalysis : list Event :=
[ FilesRead sampleRead sampleFiles; AnalyzeClicked;
  AnalysisReturned (Extracted Samples.full) ].

(** Every document present, with a file sent as administrative note that
    is another document but carries both justifications. *)
Definition wrongNote : ExtractedData :=
Samples.with_info
  (InformacaoAdministrativa.mk true true true (Some "Material aplicado em serviço") true)
  Samples.full.

(** ** Amounts *)

(** The amount of [n] cents as a JSON number gives it: the binary64 value
    nearest to [n / 100]. *)
Definition cents (n : Z) : float := PrimFloat.div (JsNumber.ofZ n) 100.

(** ** Dates read by the host *)

(** The date strings the SICAF check hands to [new Date] and compares:
    the signature date of the receipt and the validity dates. *)
Definition comparedDates (data : ExtractedData) : list string :=
flat_map (fun o => match o with
                   | Some s => [s]
                   | None => []
                   end)
  (TermoRecebimento.signatureDate (termoRecebimento data)
   :: map dateStr (certChecks data)).

(** [MM/DD/YYYY] to the time value of that day at midnight UTC. *)
Definition parseSlashDate (s : string) : option Z :=
match split "/" s with
| [ms; ds; ys] =>
    if (String.length ys =? 4)%nat && (String.length ms =? 2)%nat
       && (String.length ds =? 2)%nat
    then match SampleHost.digitsValue 0 ys, SampleHost.digitsValue 0 ms,
               SampleHost.digitsValue 0 ds with
         | Some y, Some m, Some d =>
             if ((1 <=? m) && (m <=? 12) && (1 <=? d)
                 && (d <=? SampleHost.daysInMonth y m))%Z
             then Some (Calendar.days_from_civil y m d * Calendar.msPerDay)%Z
             else None
         | _, _, _ => None
         end
    else None
| _ => None
end.

(** A host that reads [YYYY-MM-DD] as midnight UTC and, as browsers do,
    [MM/DD/YYYY] as midnight of its own zone. *)
Definition zonedHost (minutes : Z) : Host :=
{| Date_parse := fun s =>
     match SampleHost.parseIsoDate s with
     | Some t => Some t
     | None => option_map (fun t => (t - minutes * 60000)%Z) (parseSlashDate s)
     end;
   LocalTZA := LocalTZA (SampleHost.atOffset minutes);
   DateTimeFormat_ptBR := DateTimeFormat_ptBR (SampleHost.atOffset minutes);
   NumberFormat_BRL := NumberFormat_BRL (SampleHost.atOffset minutes);
   Number_toString := Number_toString (SampleHost.atOffset minutes) |}.

(** Every document present, with the signature date of the receipt
    written month/day/year and certificates valid until that day. *)
Definition slashSignature : ExtractedData :=
Samples.with_sicaf
  (Sicaf.mk true (Some "12345678000199")
     (mkSicafDates (Some "2024-03-10") (Some "2024-03-10") (Some "2024-03-10")
        (Some "2024-03-10") (Some "2024-03-10")))
  (Samples.with_termo
     (TermoRecebimento.mk true (Some "12.345.678/0001-99") (Some "03/10/2024") true
        (Some "2024-01-01") true (Some 2024%float) (Some 1000%float) (Some "102/CELOG"))
     Samples.full).

(* ---------------------------------------------------------------------- *)
(** * The shape of the output *)

Ltac case_cond :=
match goal with
| |- context [if ?c then _ else _] => destruct c eqn:?
| |- context [match ?x with Some _ => _ | None => _ end] => destruct x eqn:?
| |- context [let '(_, _) := ?x in _] => destruct x eqn:?
end.

Ltac by_cases := repeat (try reflexivity; case_cond).

Ltac one_finding :=
right; eexists; split; [reflexivity | split; [reflexivity | split;
  [ simpl; try case_cond; discriminate
  | simpl; intros ? ?; discriminate ] ]].

Section Shape.

Variable host : Host.
Variable data : ExtractedData.

Lemma rule_docValidation_app results :
  rule_docValidation data results = (results ++ rule_docValidation data [])%list.
Proof. unfold rule_docValidation, push. by_cases. now rewrite app_nil_r. Qed.

Lemma rule_sicaf_app results :
  rule_sicaf host data results = (results ++ rule_sicaf host data [])%list.
Proof. unfold rule_sicaf, push. case_cond; reflexivity. Qed.

Lemma rule_cnpj_app results :
  rule_cnpj data results = (results ++ rule_cnpj data [])%list.
Proof.
  unfold rule_cnpj, push. destruct (collectCnpjs data) as [cnpjs srcs].
  repeat case_cond; try reflexivity. now rewrite app_nil_r.
Qed.

Lemma rule_definitive_app results :
  rule_definitive data results = (results ++ rule_definitive data [])%list.
Proof. unfold rule_definitive, push. repeat case_cond; try reflexivity. now rewrite app_nil_r. Qed.

Lemma rule_value_app results :
  rule_value host data results = (results ++ rule_value host data [])%list.
Proof.
  unfold rule_value, push.
  destruct (_ && _); [ | now rewrite app_nil_r ].
  destruct (NotaFiscal.grossValue _); [ | now rewrite app_nil_r ].
  destruct (TermoRecebimento.totalValue _); [ reflexivity | now rewrite app_nil_r ].
Qed.

Lemma rule_contractYear_app results :
  rule_contractYear host data results = (results ++ rule_contractYear host data [])%list.
Proof.
  unfold rule_contractYear, push.
  destruct (TermoRecebimento.contractStartYear _); [ | now rewrite app_nil_r ].
  destruct (_ && _); [ | now rewrite app_nil_r ].
  destruct (PrimFloat.ltb _ _); [ reflexivity | now rewrite app_nil_r ].
Qed.

Lemma rule_rmm_app results :
  rule_rmm host data results = (results ++ rule_rmm host data [])%list.
Proof.
  unfold rule_rmm, push.
  destruct (NotaFiscal.found _); [ | now rewrite app_nil_r ].
  destruct (NotaFiscal.isMaterial _).
  - destruct (Rmm.found _).
    + destruct (crossCheck host data) as [[subs st] det]. reflexivity.
    + destruct (_ && _); reflexivity.
  - destruct (_ && _); [ reflexivity | now rewrite app_nil_r ].
Qed.

Lemma rule_nd_app results :
  rule_nd data results = (results ++ rule_nd data [])%list.
Proof.
  unfold rule_nd, push.
  destruct (_ && _); [ | now rewrite app_nil_r ].
  destruct (_ && _); [ | now rewrite app_nil_r ].
  destruct (_ && _ && _); [ reflexivity | ].
  destruct (_ && _); reflexivity.
Qed.

(** The output is the concatenation of what the eight blocks push, in the
    order of the source. *)
Lemma runAuditRules_blocks :
  runAuditRules host data =
  (rule_docValidation data [] ++ rule_sicaf host data [] ++ rule_cnpj data []
   ++ rule_definitive data [] ++ rule_value host data []
   ++ rule_contractYear host data [] ++ rule_rmm host data []
   ++ rule_nd data [])%list.
Proof.
  unfold runAuditRules.
  rewrite rule_nd_app, rule_rmm_app, rule_contractYear_app, rule_value_app,
    rule_definitive_app, rule_cnpj_app, rule_sicaf_app.
  now rewrite <- !app_assoc.
Qed.

(** ** The sub-items of the certificate check and of the line check *)

Lemma certSubItem_status sig cert :
  SubItem.status (certSubItem host sig cert) = PASS \/
  SubItem.status (certSubItem host sig cert) = FAIL.
Proof.
  unfold certSubItem. destruct (truthy (dateStr cert)); [ | now right ].
  destruct (Date_ge _ _); [ now left | now right ].
Qed.

Lemma certSubItems_settled sig certs :
  Forall (fun s => SubItem.status s <> PENDING) (map (certSubItem host sig) certs).
Proof.
  induction certs as [ | c rest IH ]; simpl; constructor; [ | exact IH ].
  destruct (certSubItem_status sig c) as [-> | ->]; discriminate.
Qed.

Lemma matchStep_settled rmmMap st kv :
  Forall (fun s => SubItem.status s <> PENDING) (fst st) -> snd st <> PENDING ->
  Forall (fun s => SubItem.status s <> PENDING) (fst (matchStep host rmmMap st kv)) /\
  snd (matchStep host rmmMap st kv) <> PENDING.
Proof.
  destruct st as [subs ms], kv as [key nfItem]. simpl. intros Hs Hm.
  unfold matchStep, push.
  destruct (findRmmMatch rmmMap key nfItem) as [r | ].
  - destruct (JsNumber.within _ _ _); simpl; split; try assumption;
      try (apply Forall_app; split; [ assumption | repeat constructor; discriminate ]).
    destruct (negb _); [ discriminate | assumption ].
  - simpl. split; [ | discriminate ].
    apply Forall_app; split; [ assumption | repeat constructor; discriminate ].
Qed.

Lemma matchLoop_settled rmmMap nfMap : forall st,
  Forall (fun s => SubItem.status s <> PENDING) (fst st) -> snd st <> PENDING ->
  Forall (fun s => SubItem.status s <> PENDING)
    (fst (fold_left (matchStep host rmmMap) nfMap st)) /\
  snd (fold_left (matchStep host rmmMap) nfMap st) <> PENDING.
Proof.
  induction nfMap as [ | kv rest IH ]; intros st Hs Hm; simpl.
  - now split.
  - destruct (matchStep_settled rmmMap st kv Hs Hm) as [Hs' Hm'].
    now apply IH.
Qed.

Lemma crossCheck_settled :
  Forall (fun s => SubItem.status s <> PENDING) (fst (fst (crossCheck host data))) /\
  snd (fst (crossCheck host data)) <> PENDING.
Proof.
  unfold crossCheck. destruct (NotaFiscal.items (notaFiscal data)) as [ | it its ].
  - simpl. split; [ constructor | discriminate ].
  - set (nfMap := aggregateItems (it :: its)).
    set (rmmMap := aggregateItems (Rmm.items (rmm data))).
    destruct (@matchLoop_settled rmmMap nfMap ([], PASS)) as [Hs Hm];
      [ constructor | discriminate | ].
    destruct (fold_left _ _ _) as [subs ms]. simpl in *. now split.
Qed.

(** ** Each block pushes at most one finding, of its own rule *)

Lemma block_docValidation : block 0 (rule_docValidation data []).
Proof.
  unfold rule_docValidation, push. case_cond; [ one_finding | now left ].
Qed.

Lemma block_sicaf : block 1 (rule_sicaf host data []).
Proof.
  unfold rule_sicaf, push. case_cond.
  - right; eexists; split; [ reflexivity | split; [ reflexivity | split ] ].
    + simpl. case_cond; discriminate.
    + cbn [subItems]. intros subs [= <-].
      exact (certSubItems_settled (Date_getTime host
        (TermoRecebimento.signatureDate (termoRecebimento data))) (certChecks data)).
  - one_finding.
Qed.

Lemma block_cnpj : block 2 (rule_cnpj data []).
Proof.
  unfold rule_cnpj, push. destruct (collectCnpjs data) as [cnpjs srcs].
  repeat case_cond; [ one_finding | one_finding | now left ].
Qed.

Lemma block_definitive : block 3 (rule_definitive data []).
Proof.
  unfold rule_definitive, push. repeat case_cond; [ one_finding | one_finding | now left ].
Qed.

Lemma valueFinding_id g l t : id (valueFinding host g l t) = "value-check-gross".
Proof. unfold valueFinding. repeat case_cond; reflexivity. Qed.

Lemma valueFinding_settled g l t : settled (valueFinding host g l t).
Proof.
  unfold valueFinding, settled.
  destruct (JsNumber.within _ g t); [ split; [ discriminate | intros ?; discriminate ] | ].
  destruct (match l with Some _ => _ | None => _ end);
    (split; [ discriminate | intros ?; discriminate ]).
Qed.

Lemma block_value : block 4 (rule_value host data []).
Proof.
  unfold rule_value, push.
  destruct (_ && _); [ | now left ].
  destruct (NotaFiscal.grossValue _) as [g | ]; [ | now left ].
  destruct (TermoRecebimento.totalValue _) as [t | ]; [ | now left ].
  right; eexists; split; [ reflexivity | split ].
  - now rewrite valueFinding_id.
  - apply valueFinding_settled.
Qed.

Lemma block_contractYear : block 5 (rule_contractYear host data []).
Proof.
  unfold rule_contractYear, push.
  destruct (TermoRecebimento.contractStartYear _); [ | now left ].
  destruct (_ && _); [ | now left ].
  destruct (PrimFloat.ltb _ _); [ one_finding | now left ].
Qed.

Lemma block_rmm : block 6 (rule_rmm host data []).
Proof.
  unfold rule_rmm, push.
  destruct (NotaFiscal.found _); [ | now left ].
  destruct (NotaFiscal.isMaterial _).
  - destruct (Rmm.found _).
    + pose proof crossCheck_settled as [Hs Hm].
      destruct (crossCheck host data) as [[subs st] det]. simpl in *.
      right; eexists; split; [ reflexivity | split; [ reflexivity | split ] ].
      * exact Hm.
      * simpl. destruct (0 <? List.length subs)%nat; [ | discriminate ].
        now intros ? [= <-].
    + destruct (_ && _); one_finding.
  - destruct (_ && _); [ one_finding | now left ].
Qed.

Lemma block_nd : block 7 (rule_nd data []).
Proof.
  unfold rule_nd, push.
  destruct (_ && _); [ | now left ].
  destruct (_ && _); [ | now left ].
  destruct (_ && _ && _); [ one_finding | ].
  destruct (_ && _); one_finding.
Qed.

End Shape.


(* ---------------------------------------------------------------------- *)
(** * Findings by id, rule order, settled statuses *)

Lemma block_other (k : nat) (l : list AuditResult) (i : string) (j : nat) :
  block k l -> ruleIndex i = Some j -> j <> k -> findingsWith i l = [].
Proof.
  intros [-> | [r [-> [Hr _]]]] Hi Hjk; [ reflexivity | ].
  unfold findingsWith. simpl. destruct (id r =? i) eqn:E; [ | reflexivity ].
  apply String.eqb_eq in E. rewrite E in Hr. congruence.
Qed.

Lemma block_ranks (k : nat) (l : list AuditResult) :
  block k l ->
  exists ks, map (fun r => ruleIndex (id r)) l = map Some ks /\ (ks = [] \/ ks = [k]).
Proof.
  intros [-> | [r [-> [Hr _]]]].
  - exists []. split; [ reflexivity | now left ].
  - exists [k]. split; [ simpl; now rewrite Hr | now right ].
Qed.

Lemma block_settled (k : nat) (l : list AuditResult) : block k l -> Forall settled l.
Proof.
  intros [-> | [r [-> [_ Hr]]]]; [ constructor | ].
  constructor; [ exact Hr | constructor ].
Qed.

Section ById.

Variable host : Host.
Variable data : ExtractedData.

(** The findings of an id are those of the block of its rule. *)
Lemma findingsWith_block (i : string) (j : nat) :
  ruleIndex i = Some j ->
  findingsWith i (runAuditRules host data) =
  findingsWith i
    (nth j [ rule_docValidation data []; rule_sicaf host data []; rule_cnpj data [];
             rule_definitive data []; rule_value host data [];
             rule_contractYear host data []; rule_rmm host data [];
             rule_nd data [] ] []).
Proof.
  intros Hi. rewrite runAuditRules_blocks.
  pose proof (fun n (H : j <> n) l (B : block n l) => @block_other n l i j B Hi H) as other.
  unfold findingsWith in *. rewrite !filter_app.
  do 8 (destruct j as [ | j ];
        [ repeat first
            [ rewrite (other 0%nat ltac:(discriminate) _ (block_docValidation data))
            | rewrite (other 1%nat ltac:(discriminate) _ (block_sicaf host data))
            | rewrite (other 2%nat ltac:(discriminate) _ (block_cnpj data))
            | rewrite (other 3%nat ltac:(discriminate) _ (block_definitive data))
            | rewrite (other 4%nat ltac:(discriminate) _ (block_value host data))
            | rewrite (other 5%nat ltac:(discriminate) _ (block_contractYear host data))
            | rewrite (other 6%nat ltac:(discriminate) _ (block_rmm host data))
            | rewrite (other 7%nat ltac:(discriminate) _ (block_nd data)) ];
          cbn [app nth]; now rewrite ?app_nil_r
        | ]).
  rewrite (other 0%nat ltac:(discriminate) _ (block_docValidation data)),
    (other 1%nat ltac:(discriminate) _ (block_sicaf host data)),
    (other 2%nat ltac:(discriminate) _ (block_cnpj data)),
    (other 3%nat ltac:(discriminate) _ (block_definitive data)),
    (other 4%nat ltac:(discriminate) _ (block_value host data)),
    (other 5%nat ltac:(discriminate) _ (block_contractYear host data)),
    (other 6%nat ltac:(discriminate) _ (block_rmm host data)),
    (other 7%nat ltac:(discriminate) _ (block_nd data)).
  now destruct j.
Qed.

End ById.

(** C8: for every host and bundle, each finding of the output carries an id
    of one of the eight rules, and along the output the rule positions
    (document validation, SICAF, CNPJ, definitive receipt, value check,
    contract year, RMM, ND) are strictly increasing: every emitted finding
    stands in the order of the rules relative to the others, and no rule
    emits twice. *)
Theorem C8_findings_in_rule_order (host : Host) (data : ExtractedData) :
  exists ks : list nat,
    map (fun r => ruleIndex (id r)) (runAuditRules host data) = map Some ks /\
    StronglySorted lt ks.
Proof.
  rewrite runAuditRules_blocks, !map_app.
  destruct (block_ranks (block_docValidation data)) as [k0 [-> H0]].
  destruct (block_ranks (block_sicaf host data)) as [k1 [-> H1]].
  destruct (block_ranks (block_cnpj data)) as [k2 [-> H2]].
  destruct (block_ranks (block_definitive data)) as [k3 [-> H3]].
  destruct (block_ranks (block_value host data)) as [k4 [-> H4]].
  destruct (block_ranks (block_contractYear host data)) as [k5 [-> H5]].
  destruct (block_ranks (block_rmm host data)) as [k6 [-> H6]].
  destruct (block_ranks (block_nd data)) as [k7 [-> H7]].
  exists (k0 ++ k1 ++ k2 ++ k3 ++ k4 ++ k5 ++ k6 ++ k7)%list.
  split; [ now rewrite !map_app | ].
  destruct H0 as [-> | ->], H1 as [-> | ->], H2 as [-> | ->], H3 as [-> | ->],
    H4 as [-> | ->], H5 as [-> | ->], H6 as [-> | ->], H7 as [-> | ->];
    simpl; repeat (constructor; try lia).
Qed.

(** C10: for every host and bundle, no finding of the output and no
    sub-item of a finding has the status [PENDING]. *)
Theorem C10_no_pending_status (host : Host) (data : ExtractedData) :
  Forall (fun r =>
            status r <> PENDING /\
            forall subs, subItems r = Some subs ->
              Forall (fun s => SubItem.status s <> PENDING) subs)
         (runAuditRules host data).
Proof.
  change (Forall settled (runAuditRules host data)).
  rewrite runAuditRules_blocks.
  repeat (apply Forall_app; split);
    eauto using block_settled, block_docValidation, block_sicaf, block_cnpj,
      block_definitive, block_value, block_contractYear, block_rmm, block_nd.
Qed.


(* ---------------------------------------------------------------------- *)
(** * ND consistency (rule 7) *)

(** C6: when the billing report is found, one of its commitments has a
    service ND (a code containing 339039), the invoice is flagged material,
    and the administrative note is found and not flagged as a wrong
    document but does not justify the service ND, the output has exactly
    one finding [nd-consistency]; it is a PASS, presumed justified by the
    presence of the note, and carries no recommendation. *)
Theorem C6_nd_presumed_justified (host : Host) (data : ExtractedData) (e : Empenho) :
  RelatorioFatura.found (relatorioFatura data) = true ->
  In e (RelatorioFatura.empenhos (relatorioFatura data)) ->
  includes (nd e) "339039" = true ->
  NotaFiscal.isMaterial (notaFiscal data) = true ->
  InformacaoAdministrativa.found (informacaoAdministrativa data) = true ->
  InformacaoAdministrativa.wrongDocumentDetected (informacaoAdministrativa data) = false ->
  InformacaoAdministrativa.justifiesServiceND (informacaoAdministrativa data) = false ->
  exists r,
    findingsWith "nd-consistency" (runAuditRules host data) = [r] /\
    status r = PASS /\
    details r = Some "Nota com materiais usando ND de Serviço. Informação Administrativa presente (presume-se justificativa)." /\
    recommendation r = None.
Proof.
  intros Hfound Hin Hnd Hmat Hia Hwrong Hjust.
  rewrite (@findingsWith_block host data "nd-consistency" 7 eq_refl). cbn [nth].
  unfold rule_nd, push.
  rewrite Hfound, Hmat, Hia, Hwrong, Hjust.
  assert (Hlen : (0 <? List.length (RelatorioFatura.empenhos (relatorioFatura data)))%nat = true).
  { destruct (RelatorioFatura.empenhos (relatorioFatura data)); [ contradiction | reflexivity ]. }
  assert (Hsvc : (0 <? List.length
                    (filter (fun e0 => includes (nd e0) "339039")
                       (RelatorioFatura.empenhos (relatorioFatura data))))%nat = true).
  { assert (Hf : In e (filter (fun e0 => includes (nd e0) "339039")
                         (RelatorioFatura.empenhos (relatorioFatura data))))
      by (apply filter_In; now split).
    destruct (filter _ _); [ contradiction | reflexivity ]. }
  rewrite Hlen, Hsvc. cbn [andb negb app].
  eexists. split; [ reflexivity | ]. repeat split.
Qed.

Lemma C6_nd_presumed_justified_witness :
  exists r,
    findingsWith "nd-consistency" (runAuditRules hostUTC Samples.full) = [r] /\
    status r = PASS /\
    details r = Some "Nota com materiais usando ND de Serviço. Informação Administrativa presente (presume-se justificativa)." /\
    recommendation r = None.
Proof.
  apply (@C6_nd_presumed_justified hostUTC Samples.full
           (mkEmpenho "2024NE000123" "339039" 1000%float));
    try reflexivity.
  left; reflexivity.
Defined.

(* ---------------------------------------------------------------------- *)
(** * Value check (rule 4) *)

(** C3, as amended: when the invoice and the receipt are found and the
    invoice gross value [g] and the receipt total [t] are not null, the
    output has exactly one finding [value-check-gross].  It is a PASS when
    the binary64 difference the source computes, [|g - t|], is below the
    binary64 value of [0.05]; otherwise a FAIL, with the message that the
    receipt was filled with the net value, when the net value [l] is not
    null and the computed [|l - t|] is below it; otherwise a WARNING.  The
    boundary is that of the computed difference: one equal to the binary64
    [0.05] is not a match, one equal to [0.049999] is.  It is not that of
    the amounts, which five cents apart may compute below it. *)
Theorem C3_value_check (host : Host) (data : ExtractedData) (g t : float) :
  NotaFiscal.found (notaFiscal data) = true ->
  TermoRecebimento.found (termoRecebimento data) = true ->
  NotaFiscal.grossValue (notaFiscal data) = Some g ->
  TermoRecebimento.totalValue (termoRecebimento data) = Some t ->
  exists r,
    findingsWith "value-check-gross" (runAuditRules host data) = [r] /\
    status r =
      (if PrimFloat.ltb (PrimFloat.abs (PrimFloat.sub g t)) 0.05
       then PASS
       else if match NotaFiscal.liquidValue (notaFiscal data) with
               | Some l => PrimFloat.ltb (PrimFloat.abs (PrimFloat.sub l t)) 0.05
               | None => false
               end
            then FAIL
            else WARNING) /\
    (status r = FAIL ->
       description r = "O Termo de Recebimento deve utilizar o Valor Bruto (Total) da Nota Fiscal." /\
       details r = Some ("ERRO CRÍTICO: O Termo de Recebimento está preenchido com o Valor Líquido ("
                         ++ NumberFormat_BRL host t ++ "). Deveria ser o Valor Bruto ("
                         ++ NumberFormat_BRL host g ++ ").")) /\
    (PrimFloat.abs (PrimFloat.sub g t) = 0.05%float -> status r <> PASS) /\
    (PrimFloat.abs (PrimFloat.sub g t) = 0.049999%float -> status r = PASS).
Proof.
  intros Hnf Htr Hg Ht.
  rewrite (@findingsWith_block host data "value-check-gross" 4 eq_refl). cbn [nth].
  unfold rule_value, push. rewrite Hnf, Htr, Hg, Ht. cbn [andb app].
  exists (valueFinding host g (NotaFiscal.liquidValue (notaFiscal data)) t).
  split.
  { unfold findingsWith. cbn [filter]. now rewrite valueFinding_id. }
  unfold valueFinding, JsNumber.within, JsNumber.tol_value, formatCurrency.
  destruct (PrimFloat.ltb (PrimFloat.abs (PrimFloat.sub g t)) 0.05) eqn:Egross.
  - cbn [status]. repeat split; try discriminate.
    intros Heq. rewrite Heq in Egross. vm_compute in Egross. discriminate.
  - destruct (match NotaFiscal.liquidValue (notaFiscal data) with
              | Some l => PrimFloat.ltb (PrimFloat.abs (PrimFloat.sub l t)) 0.05
              | None => false
              end) eqn:Eliq;
      cbn [status description details]; repeat split; try discriminate;
      intros Heq; rewrite Heq in Egross; vm_compute in Egross; discriminate.
Qed.

Lemma C3_value_check_witness :
  NotaFiscal.found (notaFiscal (valueBundle 1000 (Some 950%float) 950)) = true /\
  TermoRecebimento.found (termoRecebimento (valueBundle 1000 (Some 950%float) 950)) = true /\
  exists r,
    findingsWith "value-check-gross"
      (runAuditRules hostUTC (valueBundle 1000 (Some 950%float) 950)) = [r] /\
    status r = FAIL.
Proof.
  split; [ reflexivity | split; [ reflexivity | ] ].
  destruct (@C3_value_check hostUTC (valueBundle 1000 (Some 950%float) 950) 1000 950
              eq_refl eq_refl eq_refl eq_refl) as [r [Hr [Hs _]]].
  exists r. split; [ exact Hr | exact Hs ].
Defined.

(** C3, counterexample to the boundary as the claim words it: the amounts
    1000.05 and 1000.00 are exactly five cents apart, the difference the
    source computes is below the binary64 [0.05], and the finding is a
    PASS; so are 100.05 and 100.00.  The amounts 0.05 and 0.00, five cents
    apart too, are no match. *)
Theorem C3_counterexample :
  (100005 - 100000 = 5)%Z /\
  cents 100005 = 1000.05%float /\ cents 100000 = 1000%float /\
  PrimFloat.ltb (PrimFloat.abs (PrimFloat.sub (cents 100005) (cents 100000))) 0.05 = true /\
  map status
    (findingsWith "value-check-gross"
       (runAuditRules hostUTC (valueBundle (cents 100005) None (cents 100000))))
  = [PASS] /\
  map status
    (findingsWith "value-check-gross"
       (runAuditRules hostUTC (valueBundle (cents 10005) None (cents 10000))))
  = [PASS] /\
  map status
    (findingsWith "value-check-gross"
       (runAuditRules hostUTC (valueBundle (cents 5) None (cents 0))))
  = [WARNING].
Proof. repeat split; vm_compute; reflexivity. Qed.

(** The value check on a few pairs of gross value and total.  The
    differences are those of binary64 arithmetic: 0.05 - 0 is the
    tolerance itself and is no match, while 1000.05 - 1000 is computed
    below the tolerance and is a match. *)
Example value_check_boundaries :
  map (fun gt => status (valueFinding hostUTC (fst gt) None (snd gt)))
      [ (1000, 999.97); (0.049999, 0); (0.05, 0); (0.1, 0.05); (1000.05, 1000);
        (1000, 950) ]%float
  = [PASS; PASS; WARNING; WARNING; PASS; WARNING].
Proof. vm_compute. reflexivity. Qed.

(* ---------------------------------------------------------------------- *)
(** * SICAF (rule 1) *)

Lemma certSubItem_verdict (host : Host) (sig : option string) (c : CertCheck) :
  certVerdict host sig (dateStr c) (certSubItem host (Date_getTime host sig) c).
Proof.
  unfold certVerdict, certSubItem. split.
  - intros ->. now split.
  - intros t g -> -> ->. unfold Date_ge. split; intros H.
    + apply Z.leb_gt in H. now rewrite H.
    + apply Z.leb_le in H. now rewrite H.
Qed.

Lemma certSubItem_label (host : Host) (sig : option Z) (c : CertCheck) :
  SubItem.label (certSubItem host sig c) = cc_label c.
Proof.
  unfold certSubItem. destruct (truthy (dateStr c)); [ | reflexivity ].
  now destruct (Date_ge _ _).
Qed.

(** C4: with the SICAF found, the receipt found and a signature date
    present, the output has exactly one finding [sicaf-detailed] and none
    [sicaf-missing]; its sub-items are five, labelled in the fixed order of
    the certificates, each FAIL when its validity date is absent or
    strictly before the signature date and PASS when it is on or after it;
    the finding is FAIL when a sub-item is FAIL and PASS otherwise, and it
    has a recommendation exactly when it is FAIL.  Without one of the three
    preconditions the output has exactly one finding [sicaf-missing], a
    WARNING, and none [sicaf-detailed]. *)
Theorem C4_sicaf_check (host : Host) (data : ExtractedData) :
  let sig := TermoRecebimento.signatureDate (termoRecebimento data) in
  let pre := Sicaf.found (sicaf data) && TermoRecebimento.found (termoRecebimento data)
             && truthy sig in
  let out := runAuditRules host data in
  (pre = true ->
     findingsWith "sicaf-missing" out = [] /\
     exists r subs,
       findingsWith "sicaf-detailed" out = [r] /\
       subItems r = Some subs /\
       map SubItem.label subs =
         ["Receita Federal e PGFN"; "FGTS"; "Trabalhista"; "Estadual/Distrital"; "Municipal"] /\
       Forall2 (certVerdict host sig) (validityList data) subs /\
       Forall (fun s => SubItem.status s = PASS \/ SubItem.status s = FAIL) subs /\
       ((exists s, In s subs /\ SubItem.status s = FAIL) -> status r = FAIL) /\
       ((forall s, In s subs -> SubItem.status s <> FAIL) -> status r = PASS) /\
       (recommendation r <> None <-> status r = FAIL)) /\
  (pre = false ->
     findingsWith "sicaf-detailed" out = [] /\
     exists r,
       findingsWith "sicaf-missing" out = [r] /\
       status r = WARNING /\ subItems r = None /\ recommendation r = None).
Proof.
  intros sig pre out. subst out.
  rewrite (@findingsWith_block host data "sicaf-missing" 1 eq_refl).
  rewrite (@findingsWith_block host data "sicaf-detailed" 1 eq_refl).
  cbn [nth]. unfold rule_sicaf, push. fold sig. fold pre.
  split; intros Hpre; rewrite Hpre; cbn [app].
  - split; [ reflexivity | ].
    set (subs := map (certSubItem host (Date_getTime host sig)) (certChecks data)).
    eexists. exists subs. split; [ reflexivity | ]. cbn [subItems status recommendation].
    split; [ reflexivity | ].
    split.
    { unfold subs, certChecks. cbn [map]. now rewrite !certSubItem_label. }
    split.
    { unfold validityList, subs, certChecks. cbn [map].
      repeat (constructor;
              [ match goal with
                | |- certVerdict _ _ _ (certSubItem _ _ ?c) =>
                    exact (certSubItem_verdict host sig c)
                end | ]).
      constructor. }
    split.
    { apply Forall_forall. intros s Hin. apply in_map_iff in Hin as [c [<- _]].
      apply certSubItem_status. }
    destruct (existsb (fun i => CheckStatus_eqb (SubItem.status i) FAIL) subs) eqn:Ex.
    + repeat split; try reflexivity; try discriminate.
      intros Hall. apply existsb_exists in Ex as [s [Hin Hs]].
      exfalso. apply (Hall s Hin). now destruct (SubItem.status s).
    + repeat split; try reflexivity; try discriminate; try (intros H; now elim H).
      intros [s [Hin Hs]].
      assert (Ex' : existsb (fun i => CheckStatus_eqb (SubItem.status i) FAIL) subs = true)
        by (apply existsb_exists; exists s; split; [ exact Hin | now rewrite Hs ]).
      congruence.
  - split; [ reflexivity | ].
    eexists. split; [ reflexivity | ]. repeat split.
Qed.

Lemma C4_sicaf_check_witness :
  exists r subs,
    findingsWith "sicaf-detailed" (runAuditRules hostUTC Samples.full) = [r] /\
    subItems r = Some subs /\
    map SubItem.label subs =
      ["Receita Federal e PGFN"; "FGTS"; "Trabalhista"; "Estadual/Distrital"; "Municipal"] /\
    status r = FAIL.
Proof.
  destruct (C4_sicaf_check hostUTC Samples.full) as [Hdetailed _].
  destruct (Hdetailed eq_refl) as [_ [r [subs [Hr [Hsubs [Hlabels [Hverdicts [_ [Hfail _]]]]]]]]].
  exists r, subs. repeat split; try assumption.
  apply Hfail.
  inversion Hverdicts as [ | d1 s1 ds1 ss1 _ H1 ]; subst.
  inversion H1 as [ | d2 s2 ds2 ss2 _ H2 ]; subst.
  inversion H2 as [ | d3 s3 ds3 ss3 V3 _ ]; subst.
  exists s3. split; [ right; right; left; reflexivity | ].
  destruct V3 as [_ V3].
  apply (V3 1709942400000%Z 1710028800000%Z eq_refl eq_refl eq_refl). reflexivity.
Defined.


(* ---------------------------------------------------------------------- *)
(** * Aggregation of line items (rule 6) *)

(** ** What the specification says of a group *)

(** ** Normalization *)

Lemma isAlnum_lowerChar (c : ascii) : isAlnum (lowerChar c) = isAlnum c.
Proof. destruct c as [[] [] [] [] [] [] [] []]; reflexivity. Qed.

Lemma lowerChar_not_alnum (c : ascii) : isAlnum c = false -> isAlnum (lowerChar c) = false.
Proof. intros H. now rewrite isAlnum_lowerChar. Qed.

Lemma toLowerCase_keep_isAlnum (s : string) :
  toLowerCase (keep isAlnum s) = keep isAlnum (toLowerCase s).
Proof.
  induction s as [ | c s IH ]; [ reflexivity | ].
  cbn [keep toLowerCase]. rewrite isAlnum_lowerChar.
  destruct (isAlnum c); cbn [toLowerCase]; now rewrite IH.
Qed.

Lemma normalize_spec (s : string) : normalize (Some s) = spec_normalize s.
Proof.
  unfold normalize, spec_normalize, truthy.
  destruct s as [ | c s ]; [ reflexivity | ].
  cbn [String.eqb negb]. apply toLowerCase_keep_isAlnum.
Qed.

Lemma itemKey_spec (item : LineItem.t) : itemKey item = spec_key item.
Proof.
  unfold itemKey, spec_key. destruct (LineItem.partNumber item) as [pn | ].
  - rewrite !normalize_spec. unfold truthy.
    destruct pn as [ | c pn ]; [ reflexivity | ]. reflexivity.
  - now rewrite normalize_spec.
Qed.

(** ** The map operations *)

Section MapFacts.

Variable V : Type.
Implicit Types (m : list (string * V)) (k : string) (v : V).

Lemma Map_get_set_same m k v : Map_get (Map_set m k v) k = Some v.
Proof.
  induction m as [ | [k0 w] m IH ]; simpl.
  - now rewrite String.eqb_refl.
  - destruct (k =? k0) eqn:E; simpl; rewrite E; [ reflexivity | exact IH ].
Qed.

Lemma Map_get_set_other m k k' v : k' <> k -> Map_get (Map_set m k v) k' = Map_get m k'.
Proof.
  intros Hne. induction m as [ | [k0 w] m IH ]; simpl.
  - apply String.eqb_neq in Hne. now rewrite Hne.
  - destruct (k =? k0) eqn:E; simpl.
    + apply String.eqb_eq in E. subst k0.
      apply String.eqb_neq in Hne. now rewrite Hne.
    + now rewrite IH.
Qed.

Lemma Map_set_keys m k v :
  map fst (Map_set m k v) =
  if existsb (String.eqb k) (map fst m) then map fst m else (map fst m ++ [k])%list.
Proof.
  induction m as [ | [k0 w] m IH ]; simpl; [ reflexivity | ].
  destruct (k =? k0) eqn:E; simpl; [ reflexivity | ].
  rewrite IH. now destruct (existsb _ _).
Qed.

Lemma Map_has_keys m k : Map_has m k = existsb (String.eqb k) (map fst m).
Proof.
  unfold Map_has. induction m as [ | [k0 w] m IH ]; simpl; [ reflexivity | ].
  destruct (k =? k0); [ reflexivity | exact IH ].
Qed.

Lemma Map_get_In m k v : Map_get m k = Some v -> In (k, v) m.
Proof.
  induction m as [ | [k0 w] m IH ]; simpl; [ discriminate | ].
  destruct (k =? k0) eqn:E.
  - apply String.eqb_eq in E. intros [= ->]. left. now subst.
  - intros H. right. now apply IH.
Qed.

Lemma In_Map_get m k v : NoDup (map fst m) -> In (k, v) m -> Map_get m k = Some v.
Proof.
  induction m as [ | [k0 w] m IH ]; simpl; [ contradiction | ].
  intros Hnd [[= -> ->] | Hin].
  - now rewrite String.eqb_refl.
  - inversion Hnd as [ | ? ? Hnot Hnd' ]; subst.
    destruct (k =? k0) eqn:E.
    + apply String.eqb_eq in E. subst k0. exfalso. apply Hnot.
      apply in_map_iff. now exists (k, v).
    + now apply IH.
Qed.

End MapFacts.

(** ** One step of the loop *)

Lemma aggregateStep_get (m : AggMap) (it : LineItem.t) (k : string) :
  Map_get (aggregateStep m it) k =
  if itemKey it =? k then absorb (Map_get m k) it else Map_get m k.
Proof.
  unfold aggregateStep, Map_has. fold (fresh it).
  destruct (Map_get m (itemKey it)) as [e | ] eqn:Eget; cbn [negb].
  - rewrite Eget. destruct (itemKey it =? k) eqn:E.
    + apply String.eqb_eq in E. subst k. now rewrite Map_get_set_same, Eget.
    + apply String.eqb_neq in E. apply Map_get_set_other. congruence.
  - rewrite Map_get_set_same. destruct (itemKey it =? k) eqn:E.
    + apply String.eqb_eq in E. subst k. now rewrite Map_get_set_same, Eget.
    + apply String.eqb_neq in E.
      rewrite !Map_get_set_other by congruence. reflexivity.
Qed.

Lemma existsb_eqb_last (k : string) (ks : list string) :
  existsb (String.eqb k) (ks ++ [k]) = true.
Proof.
  rewrite existsb_app. simpl. rewrite String.eqb_refl. now rewrite orb_true_r.
Qed.

Lemma aggregateStep_keys (m : AggMap) (it : LineItem.t) :
  map fst (aggregateStep m it) =
  if existsb (String.eqb (itemKey it)) (map fst m)
  then map fst m else (map fst m ++ [itemKey it])%list.
Proof.
  unfold aggregateStep. fold (fresh it). rewrite Map_has_keys.
  destruct (existsb (String.eqb (itemKey it)) (map fst m)) eqn:Ex; cbn [negb].
  - destruct (Map_get m (itemKey it)); [ | reflexivity ].
    now rewrite Map_set_keys, Ex.
  - rewrite Map_get_set_same, !Map_set_keys, Ex. now rewrite existsb_eqb_last.
Qed.

(** ** The whole loop *)

Lemma aggregate_get (items : list LineItem.t) : forall (m : AggMap) (k : string),
  Map_get (fold_left aggregateStep items m) k =
  fold_left absorb (groupOf k items) (Map_get m k).
Proof.
  induction items as [ | it items IH ]; intros m k; [ reflexivity | ].
  cbn [fold_left groupOf filter]. rewrite IH, aggregateStep_get.
  fold (groupOf k items). now destruct (itemKey it =? k).
Qed.

Lemma filter_filter_keys (K : list string) (k : string) (l : list string) :
  filter (fun k' => negb (existsb (String.eqb k') K)) (filter (fun k' => negb (k' =? k)) l) =
  filter (fun k' => negb (existsb (String.eqb k') (K ++ [k]))) l.
Proof.
  induction l as [ | x l IH ]; [ reflexivity | ].
  cbn [filter]. rewrite existsb_app. cbn [existsb]. rewrite orb_false_r.
  destruct (x =? k) eqn:E; cbn [negb filter].
  - rewrite orb_true_r. cbn [negb]. exact IH.
  - rewrite orb_false_r. destruct (existsb (String.eqb x) K); cbn [negb]; now rewrite IH.
Qed.

Lemma filter_known_key (K : list string) (k : string) (l : list string) :
  existsb (String.eqb k) K = true ->
  filter (fun k' => negb (existsb (String.eqb k') K)) (filter (fun k' => negb (k' =? k)) l) =
  filter (fun k' => negb (existsb (String.eqb k') K)) l.
Proof.
  intros Hk. induction l as [ | x l IH ]; [ reflexivity | ].
  cbn [filter]. destruct (x =? k) eqn:E; cbn [negb filter].
  - apply String.eqb_eq in E. subst x. rewrite Hk. cbn [negb]. exact IH.
  - destruct (existsb (String.eqb x) K); cbn [negb]; now rewrite IH.
Qed.

Lemma aggregate_keys (items : list LineItem.t) : forall m : AggMap,
  map fst (fold_left aggregateStep items m) =
  (map fst m ++ filter (fun k => negb (existsb (String.eqb k) (map fst m)))
                  (distinct (map itemKey items)))%list.
Proof.
  induction items as [ | it items IH ]; intros m.
  - simpl. now rewrite app_nil_r.
  - cbn [fold_left map distinct filter]. rewrite IH, aggregateStep_keys.
    destruct (existsb (String.eqb (itemKey it)) (map fst m)) eqn:Ex; cbn [negb].
    + now rewrite filter_known_key.
    + rewrite <- app_assoc. cbn [app]. now rewrite filter_filter_keys.
Qed.

Lemma In_distinct (k : string) (ks : list string) : In k (distinct ks) <-> In k ks.
Proof.
  induction ks as [ | k0 ks IH ]; [ reflexivity | ].
  cbn [distinct]. split.
  - intros [-> | Hin]; [ now left | ].
    apply filter_In in Hin as [Hin _]. right. now apply IH.
  - intros [-> | Hin]; [ now left | ].
    destruct (String.eqb_spec k k0) as [-> | Hne]; [ now left | ].
    right. apply filter_In. split; [ now apply IH | ].
    apply String.eqb_neq in Hne. now rewrite Hne.
Qed.

Lemma NoDup_distinct (ks : list string) : NoDup (distinct ks).
Proof.
  induction ks as [ | k ks IH ]; [ constructor | ].
  cbn [distinct]. constructor.
  - intros Hin. apply filter_In in Hin as [_ Hne]. now rewrite String.eqb_refl in Hne.
  - now apply NoDup_filter.
Qed.

(** ** The entry of a group *)

Lemma longer_fold (rest : list string) : forall d0,
  fold_left longer rest d0 = longestOf (d0 :: rest).
Proof.
  induction rest as [ | d1 rest IH ]; intros d0.
  - cbn. now destruct (String.length d0 <? 0)%nat eqn:E; [ apply Nat.ltb_lt in E; lia | ].
  - cbn [fold_left]. rewrite IH. cbn [longestOf]. unfold longer.
    set (L := longestOf rest).
    destruct (Nat.ltb_spec (String.length d0) (String.length d1));
      destruct (Nat.ltb_spec (String.length d1) (String.length L));
      repeat match goal with
             | |- context [(?a <? ?b)%nat] =>
                 destruct (Nat.ltb_spec a b); try lia; try reflexivity
             end.
Qed.

Lemma absorb_fold (g : list LineItem.t) : forall e : AggregatedItem,
  fold_left absorb g (Some e) =
  Some {| totalQty := fold_left PrimFloat.add (map LineItem.quantity g) (totalQty e);
          agg_description := fold_left longer (map LineItem.description g) (agg_description e);
          agg_partNumber := agg_partNumber e;
          originalCount := originalCount e + List.length g |}.
Proof.
  induction g as [ | it g IH ]; intros e.
  - cbn. rewrite Nat.add_0_r. now destruct e.
  - cbn [fold_left map List.length]. unfold absorb at 2. rewrite IH.
    cbn [bumpEntry totalQty agg_description agg_partNumber originalCount].
    f_equal. f_equal. lia.
Qed.

Lemma absorb_summary (g : list LineItem.t) : fold_left absorb g None = summary g.
Proof.
  destruct g as [ | it g ]; [ reflexivity | ].
  cbn [fold_left]. unfold absorb at 2. rewrite absorb_fold.
  cbn [summary bumpEntry fresh totalQty agg_description agg_partNumber originalCount].
  rewrite Nat.ltb_irrefl. cbn [map]. rewrite longer_fold.
  unfold sumQty. cbn [map fold_left List.length]. reflexivity.
Qed.

Lemma longestOf_In (ds : list string) : ds <> [] -> In (longestOf ds) ds.
Proof.
  induction ds as [ | d rest IH ]; [ congruence | ]. intros _.
  cbn [longestOf]. destruct (String.length d <? String.length (longestOf rest))%nat eqn:E;
    [ | now left ].
  right. apply IH. intros ->. cbn in E. discriminate.
Qed.

Lemma longestOf_max (ds : list string) (d : string) :
  In d ds -> (String.length d <= String.length (longestOf ds))%nat.
Proof.
  induction ds as [ | d0 rest IH ]; [ contradiction | ].
  cbn [longestOf]. intros [Heq | Hin];
    destruct (Nat.ltb_spec (String.length d0) (String.length (longestOf rest)));
    subst; try lia; specialize (IH Hin); lia.
Qed.

Lemma aggregate_pair (a b : LineItem.t) (k : string) :
  itemKey a = k -> itemKey b = k ->
  aggregateItems [a; b] = [(k, bumpEntry (bumpEntry (fresh a) a) b)].
Proof.
  intros Ha Hb. unfold aggregateItems. cbn [fold_left].
  assert (H1 : aggregateStep [] a = [(k, bumpEntry (fresh a) a)]).
  { unfold aggregateStep. rewrite Ha. fold (fresh a).
    cbn [Map_has Map_get negb Map_set]. now rewrite String.eqb_refl. }
  rewrite H1. unfold aggregateStep, Map_has. rewrite Hb.
  cbn [Map_get]. rewrite String.eqb_refl. cbn [negb Map_get].
  rewrite String.eqb_refl. cbn [Map_set]. now rewrite String.eqb_refl.
Qed.

(** C1, as the source has it: for every list of line items,
    [aggregateItems] groups the items by the key of the specification (the
    normalized part number when the part number is present and longer than
    2 characters, else the first 30 characters of the normalized
    description; normalization lower-cases and strips what is not
    alphanumeric).  The map has one entry for each distinct key, in the
    order of first occurrence; the entry of a key holds the sum of the
    quantities of its members, their number, and the longest of their
    descriptions.  Two items with one part number of more than 2
    characters and quantities 3 and 2 make a single group of quantity 5. *)
Theorem C1_aggregateItems_groups (items : list LineItem.t) :
  let m := aggregateItems items in
  (forall it, itemKey it = spec_key it) /\
  map fst m = distinct (map itemKey items) /\
  NoDup (map fst m) /\
  (forall k, Map_get m k = summary (groupOf k items)) /\
  (forall k e, In (k, e) m ->
     let g := groupOf k items in
     g <> [] /\
     totalQty e = sumQty g /\
     originalCount e = List.length g /\
     In (agg_description e) (map LineItem.description g) /\
     (forall it, In it g ->
        (String.length (LineItem.description it) <= String.length (agg_description e))%nat)) /\
  (forall pn d1 d2 u1 u2, (2 < String.length pn)%nat ->
     exists e,
       aggregateItems [ LineItem.mk d1 (Some pn) 3%float u1;
                        LineItem.mk d2 (Some pn) 2%float u2 ]
       = [(spec_normalize pn, e)] /\
       totalQty e = 5%float /\ originalCount e = 2%nat).
Proof.
  intros m.
  assert (Hkeys : map fst m = distinct (map itemKey items)).
  { unfold m, aggregateItems. rewrite aggregate_keys. cbn [map app existsb negb].
    induction (distinct (map itemKey items)) as [ | k ks IH ]; [ reflexivity | ].
    cbn [filter]. now rewrite IH. }
  assert (Hnd : NoDup (map fst m)) by (rewrite Hkeys; apply NoDup_distinct).
  assert (Hget : forall k, Map_get m k = summary (groupOf k items)).
  { intros k. unfold m, aggregateItems. rewrite aggregate_get. apply absorb_summary. }
  split; [ exact itemKey_spec | ].
  split; [ exact Hkeys | ]. split; [ exact Hnd | ]. split; [ exact Hget | ].
  split.
  - intros k e Hin g.
    pose proof (@In_Map_get _ m k e Hnd Hin) as Hk. rewrite Hget in Hk. fold g in Hk.
    destruct g as [ | it g' ] eqn:Eg; [ discriminate | ].
    cbn [summary] in Hk. injection Hk as <-.
    cbn [totalQty originalCount agg_description].
    split; [ discriminate | ]. split; [ reflexivity | ]. split; [ reflexivity | ].
    split.
    + apply (@longestOf_In (map LineItem.description (it :: g'))). discriminate.
    + intros it' Hit.
      apply (@longestOf_max (map LineItem.description (it :: g'))). now apply in_map.
  - intros pn d1 d2 u1 u2 Hlen.
    assert (Hk : forall d q u, itemKey (LineItem.mk d (Some pn) q u) = spec_normalize pn).
    { intros d q u. rewrite itemKey_spec. unfold spec_key. cbn [LineItem.partNumber].
      apply Nat.ltb_lt in Hlen. now rewrite Hlen. }
    eexists. split.
    + apply aggregate_pair; apply Hk.
    + split; reflexivity.
Qed.

Lemma C1_aggregateItems_groups_witness :
  Map_get (aggregateItems (NotaFiscal.items Samples.nota)) "pn100" =
    Some {| totalQty := 5%float;
            agg_description := "Parafuso sextavado M8 zincado";
            agg_partNumber := Some "PN-100";
            originalCount := 2 |} /\
  exists e,
    aggregateItems [ LineItem.mk "Parafuso" (Some "PN1") 3%float None;
                     LineItem.mk "Parafuso M8" (Some "PN1") 2%float None ]
    = [("pn1", e)] /\
    totalQty e = 5%float /\ originalCount e = 2%nat.
Proof.
  destruct (C1_aggregateItems_groups (NotaFiscal.items Samples.nota))
    as [_ [_ [_ [Hget [_ Hpair]]]]].
  split.
  - rewrite Hget. reflexivity.
  - apply (Hpair "PN1" "Parafuso" "Parafuso M8" None None). cbn. lia.
Defined.


(** Two lines with one part number of 2 characters and different
    descriptions: the part number is too short to be the key, the lines
    are keyed by their descriptions and stay in two groups, of quantities
    3 and 2. *)
Lemma C1_counterexample :
  aggregateItems [ LineItem.mk "Parafuso" (Some "A1") 3%float (Some "UN");
                   LineItem.mk "Porca" (Some "A1") 2%float (Some "UN") ]
  = [ ("parafuso", {| totalQty := 3%float;
                      agg_description := "Parafuso";
                      agg_partNumber := Some "A1";
                      originalCount := 1 |});
      ("porca", {| totalQty := 2%float;
                   agg_description := "Porca";
                   agg_partNumber := Some "A1";
                   originalCount := 1 |}) ].
Proof. vm_compute. reflexivity. Qed.

(* ---------------------------------------------------------------------- *)
(** * Matching of the groups (rule 6) *)

Lemma prefix_occurs (t s : string) :
  String.prefix t s = true <-> exists b, s = t ++ b.
Proof.
  revert s. induction t as [ | c t IH ]; intros s.
  - split; [ intros _; now exists s | ]. intros _. now destruct s.
  - destruct s as [ | c' s ].
    + split; [ discriminate | intros [b Hb]; discriminate ].
    + cbn [String.prefix]. destruct (ascii_dec c c') as [-> | Hne].
      * rewrite IH. split; intros [b Hb]; exists b.
        -- cbn. now rewrite Hb.
        -- cbn in Hb. now injection Hb.
      * split; [ discriminate | ]. intros [b Hb]. cbn in Hb. congruence.
Qed.

Lemma includes_occursIn (s t : string) : includes s t = true <-> occursIn t s.
Proof.
  induction s as [ | c s IH ].
  - cbn [includes]. destruct (String.prefix t EmptyString) eqn:E.
    + split; [ intros _ | reflexivity ].
      apply prefix_occurs in E as [b Hb]. now exists EmptyString, b.
    + split; [ discriminate | ]. intros [a [b Hab]].
      destruct a; [ | discriminate ]. cbn in Hab.
      assert (String.prefix t EmptyString = true) by (apply prefix_occurs; now exists b).
      congruence.
  - cbn [includes]. destruct (String.prefix t (String c s)) eqn:E.
    + split; [ intros _ | reflexivity ].
      apply prefix_occurs in E as [b Hb]. now exists EmptyString, b.
    + rewrite IH. split.
      * intros [a [b Hab]]. exists (String c a), b. cbn. now rewrite Hab.
      * intros [a [b Hab]]. destruct a as [ | c' a ].
        -- cbn in Hab.
           assert (String.prefix t (String c s) = true) by (apply prefix_occurs; now exists b).
           congruence.
        -- cbn in Hab. injection Hab as _ Hs. now exists a, b.
Qed.

Lemma fuzzy_test_spec (desc : string) (r : AggregatedItem) :
  existsb (fun token => includes (toLowerCase (agg_description r)) token) (descTokens desc) = true
  <-> fuzzyAccepts desc r.
Proof.
  unfold fuzzyAccepts. rewrite existsb_exists.
  split; intros [token [Hin H]]; exists token; (split; [ exact Hin | ]);
    now apply includes_occursIn.
Qed.

Lemma fuzzyLoop_first (desc : string) (values : list AggregatedItem) (r : AggregatedItem) :
  fuzzyLoop (descTokens desc) values = Some r -> firstSuch (fuzzyAccepts desc) values r.
Proof.
  induction values as [ | x rest IH ]; [ discriminate | ].
  cbn [fuzzyLoop].
  destruct (existsb _ (descTokens desc)) eqn:E.
  - intros [= <-]. exists [], rest. split; [ reflexivity | ].
    split; [ intros ? [] | now apply fuzzy_test_spec ].
  - intros H. destruct (IH H) as [before [after [-> [Hnot Hr]]]].
    exists (x :: before), after. split; [ reflexivity | ]. split; [ | exact Hr ].
    intros y [<- | Hy]; [ | now apply Hnot ].
    intros Hacc. apply fuzzy_test_spec in Hacc. congruence.
Qed.

Lemma fuzzyLoop_none (desc : string) (values : list AggregatedItem) :
  fuzzyLoop (descTokens desc) values = None ->
  forall x, In x values -> ~ fuzzyAccepts desc x.
Proof.
  induction values as [ | y rest IH ]; [ intros _ ? [] | ].
  cbn [fuzzyLoop]. destruct (existsb _ (descTokens desc)) eqn:E; [ discriminate | ].
  intros H x [<- | Hx]; [ | now apply IH ].
  intros Hacc. apply fuzzy_test_spec in Hacc. congruence.
Qed.

Lemma matchStep_sub (host : Host) (rmmMap : AggMap) (st : list SubItem.t * CheckStatus)
    (kv : string * AggregatedItem) :
  fst (matchStep host rmmMap st kv) =
  (fst st ++ [groupSubItem host (snd kv) (findRmmMatch rmmMap (fst kv) (snd kv))])%list.
Proof.
  destruct st as [subs ms], kv as [key nfItem]. unfold matchStep, groupSubItem, push.
  cbn [fst snd]. destruct (findRmmMatch rmmMap key nfItem); [ | reflexivity ].
  now destruct (JsNumber.within _ _ _).
Qed.

Lemma matchLoop_subs (host : Host) (rmmMap nfMap : AggMap) :
  forall st,
    fst (fold_left (matchStep host rmmMap) nfMap st) =
    (fst st ++ map (fun kv => groupSubItem host (snd kv)
                                (findRmmMatch rmmMap (fst kv) (snd kv))) nfMap)%list.
Proof.
  induction nfMap as [ | kv rest IH ]; intros st.
  - cbn. now rewrite app_nil_r.
  - cbn [fold_left map]. rewrite IH, matchStep_sub. now rewrite <- app_assoc.
Qed.

(** C2, as the source has it: the cross-check pushes one sub-item for
    every aggregated invoice group, in the order of the groups, from the
    lookup of the group's key in the aggregated stock-entry map.  An exact
    match is the result of the lookup, and the fuzzy fallback does not run
    then.  When the key is absent and the group has a part number, the
    result is the first stock-entry group whose lower-cased description
    contains a token (a lower-cased word of more than 3 characters) of the
    group's description, if there is one.  When the key is absent and the
    group has no part number, the fuzzy fallback is not attempted and the
    group has no match. *)
Theorem C2_lookup_then_guarded_fuzzy (host : Host) (data : ExtractedData) :
  let nfMap := aggregateItems (NotaFiscal.items (notaFiscal data)) in
  let rmmMap := aggregateItems (Rmm.items (rmm data)) in
  (NotaFiscal.items (notaFiscal data) <> [] ->
     fst (fst (crossCheck host data)) =
     map (fun kv => groupSubItem host (snd kv) (findRmmMatch rmmMap (fst kv) (snd kv)))
         nfMap) /\
  (forall key nfItem r,
     Map_get rmmMap key = Some r -> findRmmMatch rmmMap key nfItem = Some r) /\
  (forall key nfItem,
     Map_get rmmMap key = None -> truthy (agg_partNumber nfItem) = true ->
     (forall r, findRmmMatch rmmMap key nfItem = Some r ->
        firstSuch (fuzzyAccepts (agg_description nfItem)) (Map_values rmmMap) r) /\
     (findRmmMatch rmmMap key nfItem = None ->
        forall x, In x (Map_values rmmMap) -> ~ fuzzyAccepts (agg_description nfItem) x)) /\
  (forall key nfItem,
     Map_get rmmMap key = None -> truthy (agg_partNumber nfItem) = false ->
     findRmmMatch rmmMap key nfItem = None).
Proof.
  intros nfMap rmmMap. split; [ | split; [ | split ] ].
  - intros Hitems. unfold crossCheck.
    destruct (NotaFiscal.items (notaFiscal data)) as [ | it its ] eqn:E; [ congruence | ].
    fold rmmMap. pose proof (matchLoop_subs host rmmMap (aggregateItems (it :: its)) ([], PASS)) as H.
    destruct (fold_left _ _ _) as [subs ms]. cbn [fst snd] in *.
    subst nfMap. exact H.
  - intros key nfItem r H. unfold findRmmMatch. now rewrite H.
  - intros key nfItem Hnone Hpn. unfold findRmmMatch. rewrite Hnone, Hpn. split.
    + intros r. apply fuzzyLoop_first.
    + apply fuzzyLoop_none.
  - intros key nfItem Hnone Hpn. unfold findRmmMatch. now rewrite Hnone, Hpn.
Qed.

(** The lookup of the specification against the source on [fuzzyBundle]:
    the key of the invoice group is absent from the stock-entry map and the
    fuzzy fallback accepts the stock-entry group (the word parafuso occurs
    in its description), so the specification has a match; the source,
    finding no part number on the invoice group, does not try the fallback
    and reports the item as not found. *)
Lemma C2_counterexample :
  aggregateItems (NotaFiscal.items (notaFiscal fuzzyBundle))
    = [("parafusosextavadom8", fuzzyNfGroup)] /\
  aggregateItems (Rmm.items (rmm fuzzyBundle)) = [("pn100", fuzzyRmmGroup)] /\
  Map_get (aggregateItems (Rmm.items (rmm fuzzyBundle))) "parafusosextavadom8" = None /\
  spec_findMatch (aggregateItems (Rmm.items (rmm fuzzyBundle)))
    "parafusosextavadom8" fuzzyNfGroup = Some fuzzyRmmGroup /\
  findRmmMatch (aggregateItems (Rmm.items (rmm fuzzyBundle)))
    "parafusosextavadom8" fuzzyNfGroup = None /\
  map (fun f => (status f, subItems f))
      (findingsWith "rmm-check-detailed" (runAuditRules hostUTC fuzzyBundle))
  = [(FAIL, Some [SubItem.mk "S/N - Parafuso sextavado M8..." FAIL
                    "Item não encontrado no RMM"])].
Proof. repeat split; vm_compute; reflexivity. Qed.

Lemma C2_lookup_then_guarded_fuzzy_witness :
  fst (fst (crossCheck hostUTC Samples.full)) =
  [ SubItem.mk "PN-100 - Parafuso sextavado M8 zincado..." WARNING
      "Divergência Qtd: NF(5) vs RMM(7)" ].
Proof.
  destruct (C2_lookup_then_guarded_fuzzy hostUTC Samples.full) as [Hsubs _].
  rewrite Hsubs; [ reflexivity | discriminate ].
Defined.


(* ---------------------------------------------------------------------- *)
(** * The CNPJ failsafe of [handleAnalyze] *)

Lemma truthy_nonempty (s : string) : truthy (Some s) = true <-> s <> EmptyString.
Proof.
  unfold truthy. destruct (String.eqb_spec s EmptyString) as [-> | Hne]; cbn.
  - split; [ discriminate | congruence ].
  - now split.
Qed.

Lemma currentNfCnpj_normId (o : option string) :
  match o with
  | Some nfRaw => if truthy o then onlyDigits nfRaw else EmptyString
  | None => EmptyString
  end = normId o.
Proof.
  destruct o as [s | ]; [ | reflexivity ].
  unfold truthy, normId. now destruct s.
Qed.

Lemma set_notaFiscal_cnpj_same (data : ExtractedData) :
  set_notaFiscal_cnpj (NotaFiscal.cnpj (notaFiscal data)) data = data.
Proof. destruct data as [s t n r m i]. now destruct n. Qed.

(** What the failsafe does, by cases. *)
Lemma autoCorrectCnpj_cases (data : ExtractedData) :
  (exists m, replacesWith data m /\ autoCorrectCnpj data = set_notaFiscal_cnpj (Some m) data) \/
  ((forall m, ~ replacesWith data m) /\ autoCorrectCnpj data = data).
Proof.
  unfold autoCorrectCnpj, replacesWith.
  destruct (TermoRecebimento.cnpj (termoRecebimento data)) as [trRaw | ] eqn:Etr.
  2: { right. split; [ | reflexivity ]. intros m [_ [_ [x [Hx _]]]]. discriminate. }
  rewrite currentNfCnpj_normId.
  destruct (TermoRecebimento.found (termoRecebimento data)) eqn:Ef.
  2: { right. split; [ | reflexivity ]. intros m [_ [Hf _]]. discriminate. }
  destruct (truthy (Some trRaw)) eqn:Et.
  2: { right. split; [ | reflexivity ]. intros m [_ [_ [x [[= <-] [Hne _]]]]].
       apply truthy_nonempty in Hne. congruence. }
  destruct (NotaFiscal.found (notaFiscal data)) eqn:En.
  2: { right. split; [ | reflexivity ]. intros m [Hf _]. discriminate. }
  cbn [andb].
  destruct (String.eqb_spec (onlyDigits trRaw) (normId (NotaFiscal.cnpj (notaFiscal data))))
    as [Heq | Hne]; cbn [negb andb].
  { right. split; [ | reflexivity ]. intros m [_ [_ [x [[= <-] [_ [Hd _]]]]]]. congruence. }
  destruct (NotaFiscal.possibleCnpjs (notaFiscal data)) as [ | c cs ] eqn:Ep.
  { right. split; [ | reflexivity ]. intros m [_ [_ [x [[= <-] [_ [_ [Hfind _]]]]]]].
    discriminate. }
  cbn [List.length Nat.ltb Nat.leb].
  destruct (find _ (c :: cs)) as [m | ] eqn:Efind.
  - destruct (truthy (Some m)) eqn:Em.
    + left. exists m. split; [ | reflexivity ].
      split; [ reflexivity | ]. split; [ reflexivity | ]. exists trRaw.
      split; [ reflexivity | ]. split; [ now apply truthy_nonempty | ].
      split; [ congruence | ]. split; [ exact Efind | now apply truthy_nonempty ].
    + right. split; [ | reflexivity ]. intros m' [_ [_ [x [[= <-] [_ [_ [Hfind Hm']]]]]]].
      rewrite Efind in Hfind. injection Hfind as ->.
      apply truthy_nonempty in Hm'. congruence.
  - right. split; [ | reflexivity ]. intros m' [_ [_ [x [[= <-] [_ [_ [Hfind _]]]]]]].
    rewrite Efind in Hfind. discriminate.
Qed.

(** C7, as the source has it: the failsafe is idempotent; it changes no
    field other than the invoice's CNPJ; it replaces that CNPJ, with the
    first value of [possibleCnpjs] that has the receipt's digits, exactly
    when the invoice and the receipt are found, the receipt's CNPJ is
    present and not empty, the normalized identifiers differ, and that
    first value exists and is not empty. *)
Theorem C7_autoCorrect_idempotent (data : ExtractedData) :
  autoCorrectCnpj (autoCorrectCnpj data) = autoCorrectCnpj data /\
  autoCorrectCnpj data =
    set_notaFiscal_cnpj (NotaFiscal.cnpj (notaFiscal (autoCorrectCnpj data))) data /\
  (forall m, replacesWith data m ->
     NotaFiscal.cnpj (notaFiscal (autoCorrectCnpj data)) = Some m) /\
  ((forall m, ~ replacesWith data m) -> autoCorrectCnpj data = data).
Proof.
  destruct (autoCorrectCnpj_cases data) as [[m [Hm Heq]] | [Hno Heq]].
  - split; [ | split; [ | split ] ].
    + rewrite Heq.
      destruct (autoCorrectCnpj_cases (set_notaFiscal_cnpj (Some m) data))
        as [[m' [Hm' _]] | [_ Hsame]]; [ | exact Hsame ].
      exfalso. destruct Hm as [_ [_ [trRaw [Htr [_ [_ [Hfind _]]]]]]].
      destruct Hm' as [_ [_ [trRaw' [Htr' [_ [Hdiff _]]]]]].
      cbn in Htr', Hdiff. rewrite Htr in Htr'. injection Htr' as <-.
      apply find_some in Hfind as [_ Hd]. apply String.eqb_eq in Hd. congruence.
    + rewrite Heq. reflexivity.
    + intros m' Hm'. rewrite Heq. cbn.
      destruct Hm as [_ [_ [x [Hx [_ [_ [Hf _]]]]]]].
      destruct Hm' as [_ [_ [x' [Hx' [_ [_ [Hf' _]]]]]]].
      rewrite Hx in Hx'. injection Hx' as <-. congruence.
    + intros Hno. exfalso. exact (Hno m Hm).
  - rewrite Heq. split; [ exact Heq | ]. split; [ | split ].
    + now rewrite set_notaFiscal_cnpj_same.
    + intros m Hm. exfalso. exact (Hno m Hm).
    + reflexivity.
Qed.

Lemma C7_autoCorrect_idempotent_witness :
  replacesWith wrongIssuer "12.345.678/0001-99" /\
  NotaFiscal.cnpj (notaFiscal (autoCorrectCnpj wrongIssuer)) = Some "12.345.678/0001-99" /\
  autoCorrectCnpj (autoCorrectCnpj wrongIssuer) = autoCorrectCnpj wrongIssuer.
Proof.
  assert (H : replacesWith wrongIssuer "12.345.678/0001-99").
  { split; [ reflexivity | ]. split; [ reflexivity | ].
    exists "12.345.678/0001-99".
    split; [ reflexivity | ]. split; [ discriminate | ]. split; [ discriminate | ].
    split; [ reflexivity | discriminate ]. }
  destruct (C7_autoCorrect_idempotent wrongIssuer) as [Hidem [_ [Hrepl _]]].
  split; [ exact H | ]. split; [ exact (Hrepl _ H) | exact Hidem ].
Defined.

(** The condition of the specification against the source on
    [emptyReceiptId]: the invoice and the receipt are found, their
    normalized identifiers differ, and the list holds a value whose
    normalization is the receipt's; the source, whose receipt CNPJ is the
    empty string, skips the failsafe and leaves the invoice's CNPJ as it
    is. *)
Lemma C7_counterexample :
  spec_replaces emptyReceiptId /\
  autoCorrectCnpj emptyReceiptId = emptyReceiptId /\
  NotaFiscal.cnpj (notaFiscal (autoCorrectCnpj emptyReceiptId)) = Some "12.345.678/0001-99" /\
  ~ In "12.345.678/0001-99" (NotaFiscal.possibleCnpjs (notaFiscal emptyReceiptId)).
Proof.
  split.
  - split; [ reflexivity | ]. split; [ reflexivity | ]. split; [ discriminate | ].
    exists "S/N". split; [ now left | reflexivity ].
  - split; [ reflexivity | ]. split; [ reflexivity | ].
    intros [H | []]. discriminate.
Qed.

(* ---------------------------------------------------------------------- *)
(** * CNPJ consistency (rule 2) *)

(** Identifiers that differ by punctuation only have one normal form. *)
Lemma onlyDigits_punctuation :
  onlyDigits "12.345.678/0001-99" = onlyDigits "12345678000199".
Proof. vm_compute. reflexivity. Qed.

(** What the block does, by the size of the set: FAIL listing the sources
    for more than one value, PASS for one value, nothing for none.  The
    PASS names the raw CNPJ of the invoice, else that of the receipt. *)
Lemma rule_cnpj_by_size (data : ExtractedData) :
  let cnpjs := fst (collectCnpjs data) in
  let sources := snd (collectCnpjs data) in
  ((1 < List.length cnpjs)%nat ->
     exists r, rule_cnpj data [] = [r] /\ id r = "cnpj-match" /\ status r = FAIL /\
               details r = Some ("Divergência encontrada:" ++ nl ++ join nl sources)) /\
  (List.length cnpjs = 1%nat ->
     exists r, rule_cnpj data [] = [r] /\ id r = "cnpj-match" /\ status r = PASS /\
               details r = Some ("CNPJ "
                                 ++ tmpl (orElse (NotaFiscal.cnpj (notaFiscal data))
                                            (TermoRecebimento.cnpj (termoRecebimento data)))
                                 ++ " consistente em todos os documentos.")) /\
  (List.length cnpjs = 0%nat -> rule_cnpj data [] = []).
Proof.
  intros cnpjs sources. unfold rule_cnpj, push. subst cnpjs sources.
  destruct (collectCnpjs data) as [cnpjs sources]. cbn [fst snd].
  split; [ | split ].
  - intros H. apply Nat.ltb_lt in H. rewrite H.
    eexists. split; [ reflexivity | ]. repeat split.
  - intros H. rewrite H. cbn.
    eexists. split; [ reflexivity | ]. repeat split.
  - intros H. rewrite H. reflexivity.
Qed.

(** C5, at the bundle where only the SICAF has a CNPJ: the set holds one
    value and the output has one finding [cnpj-match], a PASS, but its text
    names no value: it prints the word null, the source reading only the
    invoice's and the receipt's identifier. *)
Theorem C5_pass_names_no_value :
  fst (collectCnpjs sicafOnly) = ["12345678000199"] /\
  snd (collectCnpjs sicafOnly) = ["SICAF: 12.345.678/0001-99"] /\
  findingsWith "cnpj-match" (runAuditRules hostUTC sicafOnly) =
  [ {| id := "cnpj-match";
       title := "Consistência de CNPJ";
       description := "Verificação do fornecedor nos documentos.";
       status := PASS;
       details := Some "CNPJ null consistente em todos os documentos.";
       recommendation := None;
       subItems := None |} ].
Proof. repeat split; vm_compute; reflexivity. Qed.

(* ---------------------------------------------------------------------- *)
(** * The output and the host *)

(** The output depends on the host through its five services only: two
    hosts that answer alike give the same findings on every bundle. *)
Section SameHost.

Variables h1 h2 : Host.
Hypothesis same : sameHost h1 h2.

Lemma Date_getTime_same (s : option string) : Date_getTime h1 s = Date_getTime h2 s.
Proof. destruct s as [s | ]; [ apply same | reflexivity ]. Qed.

Lemma Date_getFullYear_same (s : option string) :
  Date_getFullYear h1 s = Date_getFullYear h2 s.
Proof.
  unfold Date_getFullYear. rewrite Date_getTime_same.
  destruct (Date_getTime h2 s) as [t | ]; [ | reflexivity ].
  destruct same as [_ [Htz _]]. now rewrite Htz.
Qed.

Lemma formatDate_same (s : option string) : formatDate h1 s = formatDate h2 s.
Proof.
  destruct same as [Hp [_ [Hf _]]].
  assert (Hfb : forall x, formatDate_fallback h1 x = formatDate_fallback h2 x).
  { intros x. unfold formatDate_fallback. rewrite Hp.
    destruct (Date_parse h2 x); [ apply Hf | reflexivity ]. }
  unfold formatDate. destruct s as [s | ]; [ | reflexivity ].
  destruct (negb (truthy (Some s))); [ reflexivity | ].
  destruct (split "-" s) as [ | y [ | m [ | d rest ] ] ]; try apply Hfb.
  destruct (_ && _); [ reflexivity | apply Hfb ].
Qed.

Lemma rule_sicaf_same (data : ExtractedData) (results : list AuditResult) :
  rule_sicaf h1 data results = rule_sicaf h2 data results.
Proof.
  unfold rule_sicaf. rewrite !formatDate_same, Date_getTime_same.
  replace (map (certSubItem h1 (Date_getTime h2 (TermoRecebimento.signatureDate (termoRecebimento data))))
             (certChecks data))
    with (map (certSubItem h2 (Date_getTime h2 (TermoRecebimento.signatureDate (termoRecebimento data))))
            (certChecks data)); [ reflexivity | ].
  apply map_ext. intros c. unfold certSubItem.
  now rewrite Date_getTime_same, formatDate_same.
Qed.

Lemma rule_value_same (data : ExtractedData) (results : list AuditResult) :
  rule_value h1 data results = rule_value h2 data results.
Proof.
  destruct same as [_ [_ [_ [Hc _]]]].
  unfold rule_value, valueFinding, formatCurrency.
  destruct (_ && _); [ | reflexivity ].
  destruct (NotaFiscal.grossValue _) as [g | ]; [ | reflexivity ].
  destruct (TermoRecebimento.totalValue _) as [t | ]; [ | reflexivity ].
  now rewrite !Hc.
Qed.

Lemma rule_contractYear_same (data : ExtractedData) (results : list AuditResult) :
  rule_contractYear h1 data results = rule_contractYear h2 data results.
Proof.
  destruct same as [_ [_ [_ [_ Hn]]]].
  unfold rule_contractYear. rewrite Date_getFullYear_same.
  destruct (TermoRecebimento.contractStartYear _); [ | reflexivity ].
  now rewrite !Hn.
Qed.

Lemma matchStep_same (rmmMap : AggMap) (st : list SubItem.t * CheckStatus)
    (kv : string * AggregatedItem) :
  matchStep h1 rmmMap st kv = matchStep h2 rmmMap st kv.
Proof.
  destruct same as [_ [_ [_ [_ Hn]]]].
  destruct st as [subs ms], kv as [key nfItem]. unfold matchStep.
  destruct (findRmmMatch rmmMap key nfItem); [ | reflexivity ].
  now rewrite !Hn.
Qed.

Lemma matchLoop_same (rmmMap nfMap : AggMap) : forall st,
  fold_left (matchStep h1 rmmMap) nfMap st = fold_left (matchStep h2 rmmMap) nfMap st.
Proof.
  induction nfMap as [ | kv rest IH ]; intros st; [ reflexivity | ].
  cbn [fold_left]. now rewrite matchStep_same, IH.
Qed.

Lemma rule_rmm_same (data : ExtractedData) (results : list AuditResult) :
  rule_rmm h1 data results = rule_rmm h2 data results.
Proof.
  unfold rule_rmm, crossCheck.
  destruct (NotaFiscal.items (notaFiscal data)); [ reflexivity | ].
  now rewrite matchLoop_same.
Qed.

Lemma runAuditRules_same (data : ExtractedData) :
  runAuditRules h1 data = runAuditRules h2 data.
Proof.
  unfold runAuditRules.
  now rewrite rule_sicaf_same, rule_value_same, rule_contractYear_same, rule_rmm_same.
Qed.

End SameHost.

(** C9, at a bundle with a bulletin dated 2024-01-01 and a contract that
    starts in 2024: a host on UTC reads the year 2024 and pushes no
    [contract-date] finding; a host on Brasília time reads the year 2023
    (the date is midnight UTC, the year is taken in local time) and pushes
    a FAIL.  The output is not a function of the bundle alone. *)
Theorem C9_output_depends_on_time_zone :
  map id (runAuditRules hostUTC newYearBulletin) = ["sicaf-missing"; "tr-definitive"] /\
  map (fun r => (id r, status r, details r)) (runAuditRules hostBRT newYearBulletin) =
    [ ("sicaf-missing", WARNING,
       Some "Não foi possível realizar o cruzamento de datas. Verifique se o SICAF e o Termo de Recebimento (com data de assinatura) foram enviados.");
      ("tr-definitive", PASS,
       Some ("Consta " ++ dq ++ "recebido e aceito definitivamente" ++ dq ++ "."));
      ("contract-date", FAIL,
       Some "A comissão (Boletim de 2023) é anterior ao início do contrato (2024).") ] /\
  runAuditRules hostUTC newYearBulletin <> runAuditRules hostBRT newYearBulletin.
Proof.
  split; [ vm_compute; reflexivity | ]. split; [ vm_compute; reflexivity | ].
  intros H. apply (f_equal (@List.length AuditResult)) in H.
  vm_compute in H. discriminate H.
Qed.


(* ---------------------------------------------------------------------- *)
(** * The calendar and the scenarios of the specification *)

(** On every day from 1900 to 2100, [YearFromTime] is the largest year
    whose first day is not after the day, and the two conversions between
    days and dates are inverse. *)
Example calendar_checked :
  allDays (Z.to_nat 73414) (-25567)
    (fun day =>
       let y := Calendar.YearFromTime (day * Calendar.msPerDay) in
       let '(yy, m, d) := Calendar.civil_from_days day in
       (DayFromYear y <=? day)%Z && (day <? DayFromYear (y + 1))%Z
       && (Calendar.days_from_civil yy m d =? day)%Z) = true.
Proof. vm_cast_no_check (eq_refl true). Qed.

Example dates_of_sample_host :
  Date_getFullYear hostUTC (Some "2024-01-01") = Some 2024%Z /\
  Date_getFullYear hostBRT (Some "2024-01-01") = Some 2023%Z /\
  Date_getTime hostBRT (Some "2024-03-10") = Some 1710028800000%Z /\
  Date_getTime hostUTC (Some "10/03/2024") = None /\
  formatDate hostUTC (Some "2024-03-10") = "10/03/2024".
Proof. repeat split; vm_compute; reflexivity. Qed.

(** Scenarios A and B of the specification: all certificates valid on the
    signature date, and the labour certificate expired. *)
Example scenario_A_B :
  map (fun r => (status r, option_map (map SubItem.status) (subItems r)))
      (findingsWith "sicaf-detailed"
         (runAuditRules hostUTC
            (Samples.with_sicaf
               (Sicaf.mk true None
                  (mkSicafDates (Some "2024-06-30") (Some "2024-03-10") (Some "2024-03-11")
                     (Some "2024-12-31") (Some "2025-01-15")))
               Samples.full)))
    = [(PASS, Some [PASS; PASS; PASS; PASS; PASS])] /\
  map (fun r => (status r,
                 option_map (map (fun s => (SubItem.label s, SubItem.status s))) (subItems r)))
      (findingsWith "sicaf-detailed" (runAuditRules hostUTC Samples.full))
    = [(FAIL, Some [ ("Receita Federal e PGFN", PASS); ("FGTS", PASS);
                     ("Trabalhista", FAIL); ("Estadual/Distrital", PASS);
                     ("Municipal", PASS) ])].
Proof. split; vm_compute; reflexivity. Qed.

(** Scenario C: two different identifiers. *)
Example scenario_C :
  map (fun r => (status r, details r))
      (findingsWith "cnpj-match"
         (runAuditRules hostUTC
            (Samples.with_nota
               (NotaFiscal.mk true None None (Some "11.111.111/0001-11") [] None None None
                  false true [])
               (Samples.with_termo
                  (TermoRecebimento.mk true (Some "22.222.222/0001-22") None true None
                     false None None None)
                  Samples.blank))))
  = [(FAIL, Some ("Divergência encontrada:" ++ nl ++ "NF: 11.111.111/0001-11" ++ nl
                  ++ "Termo: 22.222.222/0001-22"))].
Proof. vm_compute. reflexivity. Qed.

(** Scenarios D and E: a difference of 0.03, and a receipt filled with the
    net value. *)
Example scenario_D_E :
  map status (findingsWith "value-check-gross"
                (runAuditRules hostUTC (valueBundle 1000 None 999.97))) = [PASS] /\
  map (fun r => (status r, description r))
      (findingsWith "value-check-gross"
         (runAuditRules hostUTC (valueBundle 1000 (Some 950%float) 950)))
  = [(FAIL, "O Termo de Recebimento deve utilizar o Valor Bruto (Total) da Nota Fiscal.")].
Proof. split; vm_compute; reflexivity. Qed.

(** Scenario F: one part number, 10 on the invoice and 7 in the RMM. *)
Example scenario_F :
  map (fun r => (status r, subItems r))
      (findingsWith "rmm-check-detailed"
         (runAuditRules hostUTC
            (Samples.with_nota
               (NotaFiscal.mk true None None None [] None None None true false
                  [ LineItem.mk "Parafuso" (Some "PN1") 10%float None ])
               (Samples.with_rmm
                  (Rmm.mk true [ LineItem.mk "Parafuso" (Some "PN1") 7%float None ])
                  Samples.blank))))
  = [(WARNING, Some [ SubItem.mk "PN1 - Parafuso..." WARNING
                        "Divergência Qtd: NF(10) vs RMM(7)" ])].
Proof. vm_compute. reflexivity. Qed.

(* ---------------------------------------------------------------------- *)
(** * Further properties of the output *)

Section Output.

Variable host : Host.
Variable data : ExtractedData.

Lemma fromRule_weaken (n m : nat) (l : list AuditResult) :
  n <= m -> fromRule m l -> fromRule n l.
Proof.
  intros Hnm H. eapply Forall_impl; [ | exact H ].
  intros r [k [Hk Hle]]. exists k. split; [ exact Hk | lia ].
Qed.

Lemma block_before (n : nat) (l rest : list AuditResult) :
  block n l -> NoDup (map id rest) -> fromRule (S n) rest ->
  NoDup (map id (l ++ rest)) /\ fromRule n (l ++ rest).
Proof.
  intros [-> | [r [-> [Hr _]]]] Hnd Hfrom; cbn [app map].
  - split; [ exact Hnd | ]. apply fromRule_weaken with (m := S n); [ lia | exact Hfrom ].
  - split.
    + constructor; [ | exact Hnd ]. intros Hin.
      apply in_map_iff in Hin as [r' [Hid Hr']].
      unfold fromRule in Hfrom. rewrite Forall_forall in Hfrom.
      destruct (Hfrom r' Hr') as [k [Hk Hle]]. rewrite Hid, Hr in Hk.
      injection Hk as <-. lia.
    + constructor.
      * exists n. split; [ exact Hr | lia ].
      * apply fromRule_weaken with (m := S n); [ lia | exact Hfrom ].
Qed.

Lemma block_length (n : nat) (l : list AuditResult) : block n l -> List.length l <= 1.
Proof. intros [-> | [r [-> _]]]; cbn; lia. Qed.

Lemma rule_sicaf_length : List.length (rule_sicaf host data []) = 1.
Proof. unfold rule_sicaf, push. now destruct (_ && _). Qed.

Lemma runAuditRules_settled : Forall settled (runAuditRules host data).
Proof.
  rewrite runAuditRules_blocks.
  repeat (apply Forall_app; split);
    eauto using block_settled, block_docValidation, block_sicaf, block_cnpj,
      block_definitive, block_value, block_contractYear, block_rmm, block_nd.
Qed.

(** ** Well-formed findings *)

Ltac text_not_empty := cbn; discriminate.

Ltac wf_plain :=
  constructor; [ | constructor ];
  split; [ eexists; split; [ reflexivity | text_not_empty ] | ];
  split; [ cbn [recommendation status]; intros ? [= <-]; split; [ text_not_empty | discriminate ]
         | cbn [subItems]; intros ? [=] ].

Ltac wf_no_rec :=
  constructor; [ | constructor ];
  split; [ eexists; split; [ reflexivity | text_not_empty ] | ];
  split; [ cbn [recommendation]; intros ? [=] | cbn [subItems]; intros ? [=] ].

Lemma wf_docValidation : Forall wellFormed (rule_docValidation data []).
Proof.
  unfold rule_docValidation, push. destruct (InformacaoAdministrativa.wrongDocumentDetected _);
    [ cbn [app]; wf_plain | constructor ].
Qed.

Lemma wf_sicaf : Forall wellFormed (rule_sicaf host data []).
Proof.
  unfold rule_sicaf, push. destruct (_ && _); cbn [app]; [ | wf_no_rec ].
  constructor; [ | constructor ].
  destruct (existsb _ _); (split; [ eexists; split; [ reflexivity | text_not_empty ] | ]);
    (split; [ cbn [recommendation status]
            | cbn [subItems]; intros ? [= <-]; unfold certChecks; cbn [map]; discriminate ]).
  - intros ? [= <-]. split; [ text_not_empty | discriminate ].
  - intros ? [=].
Qed.

Lemma wf_cnpj : Forall wellFormed (rule_cnpj data []).
Proof.
  unfold rule_cnpj, push. destruct (collectCnpjs data) as [cnpjs srcs].
  destruct (1 <? List.length cnpjs)%nat; [ cbn [app]; wf_plain | ].
  destruct (List.length cnpjs =? 1)%nat; [ cbn [app]; wf_no_rec | constructor ].
Qed.

Lemma wf_definitive : Forall wellFormed (rule_definitive data []).
Proof.
  unfold rule_definitive, push.
  destruct (TermoRecebimento.found _); [ | constructor ].
  destruct (TermoRecebimento.isDefinitive _); cbn [app]; [ wf_no_rec | wf_plain ].
Qed.

Lemma wf_value : Forall wellFormed (rule_value host data []).
Proof.
  unfold rule_value, push.
  destruct (_ && _); [ | constructor ].
  destruct (NotaFiscal.grossValue _) as [g | ]; [ | constructor ].
  destruct (TermoRecebimento.totalValue _) as [t | ]; [ | constructor ].
  cbn [app]. unfold valueFinding.
  destruct (JsNumber.within _ g t); [ wf_no_rec | ].
  destruct (match NotaFiscal.liquidValue _ with Some _ => _ | None => _ end); wf_plain.
Qed.

Lemma wf_contractYear : Forall wellFormed (rule_contractYear host data []).
Proof.
  unfold rule_contractYear, push.
  destruct (TermoRecebimento.contractStartYear _); [ | constructor ].
  destruct (_ && _); [ | constructor ].
  destruct (PrimFloat.ltb _ _); [ cbn [app]; wf_plain | constructor ].
Qed.

Lemma crossCheck_details :
  snd (crossCheck host data) <> EmptyString.
Proof.
  unfold crossCheck. destruct (NotaFiscal.items (notaFiscal data)); [ text_not_empty | ].
  destruct (fold_left _ _ _) as [subs ms]. cbn [snd].
  destruct (CheckStatus_eqb ms FAIL); [ text_not_empty | ].
  destruct (CheckStatus_eqb ms WARNING); text_not_empty.
Qed.

Lemma wf_rmm : Forall wellFormed (rule_rmm host data []).
Proof.
  unfold rule_rmm, push.
  destruct (NotaFiscal.found _); [ | constructor ].
  destruct (NotaFiscal.isMaterial _).
  - destruct (Rmm.found _).
    + pose proof crossCheck_details as Hd.
      destruct (crossCheck host data) as [[subs st] det]. cbn [snd] in Hd. cbn [app].
      constructor; [ | constructor ].
      split; [ now exists det | ].
      split; [ cbn [recommendation]; intros ? [=] | ].
      cbn [subItems]. destruct subs; cbn; [ intros ? [=] | intros ? [= <-]; discriminate ].
    + destruct (_ && _); cbn [app]; [ wf_no_rec | wf_plain ].
  - destruct (_ && _); [ cbn [app]; wf_no_rec | constructor ].
Qed.

Lemma wf_nd : Forall wellFormed (rule_nd data []).
Proof.
  unfold rule_nd, push.
  destruct (_ && _); [ | constructor ].
  destruct (_ && _); [ | constructor ].
  destruct (_ && _ && _); [ cbn [app]; wf_no_rec | ].
  destruct (_ && _); cbn [app]; [ wf_no_rec | wf_plain ].
Qed.

Lemma runAuditRules_wellFormed : Forall wellFormed (runAuditRules host data).
Proof.
  rewrite runAuditRules_blocks.
  repeat (apply Forall_app; split);
    auto using wf_docValidation, wf_sicaf, wf_cnpj, wf_definitive, wf_value,
      wf_contractYear, wf_rmm, wf_nd.
Qed.

End Output.

(** X1: the ids of the findings of an output are pairwise different (they
    are the React keys of the cards). *)
Theorem X1_ids_unique (host : Host) (data : ExtractedData) :
  NoDup (map id (runAuditRules host data)).
Proof.
  rewrite runAuditRules_blocks.
  assert (H7 : NoDup (map id (rule_nd data [])) /\ fromRule 7 (rule_nd data [])).
  { rewrite <- (app_nil_r (rule_nd data [])).
    apply block_before; [ apply block_nd | constructor | constructor ]. }
  destruct H7 as [N7 F7].
  destruct (block_before (block_rmm host data) N7 F7) as [N6 F6].
  destruct (block_before (block_contractYear host data) N6 F6) as [N5 F5].
  destruct (block_before (block_value host data) N5 F5) as [N4 F4].
  destruct (block_before (block_definitive data) N4 F4) as [N3 F3].
  destruct (block_before (block_cnpj data) N3 F3) as [N2 F2].
  destruct (block_before (block_sicaf host data) N2 F2) as [N1 F1].
  destruct (block_before (block_docValidation data) N1 F1) as [N0 _].
  exact N0.
Qed.

(** X2: an output is never empty and has at most eight findings; one of
    them, and only one, is the finding of the SICAF check
    ([sicaf-detailed] or [sicaf-missing]). *)
Theorem X2_output_size (host : Host) (data : ExtractedData) :
  1 <= List.length (runAuditRules host data) <= 8 /\
  List.length (findingsWith "sicaf-detailed" (runAuditRules host data))
  + List.length (findingsWith "sicaf-missing" (runAuditRules host data)) = 1.
Proof.
  split.
  - rewrite runAuditRules_blocks, !length_app, rule_sicaf_length.
    pose proof (block_length (block_docValidation data)).
    pose proof (block_length (block_cnpj data)).
    pose proof (block_length (block_definitive data)).
    pose proof (block_length (block_value host data)).
    pose proof (block_length (block_contractYear host data)).
    pose proof (block_length (block_rmm host data)).
    pose proof (block_length (block_nd data)).
    lia.
  - rewrite (@findingsWith_block host data "sicaf-detailed" 1 eq_refl),
      (@findingsWith_block host data "sicaf-missing" 1 eq_refl).
    cbn [nth]. unfold rule_sicaf, push. now destruct (_ && _).
Qed.

(** X3: every finding of an output has an analysis text that is not
    empty; a finding with a recommendation is never a PASS, and the
    recommendation is not empty; a finding with sub-items has at least
    one. *)
Theorem X3_findings_well_formed (host : Host) (data : ExtractedData) :
  Forall (fun r =>
            (exists s, details r = Some s /\ s <> EmptyString) /\
            (forall s, recommendation r = Some s -> s <> EmptyString /\ status r <> PASS) /\
            (forall l, subItems r = Some l -> l <> []))
         (runAuditRules host data).
Proof. exact (runAuditRules_wellFormed host data). Qed.

Lemma truthy_Some (s : string) : s <> EmptyString -> truthy (Some s) = true.
Proof. intros H. unfold truthy. now destruct s. Qed.

(** X4: the card of a finding of an output draws all of it: the analysis
    box always, the sub-items whenever the finding has some, the
    recommendation whenever it has one; the card and its icon never take
    the default style (grey, spinner), and a sub-item is drawn in the red
    style exactly when it is a FAIL. *)
Theorem X4_card_draws_every_part (host : Host) (data : ExtractedData) (r : AuditResult) :
  In r (runAuditRules host data) ->
  AuditCard.showDetails r = true /\
  (AuditCard.showSubItems r = true <-> subItems r <> None) /\
  (AuditCard.showRecommendation r = true <-> recommendation r <> None) /\
  AuditCard.getStatusColor (status r) <> AuditCard.getStatusColor PENDING /\
  AuditCard.getIcon (status r) <> AuditCard.getIcon PENDING /\
  (forall subs s, subItems r = Some subs -> In s subs ->
     (AuditCard.subItemColor (SubItem.status s) = AuditCard.subItemColor FAIL
      <-> SubItem.status s = FAIL)).
Proof.
  intros Hin.
  pose proof (runAuditRules_wellFormed host data) as Hwf.
  pose proof (runAuditRules_settled host data) as Hset.
  rewrite Forall_forall in Hwf, Hset.
  destruct (Hwf r Hin) as [[d [Hd Hdne]] [Hrec Hsubs]].
  destruct (Hset r Hin) as [Hst Hsub].
  split; [ unfold AuditCard.showDetails; rewrite Hd; now apply truthy_Some | ].
  split.
  { unfold AuditCard.showSubItems. destruct (subItems r) as [l | ] eqn:El.
    - split; [ discriminate | intros _ ].
      specialize (Hsubs l eq_refl). destruct l; [ congruence | reflexivity ].
    - split; [ discriminate | congruence ]. }
  split.
  { unfold AuditCard.showRecommendation. destruct (recommendation r) as [s | ] eqn:Er.
    - split; [ discriminate | intros _ ].
      destruct (Hrec s eq_refl) as [Hne Hnp]. rewrite (truthy_Some Hne).
      now destruct (status r).
    - split; [ | congruence ]. rewrite andb_false_r. discriminate. }
  split; [ destruct (status r); cbn; congruence || discriminate | ].
  split; [ destruct (status r); cbn; congruence || discriminate | ].
  intros subs s Hs Hins. specialize (Hsub subs Hs). rewrite Forall_forall in Hsub.
  specialize (Hsub s Hins).
  destruct (SubItem.status s); cbn; split; congruence || discriminate.
Qed.

Lemma X4_card_draws_every_part_witness :
  AuditCard.showRecommendation
    {| id := "sicaf-detailed";
       title := "Regularidade SICAF";
       description := "Conferência das validades em relação à data de assinatura do Termo (10/03/2024).";
       status := FAIL;
       details := Some "Uma ou mais certidões estavam vencidas ou não foram encontradas na data da assinatura.";
       recommendation := Some "Solicitar SICAF atualizado ou devolver Nota Fiscal.";
       subItems := Some (map (certSubItem hostUTC (Some 1710028800000%Z))
                           (certChecks Samples.full)) |} = true <->
  Some "Solicitar SICAF atualizado ou devolver Nota Fiscal." <> None.
Proof.
  refine (proj1 (proj2 (proj2 (@X4_card_draws_every_part hostUTC Samples.full _ _)))).
  left. vm_compute. reflexivity.
Defined.

(** X20: every finding of an output is counted by the badge OK (the PASS
    findings) or by the badge Erro (the FAIL findings), or is a WARNING,
    which no badge counts. *)
Theorem X20_badges_count (host : Host) (data : ExtractedData) :
  countStatus PASS (runAuditRules host data)
  + countStatus FAIL (runAuditRules host data)
  + countStatus WARNING (runAuditRules host data)
  = List.length (runAuditRules host data).
Proof.
  pose proof (runAuditRules_settled host data) as Hset.
  unfold countStatus.
  induction (runAuditRules host data) as [ | r l IH ]; [ reflexivity | ].
  inversion Hset as [ | ? ? [Hr _] Hl ]; subst. specialize (IH Hl).
  cbn [filter List.length].
  destruct (status r); cbn [CheckStatus_eqb List.length]; try congruence; lia.
Qed.

(* ---------------------------------------------------------------------- *)
(** * Further properties of the line check (rule 6) *)

Lemma worstOf_snoc (l : list CheckStatus) (x : CheckStatus) :
  worstOf (l ++ [x]) =
  match x with
  | FAIL => FAIL
  | WARNING => if CheckStatus_eqb (worstOf l) FAIL then FAIL else WARNING
  | _ => worstOf l
  end.
Proof.
  unfold worstOf. rewrite !existsb_app. cbn [existsb].
  destruct x; cbn [CheckStatus_eqb]; rewrite ?orb_false_r, ?orb_true_r; try reflexivity;
    destruct (existsb (fun s => CheckStatus_eqb s FAIL) l); try reflexivity;
    destruct (existsb (fun s => CheckStatus_eqb s WARNING) l); reflexivity.
Qed.

Lemma matchStep_worst (host : Host) (rmmMap : AggMap) (st : list SubItem.t * CheckStatus)
    (kv : string * AggregatedItem) :
  snd st = worstOf (map SubItem.status (fst st)) ->
  snd (matchStep host rmmMap st kv)
  = worstOf (map SubItem.status (fst (matchStep host rmmMap st kv))).
Proof.
  destruct st as [subs ms], kv as [key nfItem]. cbn [fst snd]. intros ->.
  unfold matchStep, push.
  destruct (findRmmMatch rmmMap key nfItem) as [r | ].
  - destruct (JsNumber.within _ _ _); cbn [fst snd]; rewrite map_app;
      cbn [map SubItem.status]; rewrite worstOf_snoc; [ reflexivity | ].
    now destruct (worstOf (map SubItem.status subs)).
  - cbn [fst snd]. rewrite map_app. cbn [map SubItem.status]. now rewrite worstOf_snoc.
Qed.

Lemma matchLoop_worst (host : Host) (rmmMap nfMap : AggMap) : forall st,
  snd st = worstOf (map SubItem.status (fst st)) ->
  snd (fold_left (matchStep host rmmMap) nfMap st)
  = worstOf (map SubItem.status (fst (fold_left (matchStep host rmmMap) nfMap st))).
Proof.
  induction nfMap as [ | kv rest IH ]; intros st Hst; [ exact Hst | ].
  cbn [fold_left]. apply IH. now apply matchStep_worst.
Qed.

Lemma groupSubItem_label (host : Host) (nfItem : AggregatedItem) (o : option AggregatedItem) :
  SubItem.label (groupSubItem host nfItem o) = groupLabel nfItem.
Proof.
  unfold groupSubItem. destruct o; [ | reflexivity ]. now destruct (JsNumber.within _ _ _).
Qed.

Lemma aggregateItems_keys (items : list LineItem.t) :
  map fst (aggregateItems items) = distinct (map itemKey items).
Proof.
  unfold aggregateItems. rewrite aggregate_keys. cbn [map app existsb negb].
  induction (distinct (map itemKey items)) as [ | k ks IH ]; [ reflexivity | ].
  cbn [filter]. now rewrite IH.
Qed.

Lemma aggregateItems_nonempty (items : list LineItem.t) :
  items <> [] -> aggregateItems items <> [].
Proof.
  intros Hne Hm. pose proof (aggregateItems_keys items) as Hk. rewrite Hm in Hk.
  destruct items as [ | it its ]; [ congruence | ]. discriminate Hk.
Qed.

(** The finding pushed by the line check when the invoice is a found
    material invoice and the RMM is found. *)
Lemma rule_rmm_detailed (host : Host) (data : ExtractedData) :
  NotaFiscal.found (notaFiscal data) = true ->
  NotaFiscal.isMaterial (notaFiscal data) = true ->
  Rmm.found (rmm data) = true ->
  exists r,
    findingsWith "rmm-check-detailed" (runAuditRules host data) = [r] /\
    status r = snd (fst (crossCheck host data)) /\
    subItems r = (if (0 <? List.length (fst (fst (crossCheck host data))))%nat
                  then Some (fst (fst (crossCheck host data))) else None).
Proof.
  intros Hf Hm Hr.
  rewrite (@findingsWith_block host data "rmm-check-detailed" 6 eq_refl). cbn [nth].
  unfold rule_rmm, push. rewrite Hf, Hm, Hr.
  destruct (crossCheck host data) as [[subs st] det]. cbn [app fst snd].
  eexists. split; [ reflexivity | ]. split; reflexivity.
Qed.

(** X5: for a found material invoice with at least one line and a found
    RMM, the finding [rmm-check-detailed] has one sub-item for each
    distinct key of the invoice lines, in the order in which the keys first
    occur, labelled with the part number (or S/N) and the first 30
    characters of the description of the group. *)
Theorem X5_one_sub_item_per_group (host : Host) (data : ExtractedData) :
  NotaFiscal.found (notaFiscal data) = true ->
  NotaFiscal.isMaterial (notaFiscal data) = true ->
  Rmm.found (rmm data) = true ->
  NotaFiscal.items (notaFiscal data) <> [] ->
  exists r subs,
    findingsWith "rmm-check-detailed" (runAuditRules host data) = [r] /\
    subItems r = Some subs /\
    List.length subs = List.length (distinct (map itemKey (NotaFiscal.items (notaFiscal data)))) /\
    map SubItem.label subs
    = map (fun kv => groupLabel (snd kv)) (aggregateItems (NotaFiscal.items (notaFiscal data))).
Proof.
  intros Hf Hm Hr Hitems.
  destruct (rule_rmm_detailed host data Hf Hm Hr) as [r [Hfw [_ Hsubs]]].
  set (nfMap := aggregateItems (NotaFiscal.items (notaFiscal data))).
  set (rmmMap := aggregateItems (Rmm.items (rmm data))).
  assert (Hcc : fst (fst (crossCheck host data))
                = map (fun kv => groupSubItem host (snd kv)
                                   (findRmmMatch rmmMap (fst kv) (snd kv))) nfMap).
  { unfold crossCheck.
    destruct (NotaFiscal.items (notaFiscal data)) as [ | it its ] eqn:E; [ congruence | ].
    pose proof (matchLoop_subs host rmmMap (aggregateItems (it :: its)) ([], PASS)) as H.
    fold rmmMap. destruct (fold_left _ _ _) as [subs ms]. cbn [fst snd] in *.
    subst nfMap. exact H. }
  assert (Hlen : List.length (fst (fst (crossCheck host data)))
                 = List.length (distinct (map itemKey (NotaFiscal.items (notaFiscal data))))).
  { rewrite Hcc, length_map. unfold nfMap.
    rewrite <- (aggregateItems_keys (NotaFiscal.items (notaFiscal data))).
    now rewrite length_map. }
  exists r, (fst (fst (crossCheck host data))).
  split; [ exact Hfw | ]. split.
  - rewrite Hsubs.
    destruct (fst (fst (crossCheck host data))) as [ | s ss ] eqn:Es; [ | reflexivity ].
    exfalso. apply (aggregateItems_nonempty Hitems). fold nfMap.
    destruct nfMap; [ reflexivity | discriminate Hcc ].
  - split; [ exact Hlen | ]. rewrite Hcc, map_map.
    apply map_ext. intros kv. apply groupSubItem_label.
Qed.

Lemma crossCheck_worst (host : Host) (data : ExtractedData) :
  NotaFiscal.items (notaFiscal data) <> [] ->
  fst (fst (crossCheck host data)) <> [] /\
  snd (fst (crossCheck host data))
  = worstOf (map SubItem.status (fst (fst (crossCheck host data)))).
Proof.
  intros Hitems. unfold crossCheck.
  destruct (NotaFiscal.items (notaFiscal data)) as [ | it its ] eqn:E; [ congruence | ].
  set (rmmMap := aggregateItems (Rmm.items (rmm data))).
  pose proof (matchLoop_subs host rmmMap (aggregateItems (it :: its)) ([], PASS)) as Hsubs.
  pose proof (@matchLoop_worst host rmmMap (aggregateItems (it :: its)) ([], PASS) eq_refl)
    as Hworst.
  assert (Hne : aggregateItems (it :: its) <> []) by (apply aggregateItems_nonempty; discriminate).
  destruct (fold_left _ _ _) as [subs ms]. cbn [fst snd] in *.
  split; [ | exact Hworst ].
  rewrite Hsubs. destruct (aggregateItems (it :: its)); [ congruence | discriminate ].
Qed.

(** X6: the status of the finding [rmm-check-detailed] is the worst of
    the statuses of its sub-items (FAIL over WARNING over PASS) when the
    invoice has lines; with no invoice line it is a WARNING without
    sub-items. *)
Theorem X6_status_is_worst_sub_item (host : Host) (data : ExtractedData) :
  NotaFiscal.found (notaFiscal data) = true ->
  NotaFiscal.isMaterial (notaFiscal data) = true ->
  Rmm.found (rmm data) = true ->
  exists r,
    findingsWith "rmm-check-detailed" (runAuditRules host data) = [r] /\
    (NotaFiscal.items (notaFiscal data) <> [] ->
       exists subs, subItems r = Some subs /\
                    status r = worstOf (map SubItem.status subs)) /\
    (NotaFiscal.items (notaFiscal data) = [] ->
       status r = WARNING /\ subItems r = None).
Proof.
  intros Hf Hm Hr.
  destruct (rule_rmm_detailed host data Hf Hm Hr) as [r [Hfw [Hst Hsubs]]].
  exists r. split; [ exact Hfw | ]. split.
  - intros Hitems.
    destruct (@crossCheck_worst host data Hitems) as [Hne Hworst].
    exists (fst (fst (crossCheck host data))). split.
    + rewrite Hsubs. destruct (fst (fst (crossCheck host data))); [ congruence | reflexivity ].
    + rewrite Hst. exact Hworst.
  - intros Hitems. rewrite Hst, Hsubs. unfold crossCheck. rewrite Hitems. now split.
Qed.

(* ---------------------------------------------------------------------- *)
(** * What of the output depends on the host *)

Section Verdicts.

Variables h1 h2 : Host.
Variable data : ExtractedData.
Hypothesis sameParse :
  forall s, In s (comparedDates data) -> Date_parse h1 s = Date_parse h2 s.

Lemma In_comparedDates_signature (s : string) :
  TermoRecebimento.signatureDate (termoRecebimento data) = Some s ->
  In s (comparedDates data).
Proof. intros H. unfold comparedDates. cbn [flat_map]. rewrite H. now left. Qed.

Lemma In_comparedDates_cert (c : CertCheck) (s : string) :
  In c (certChecks data) -> dateStr c = Some s -> In s (comparedDates data).
Proof.
  intros Hc Hs. unfold comparedDates. cbn [flat_map]. apply in_or_app. right.
  apply in_flat_map. exists (Some s). split; [ | now left ].
  rewrite <- Hs. now apply in_map.
Qed.

Lemma Date_getTime_signature :
  Date_getTime h1 (TermoRecebimento.signatureDate (termoRecebimento data))
  = Date_getTime h2 (TermoRecebimento.signatureDate (termoRecebimento data)).
Proof.
  destruct (TermoRecebimento.signatureDate (termoRecebimento data)) as [s | ] eqn:E;
    [ | reflexivity ].
  cbn [Date_getTime]. apply sameParse. exact (@In_comparedDates_signature s E).
Qed.

Lemma Date_getTime_cert (c : CertCheck) :
  In c (certChecks data) -> Date_getTime h1 (dateStr c) = Date_getTime h2 (dateStr c).
Proof.
  intros Hc. destruct (dateStr c) as [s | ] eqn:E; [ | reflexivity ].
  cbn [Date_getTime]. apply sameParse. exact (@In_comparedDates_cert c s Hc E).
Qed.

Lemma certSubItem_verdict_same (sig : option Z) (c : CertCheck) :
  In c (certChecks data) ->
  (SubItem.label (certSubItem h1 sig c), SubItem.status (certSubItem h1 sig c))
  = (SubItem.label (certSubItem h2 sig c), SubItem.status (certSubItem h2 sig c)).
Proof.
  intros Hc. unfold certSubItem. rewrite (@Date_getTime_cert c Hc).
  destruct (truthy (dateStr c)); [ | reflexivity ]. now destruct (Date_ge _ _).
Qed.

Lemma verdict_sicaf :
  map verdict (rule_sicaf h1 data []) = map verdict (rule_sicaf h2 data []).
Proof.
  unfold rule_sicaf, push. rewrite Date_getTime_signature.
  set (sig := Date_getTime h2 (TermoRecebimento.signatureDate (termoRecebimento data))).
  destruct (_ && _); [ | reflexivity ].
  assert (Hex : forall l : list CertCheck, incl l (certChecks data) ->
            existsb (fun i => CheckStatus_eqb (SubItem.status i) FAIL)
              (map (certSubItem h1 sig) l)
            = existsb (fun i => CheckStatus_eqb (SubItem.status i) FAIL)
                (map (certSubItem h2 sig) l)).
  { induction l as [ | c l IH ]; intros Hl; [ reflexivity | ]. cbn [map existsb].
    rewrite IH by (intros x Hx; apply Hl; now right).
    pose proof (f_equal snd (@certSubItem_verdict_same sig c (Hl c (or_introl eq_refl))))
      as Hc.
    cbn [snd] in Hc. now rewrite Hc. }
  cbn [app map]. unfold verdict at 1 2. cbn [id status subItems option_map].
  rewrite (Hex (certChecks data) (incl_refl _)). do 3 f_equal.
  rewrite !map_map. apply map_ext_in. intros c Hc. now apply certSubItem_verdict_same.
Qed.

Lemma verdict_value :
  map verdict (rule_value h1 data []) = map verdict (rule_value h2 data []).
Proof.
  unfold rule_value, push.
  destruct (_ && _); [ | reflexivity ].
  destruct (NotaFiscal.grossValue _) as [g | ]; [ | reflexivity ].
  destruct (TermoRecebimento.totalValue _) as [t | ]; [ | reflexivity ].
  cbn [app map]. unfold valueFinding.
  destruct (JsNumber.within _ g t); [ reflexivity | ].
  now destruct (match NotaFiscal.liquidValue _ with Some _ => _ | None => _ end).
Qed.

Lemma withoutContractDate_contractYear (h : Host) :
  withoutContractDate (rule_contractYear h data []) = [].
Proof.
  unfold rule_contractYear, push.
  destruct (TermoRecebimento.contractStartYear _); [ | reflexivity ].
  destruct (_ && _); [ | reflexivity ].
  now destruct (PrimFloat.ltb _ _).
Qed.

Lemma matchStep_alike (rmmMap : AggMap) (st1 st2 : list SubItem.t * CheckStatus)
    (kv : string * AggregatedItem) :
  alike st1 st2 -> alike (matchStep h1 rmmMap st1 kv) (matchStep h2 rmmMap st2 kv).
Proof.
  destruct st1 as [s1 m1], st2 as [s2 m2], kv as [key nfItem].
  unfold alike. cbn [fst snd]. intros [Hs ->]. unfold matchStep, push.
  destruct (findRmmMatch rmmMap key nfItem) as [r | ].
  - destruct (JsNumber.within _ _ _); cbn [fst snd]; rewrite !map_app, Hs; now split.
  - cbn [fst snd]. rewrite !map_app, Hs. now split.
Qed.

Lemma matchLoop_alike (rmmMap nfMap : AggMap) : forall st1 st2,
  alike st1 st2 ->
  alike (fold_left (matchStep h1 rmmMap) nfMap st1) (fold_left (matchStep h2 rmmMap) nfMap st2).
Proof.
  induction nfMap as [ | kv rest IH ]; intros st1 st2 H; [ exact H | ].
  cbn [fold_left]. apply IH. now apply matchStep_alike.
Qed.

Lemma verdict_rmm :
  map verdict (rule_rmm h1 data []) = map verdict (rule_rmm h2 data []).
Proof.
  unfold rule_rmm, push.
  destruct (NotaFiscal.found _); [ | reflexivity ].
  destruct (NotaFiscal.isMaterial _); [ | reflexivity ].
  destruct (Rmm.found _); [ | reflexivity ].
  unfold crossCheck.
  destruct (NotaFiscal.items (notaFiscal data)) as [ | it its ]; [ reflexivity | ].
  set (rmmMap := aggregateItems (Rmm.items (rmm data))).
  pose proof (@matchLoop_alike rmmMap (aggregateItems (it :: its)) ([], PASS) ([], PASS)
                (conj eq_refl eq_refl)) as H.
  destruct (fold_left (matchStep h1 rmmMap) _ _) as [s1 m1].
  destruct (fold_left (matchStep h2 rmmMap) _ _) as [s2 m2].
  destruct H as [Hs Hm]. cbn [fst snd] in Hs, Hm. subst m2.
  cbn [app map]. unfold verdict. cbn [id status subItems].
  assert (Hlen : List.length s1 = List.length s2).
  { rewrite <- (length_map (fun s => (SubItem.label s, SubItem.status s)) s1), Hs.
    apply length_map. }
  rewrite Hlen. destruct (0 <? List.length s2)%nat; cbn [option_map]; now rewrite ?Hs.
Qed.

Lemma verdicts_same :
  map verdict (withoutContractDate (runAuditRules h1 data))
  = map verdict (withoutContractDate (runAuditRules h2 data)).
Proof.
  rewrite !runAuditRules_blocks. unfold withoutContractDate.
  rewrite !filter_app, !map_app.
  fold (withoutContractDate (rule_contractYear h1 data [])).
  fold (withoutContractDate (rule_contractYear h2 data [])).
  rewrite !withoutContractDate_contractYear.
  assert (Hf : forall l1 l2 : list AuditResult,
            map verdict l1 = map verdict l2 ->
            map verdict (filter (fun r => negb (id r =? "contract-date")) l1)
            = map verdict (filter (fun r => negb (id r =? "contract-date")) l2)).
  { induction l1 as [ | a l1 IH ]; intros [ | b l2 ] H; try discriminate; [ reflexivity | ].
    cbn [map] in H.
    assert (Hab : verdict a = verdict b) by congruence.
    assert (Hl : map verdict l1 = map verdict l2) by congruence.
    assert (Hid : id a = id b) by (unfold verdict in Hab; congruence).
    cbn [filter]. rewrite Hid.
    destruct (negb (id b =? "contract-date")); [ | now apply IH ].
    cbn [map]. rewrite Hab. f_equal. now apply IH. }
  rewrite (Hf _ _ verdict_sicaf), (Hf _ _ verdict_value), (Hf _ _ verdict_rmm).
  reflexivity.
Qed.

End Verdicts.

(** X7: two hosts that read alike the dates the SICAF check compares
    (the signature date of the receipt and the validity dates of the
    bundle), whatever their time zones and whatever they make of other
    strings, give findings with the same ids, statuses and sub-item labels
    and statuses, apart from the finding [contract-date]: the local time
    zone is read by that finding only, and the rendering of numbers and
    dates reaches only texts.  Dates written [YYYY-MM-DD], which every
    host reads as midnight UTC, meet the condition on hosts of any zone. *)
Theorem X7_verdicts_free_of_zone_and_format (h1 h2 : Host) (data : ExtractedData) :
  (forall s, In s (comparedDates data) -> Date_parse h1 s = Date_parse h2 s) ->
  map verdict (withoutContractDate (runAuditRules h1 data))
  = map verdict (withoutContractDate (runAuditRules h2 data)).
Proof. intros H. now apply verdicts_same. Qed.

Lemma X7_verdicts_free_of_zone_and_format_witness :
  Date_parse (zonedHost 0) "03/10/2024" <> Date_parse (zonedHost (-180)) "03/10/2024" /\
  map verdict (withoutContractDate (runAuditRules (zonedHost 0) Samples.full))
  = map verdict (withoutContractDate (runAuditRules (zonedHost (-180)) Samples.full)).
Proof.
  split; [ vm_compute; discriminate | ].
  apply (@X7_verdicts_free_of_zone_and_format (zonedHost 0) (zonedHost (-180)) Samples.full).
  intros s Hin. vm_compute in Hin.
  repeat (destruct Hin as [Hs | Hin]; [ rewrite <- Hs; vm_compute; reflexivity | ]).
  contradiction.
Defined.

(** The condition of X7 is needed: a signature date written
    month/day/year is read in local time, and the certificates valid until
    that day pass on UTC and fail on UTC-3. *)
Example zone_reaches_local_date_formats :
  map status (findingsWith "sicaf-detailed" (runAuditRules (zonedHost 0) slashSignature))
  = [PASS] /\
  map status (findingsWith "sicaf-detailed" (runAuditRules (zonedHost (-180)) slashSignature))
  = [FAIL].
Proof. split; vm_compute; reflexivity. Qed.

(* ---------------------------------------------------------------------- *)
(** * A wrong document in place of the administrative note *)

Lemma In_findingsWith (i : string) (r : AuditResult) (l : list AuditResult) :
  In r l -> id r = i -> In r (findingsWith i l).
Proof.
  intros Hin Hid. apply filter_In. split; [ exact Hin | ].
  rewrite Hid. apply String.eqb_refl.
Qed.

(** X8: when the file sent as administrative note is detected to be
    another document, the output starts with the FAIL
    [doc-validation-info-admin], and the note justifies nothing: the
    finding [rmm-check] of a material invoice is a FAIL and the finding
    [nd-consistency], when there is one, is a WARNING, whatever the other
    flags of the note. *)
Theorem X8_wrong_document_justifies_nothing (host : Host) (data : ExtractedData) :
  InformacaoAdministrativa.wrongDocumentDetected (informacaoAdministrativa data) = true ->
  (exists r rest,
     runAuditRules host data = r :: rest /\
     id r = "doc-validation-info-admin" /\ status r = FAIL) /\
  (forall r, In r (runAuditRules host data) -> id r = "rmm-check" ->
     NotaFiscal.isMaterial (notaFiscal data) = true -> status r = FAIL) /\
  (forall r, In r (runAuditRules host data) -> id r = "nd-consistency" ->
     status r = WARNING).
Proof.
  intros Hw. split; [ | split ].
  - rewrite runAuditRules_blocks. unfold rule_docValidation, push. rewrite Hw.
    cbn [app]. eexists. eexists. split; [ reflexivity | ]. now split.
  - intros r Hin Hid Hmat.
    pose proof (@In_findingsWith _ r _ Hin Hid) as H.
    rewrite (@findingsWith_block host data "rmm-check" 6 eq_refl) in H. cbn [nth] in H.
    apply filter_In in H as [H _]. revert H.
    unfold rule_rmm, push. rewrite Hmat, Hw. rewrite !andb_false_r.
    destruct (NotaFiscal.found _); [ | intros [] ].
    destruct (Rmm.found _).
    + destruct (crossCheck host data) as [[subs st] det].
      intros [<- | []]. discriminate Hid.
    + intros [<- | []]. reflexivity.
  - intros r Hin Hid.
    pose proof (@In_findingsWith _ r _ Hin Hid) as H.
    rewrite (@findingsWith_block host data "nd-consistency" 7 eq_refl) in H. cbn [nth] in H.
    apply filter_In in H as [H _]. revert H.
    unfold rule_nd, push. rewrite Hw. rewrite !andb_false_r.
    destruct (_ && _); [ | intros [] ].
    destruct (_ && _); [ | intros [] ].
    intros [<- | []]. reflexivity.
Qed.

(* ---------------------------------------------------------------------- *)
(** * Further properties of the CNPJ check (rule 2) *)

Lemma Set_add_In (x y : string) (s : list string) :
  In y (Set_add x s) <-> y = x \/ In y s.
Proof.
  unfold Set_add. destruct (existsb (String.eqb x) s) eqn:E.
  - split; [ now right | ]. intros [-> | H]; [ | exact H ].
    apply existsb_exists in E as [z [Hz Heq]]. apply String.eqb_eq in Heq. now subst.
  - rewrite in_app_iff. cbn. split; [ intros [H | [<- | []]]; auto | ].
    intros [-> | H]; auto.
Qed.

Lemma Set_add_NoDup (x : string) (s : list string) : NoDup s -> NoDup (Set_add x s).
Proof.
  intros Hnd. unfold Set_add. destruct (existsb (String.eqb x) s) eqn:E; [ exact Hnd | ].
  apply NoDup_app; [ exact Hnd | repeat constructor; intros [] | ].
  intros y Hy [Heq | []]. subst y.
  assert (existsb (String.eqb x) s = true)
    by (apply existsb_exists; exists x; split; [ exact Hy | apply String.eqb_refl ]).
  congruence.
Qed.

(** The set and the sources after the three guarded statements. *)
Lemma collectCnpjs_spec (data : ExtractedData) :
  fst (collectCnpjs data)
  = fold_left (fun s raw => Set_add (onlyDigits raw) s) (presentCnpjs data) [] /\
  snd (collectCnpjs data)
  = map (fun p => fst p ++ ": " ++ snd p)
      (flat_map (fun p => match snd p with
                          | Some s => if truthy (snd p) then [(fst p, s)] else []
                          | None => []
                          end)
         [ ("NF", NotaFiscal.cnpj (notaFiscal data));
           ("Termo", TermoRecebimento.cnpj (termoRecebimento data));
           ("SICAF", Sicaf.cnpj (sicaf data)) ]).
Proof.
  unfold collectCnpjs, presentCnpjs, addCnpj, push. cbn [flat_map].
  destruct (NotaFiscal.cnpj (notaFiscal data)) as [a | ];
    destruct (TermoRecebimento.cnpj (termoRecebimento data)) as [b | ];
    destruct (Sicaf.cnpj (sicaf data)) as [c | ];
    cbn [snd fst];
    repeat match goal with
           | |- context [truthy ?o] => destruct (truthy o)
           end;
    cbn [fst snd app fold_left map]; split; reflexivity.
Qed.

Lemma setOf_In (l : list string) : forall (acc : list string) (y : string),
  In y (fold_left (fun s raw => Set_add (onlyDigits raw) s) l acc)
  <-> In y acc \/ exists raw, In raw l /\ onlyDigits raw = y.
Proof.
  induction l as [ | x l IH ]; intros acc y; cbn [fold_left].
  - split; [ now left | ]. intros [H | [raw [[] _]]]. exact H.
  - rewrite IH, Set_add_In. split.
    + intros [[-> | H] | [raw [Hin Heq]]]; auto.
      * right. exists x. split; [ now left | reflexivity ].
      * right. exists raw. split; [ now right | exact Heq ].
    + intros [H | [raw [[<- | Hin] Heq]]]; auto.
      right. exists raw. now split.
Qed.

Lemma setOf_NoDup (l : list string) : forall acc : list string,
  NoDup acc -> NoDup (fold_left (fun s raw => Set_add (onlyDigits raw) s) l acc).
Proof.
  induction l as [ | x l IH ]; intros acc H; [ exact H | ].
  cbn [fold_left]. apply IH. now apply Set_add_NoDup.
Qed.

Lemma NoDup_two (A : Type) (l : list A) (a b : A) :
  NoDup l -> In a l -> In b l -> a <> b -> 1 < List.length l.
Proof.
  intros Hnd Ha Hb Hab. destruct l as [ | x [ | y l ] ].
  - destruct Ha.
  - destruct Ha as [<- | []], Hb as [<- | []]. congruence.
  - cbn. lia.
Qed.

Lemma NoDup_all_equal (A : Type) (l : list A) (a : A) :
  NoDup l -> (forall x, In x l -> x = a) -> List.length l <= 1.
Proof.
  intros Hnd Hall. destruct l as [ | x [ | y l ] ]; cbn; try lia.
  exfalso. inversion Hnd as [ | ? ? Hnot _ ]; subst. apply Hnot.
  rewrite (Hall x (or_introl eq_refl)), (Hall y (or_intror (or_introl eq_refl))).
  now left.
Qed.

(** X9: the CNPJ check, read off the three identifiers.  With no
    identifier present there is no finding [cnpj-match]; when all the
    identifiers present have the same digits the finding is a PASS; when
    two of them differ in their digits it is a FAIL whose text lists every
    identifier present, raw, under its source. *)
Theorem X9_cnpj_check_by_identifiers (host : Host) (data : ExtractedData) :
  (presentCnpjs data = [] ->
     findingsWith "cnpj-match" (runAuditRules host data) = []) /\
  (presentCnpjs data <> [] ->
   (forall a b, In a (presentCnpjs data) -> In b (presentCnpjs data) ->
                onlyDigits a = onlyDigits b) ->
     exists r, findingsWith "cnpj-match" (runAuditRules host data) = [r] /\
               status r = PASS) /\
  ((exists a b, In a (presentCnpjs data) /\ In b (presentCnpjs data) /\
                onlyDigits a <> onlyDigits b) ->
     exists r, findingsWith "cnpj-match" (runAuditRules host data) = [r] /\
               status r = FAIL /\
               details r = Some ("Divergência encontrada:" ++ nl
                                 ++ join nl (snd (collectCnpjs data)))).
Proof.
  rewrite (@findingsWith_block host data "cnpj-match" 2 eq_refl). cbn [nth].
  destruct (collectCnpjs_spec data) as [Hset _].
  pose proof (@setOf_NoDup (presentCnpjs data) [] (NoDup_nil _)) as Hnd.
  pose proof (fun y => @setOf_In (presentCnpjs data) [] y) as Hin.
  rewrite <- Hset in Hnd, Hin.
  unfold rule_cnpj, push.
  destruct (collectCnpjs data) as [cnpjs srcs]. cbn [fst snd] in *.
  split; [ | split ].
  - intros Hnone. rewrite Hnone in Hset. cbn in Hset. subst cnpjs. reflexivity.
  - intros Hsome Hall.
    destruct (presentCnpjs data) as [ | a rest ] eqn:Ep; [ congruence | ].
    assert (Hle : List.length cnpjs <= 1).
    { apply (@NoDup_all_equal _ cnpjs (onlyDigits a) Hnd).
      intros x Hx. apply Hin in Hx as [[] | [raw [Hraw <-]]].
      apply Hall; [ exact Hraw | now left ]. }
    assert (Hx : In (onlyDigits a) cnpjs).
    { apply Hin. right. exists a. split; [ now left | reflexivity ]. }
    destruct cnpjs as [ | x [ | y l ] ]; cbn in Hle; [ contradiction | | lia ].
    cbn. eexists. split; [ reflexivity | reflexivity ].
  - intros [a [b [Ha [Hb Hab]]]].
    assert (Hlt : 1 < List.length cnpjs).
    { apply (@NoDup_two _ cnpjs (onlyDigits a) (onlyDigits b) Hnd); [ | | exact Hab ];
        apply Hin; right; [ exists a | exists b ]; now split. }
    apply Nat.ltb_lt in Hlt. rewrite Hlt. cbn [app].
    eexists. split; [ reflexivity | ]. split; reflexivity.
Qed.

Lemma X9_cnpj_check_by_identifiers_witness :
  exists r, findingsWith "cnpj-match" (runAuditRules hostUTC Samples.full) = [r] /\
            status r = PASS.
Proof.
  refine (proj1 (proj2 (X9_cnpj_check_by_identifiers hostUTC Samples.full)) _ _).
  - discriminate.
  - intros a b Ha Hb. cbn in Ha, Hb.
    destruct Ha as [<- | [<- | [<- | []]]], Hb as [<- | [<- | [<- | []]]];
      vm_compute; reflexivity.
Defined.

(* ---------------------------------------------------------------------- *)
(** * Further properties of the aggregation *)

Lemma countedLines_cons (k : string) (v : AggregatedItem) (m : AggMap) :
  countedLines ((k, v) :: m) = originalCount v + countedLines m.
Proof. reflexivity. Qed.

Lemma countedLines_set_new (m : AggMap) (k : string) (v : AggregatedItem) :
  Map_get m k = None ->
  countedLines (Map_set m k v) = countedLines m + originalCount v.
Proof.
  induction m as [ | [k0 w] m IH ]; cbn [Map_get Map_set].
  - intros _. rewrite countedLines_cons. unfold countedLines. cbn. lia.
  - destruct (k =? k0); [ discriminate | ]. intros H.
    rewrite !countedLines_cons, (IH H). lia.
Qed.

Lemma countedLines_set_old (m : AggMap) (k : string) (e v : AggregatedItem) :
  Map_get m k = Some e ->
  countedLines (Map_set m k v) + originalCount e = countedLines m + originalCount v.
Proof.
  induction m as [ | [k0 w] m IH ]; cbn [Map_get Map_set].
  - discriminate.
  - destruct (k =? k0).
    + intros [= ->]. rewrite !countedLines_cons. lia.
    + intros H. rewrite !countedLines_cons. specialize (IH H). lia.
Qed.

Lemma aggregateStep_counts (m : AggMap) (it : LineItem.t) :
  countedLines (aggregateStep m it) = countedLines m + 1.
Proof.
  unfold aggregateStep, Map_has.
  destruct (Map_get m (itemKey it)) as [e | ] eqn:Eget; cbn [negb].
  - rewrite Eget. pose proof (@countedLines_set_old m (itemKey it) e (bumpEntry e it) Eget) as H.
    cbn [bumpEntry originalCount] in H. lia.
  - rewrite Map_get_set_same.
    match goal with
    | |- countedLines (Map_set ?m1 _ ?v) = _ =>
        pose proof (@countedLines_set_old m1 (itemKey it) _ v (Map_get_set_same m _ _)) as H
    end.
    rewrite (@countedLines_set_new m (itemKey it) _ Eget) in H.
    cbn [bumpEntry originalCount] in H. lia.
Qed.

(** X10: aggregation loses no line and counts none twice: the numbers of
    lines counted in the groups add up to the number of lines. *)
Theorem X10_every_line_counted_once (items : list LineItem.t) :
  countedLines (aggregateItems items) = List.length items.
Proof.
  unfold aggregateItems.
  assert (H : forall m, countedLines (fold_left aggregateStep items m)
                        = countedLines m + List.length items).
  { induction items as [ | it its IH ]; intros m; cbn [fold_left List.length]; [ lia | ].
    rewrite IH, aggregateStep_counts. lia. }
  now rewrite H.
Qed.

Lemma allChars_keep (p q : ascii -> bool) (s : string) :
  (forall c, p c = true -> q c = true) -> allChars q (keep p s) = true.
Proof.
  intros Hpq. induction s as [ | c s IH ]; [ reflexivity | ].
  cbn [keep]. destruct (p c) eqn:E; [ | exact IH ].
  cbn [allChars]. now rewrite (Hpq c E), IH.
Qed.

Lemma lowerChar_isLowerAlnum (c : ascii) :
  isAlnum c = true -> isLowerAlnum (lowerChar c) = true.
Proof. destruct c as [[] [] [] [] [] [] [] []]; vm_compute; congruence. Qed.

Lemma allChars_toLowerCase (s : string) :
  allChars isAlnum s = true -> allChars isLowerAlnum (toLowerCase s) = true.
Proof.
  induction s as [ | c s IH ]; [ reflexivity | ].
  cbn [allChars toLowerCase]. intros H. apply andb_true_iff in H as [Hc Hs].
  now rewrite (lowerChar_isLowerAlnum c Hc), IH.
Qed.

Lemma allChars_substring (p : ascii -> bool) (s : string) : forall n m,
  allChars p s = true -> allChars p (String.substring n m s) = true.
Proof.
  induction s as [ | c s IH ]; intros n m H.
  - destruct n, m; reflexivity.
  - cbn [allChars] in H. apply andb_true_iff in H as [Hc Hs].
    destruct n as [ | n ]; [ destruct m as [ | m ] | ]; cbn [String.substring allChars].
    + reflexivity.
    + now rewrite Hc, IH.
    + now apply IH.
Qed.

Lemma length_substring0 (s : string) : forall n,
  String.length (substring0 n s) <= n.
Proof.
  unfold substring0. induction s as [ | c s IH ]; intros [ | n ]; cbn; try lia.
  specialize (IH n). lia.
Qed.

Lemma normalize_chars (o : option string) : allChars isLowerAlnum (normalize o) = true.
Proof.
  unfold normalize. destruct o as [s | ]; [ | reflexivity ].
  destruct (truthy (Some s)); [ | reflexivity ].
  apply allChars_toLowerCase. now apply allChars_keep.
Qed.

Lemma keep_all (p : ascii -> bool) (s : string) : allChars p s = true -> keep p s = s.
Proof.
  induction s as [ | c s IH ]; [ reflexivity | ].
  cbn [allChars keep]. intros H. apply andb_true_iff in H as [Hc Hs].
  now rewrite Hc, IH.
Qed.

Lemma lowerChar_fixed (c : ascii) : isLowerAlnum c = true -> lowerChar c = c.
Proof. destruct c as [[] [] [] [] [] [] [] []]; vm_compute; congruence. Qed.

Lemma isLowerAlnum_isAlnum (c : ascii) : isLowerAlnum c = true -> isAlnum c = true.
Proof. destruct c as [[] [] [] [] [] [] [] []]; vm_compute; congruence. Qed.

Lemma toLowerCase_fixed (s : string) : allChars isLowerAlnum s = true -> toLowerCase s = s.
Proof.
  induction s as [ | c s IH ]; [ reflexivity | ].
  cbn [allChars toLowerCase]. intros H. apply andb_true_iff in H as [Hc Hs].
  now rewrite (lowerChar_fixed c Hc), IH.
Qed.

Lemma allChars_impl (p q : ascii -> bool) (s : string) :
  (forall c, p c = true -> q c = true) -> allChars p s = true -> allChars q s = true.
Proof.
  intros Hpq. induction s as [ | c s IH ]; [ reflexivity | ].
  cbn [allChars]. intros H. apply andb_true_iff in H as [Hc Hs].
  now rewrite (Hpq c Hc), IH.
Qed.

(** X11: the key of a line holds lower-case letters and digits only, and
    at most 30 characters when it is taken from the description;
    normalizing a normalized string changes nothing. *)
Theorem X11_keys_are_normal (item : LineItem.t) (o : option string) :
  allChars isLowerAlnum (itemKey item) = true /\
  ((forall pn, LineItem.partNumber item = Some pn -> String.length pn <= 2) ->
   String.length (itemKey item) <= 30) /\
  normalize (Some (normalize o)) = normalize o.
Proof.
  split; [ | split ].
  - unfold itemKey. destruct (LineItem.partNumber item) as [pn | ].
    + destruct (_ && _); [ apply normalize_chars | ].
      apply allChars_substring, normalize_chars.
    + apply allChars_substring, normalize_chars.
  - intros Hshort. unfold itemKey. destruct (LineItem.partNumber item) as [pn | ].
    + specialize (Hshort pn eq_refl).
      destruct (Nat.ltb_spec 2 (String.length pn)); [ lia | ].
      rewrite andb_false_r. apply length_substring0.
    + apply length_substring0.
  - pose proof (normalize_chars o) as H. set (n := normalize o) in *.
    unfold normalize. destruct (truthy (Some n)) eqn:E.
    + rewrite (@keep_all isAlnum n (@allChars_impl isLowerAlnum isAlnum n isLowerAlnum_isAlnum H)).
      now apply toLowerCase_fixed.
    + unfold truthy in E. destruct (String.eqb_spec n EmptyString); [ congruence | discriminate ].
Qed.

Lemma X11_keys_are_normal_witness :
  String.length (itemKey (LineItem.mk "Parafuso sextavado de aço inoxidável M8 x 40 mm"
                            (Some "A1") 3%float None)) <= 30.
Proof.
  refine (proj1 (proj2 (X11_keys_are_normal _ None)) _).
  intros pn [= <-]. cbn. lia.
Defined.

(* ---------------------------------------------------------------------- *)
(** * [formatDate] and [fileToBase64] *)

Lemma split_no_sep (sep : ascii) (a : string) : noChar sep a -> split sep a = [a].
Proof.
  unfold noChar. induction a as [ | c a IH ]; [ reflexivity | ].
  cbn [allChars split]. intros H. apply andb_true_iff in H as [Hc Ha].
  apply negb_true_iff in Hc. rewrite Hc, (IH Ha). reflexivity.
Qed.

Lemma split_sep (sep : ascii) (a b : string) :
  noChar sep a -> split sep (a ++ String sep b) = a :: split sep b.
Proof.
  unfold noChar. induction a as [ | c a IH ].
  - intros _. cbn. now rewrite Ascii.eqb_refl.
  - cbn [allChars]. intros H. apply andb_true_iff in H as [Hc Ha].
    apply negb_true_iff in Hc. cbn [append split]. rewrite Hc, (IH Ha). reflexivity.
Qed.

Lemma append_nonempty (a b : string) : a <> EmptyString -> truthy (Some (a ++ b)) = true.
Proof. intros H. destruct a; [ congruence | reflexivity ]. Qed.

(** X12: a date written year-month-day (three fields that are not empty
    and hold no dash) is rendered day/month/year by cutting the text: the
    host, its time zone and its date parser are not consulted. *)
Theorem X12_formatDate_iso (host : Host) (year month day : string) :
  year <> EmptyString -> month <> EmptyString -> day <> EmptyString ->
  noChar "-" year -> noChar "-" month -> noChar "-" day ->
  formatDate host (Some (year ++ "-" ++ month ++ "-" ++ day))
  = day ++ "/" ++ month ++ "/" ++ year.
Proof.
  intros Hy Hm Hd Ny Nm Nd. unfold formatDate.
  rewrite (append_nonempty _ Hy). cbn [negb].
  change (year ++ "-" ++ month ++ "-" ++ day)
    with (year ++ String "-" (month ++ String "-" day)).
  rewrite (split_sep _ Ny), (split_sep _ Nm), (split_no_sep Nd).
  assert (Ht : forall s, s <> EmptyString -> negb (s =? EmptyString) = true).
  { intros s Hs. now destruct s. }
  now rewrite (Ht _ Hy), (Ht _ Hm), (Ht _ Hd).
Qed.

Lemma X12_formatDate_iso_witness :
  formatDate hostBRT (Some ("2024" ++ "-" ++ "01" ++ "-" ++ "01")) = "01" ++ "/" ++ "01" ++ "/" ++ "2024".
Proof.
  apply (@X12_formatDate_iso hostBRT "2024" "01" "01");
    try discriminate; reflexivity.
Defined.

(** X13: [fileToBase64] resolves to the text between the first and the
    second comma of what the reader returns: to the whole payload of a
    data URL whose header and payload hold no comma, and to [undefined]
    when the result holds no comma at all. *)
Theorem X13_base64_of_data_url (header payload : string) :
  noChar "," header ->
  noChar "," payload ->
  base64OfDataUrl (header ++ "," ++ payload) = Some payload /\
  base64OfDataUrl header = None.
Proof.
  intros Nh Np. unfold base64OfDataUrl. split.
  - change (header ++ "," ++ payload) with (header ++ String "," payload).
    now rewrite (split_sep _ Nh), (split_no_sep Np).
  - now rewrite (split_no_sep Nh).
Qed.

Lemma X13_base64_of_data_url_witness :
  base64OfDataUrl ("data:application/pdf;base64" ++ "," ++ "JVBERi0xLjQ=") = Some "JVBERi0xLjQ=" /\
  base64OfDataUrl "data:application/pdf;base64" = None.
Proof.
  apply (@X13_base64_of_data_url "data:application/pdf;base64" "JVBERi0xLjQ="); reflexivity.
Defined.

(* ---------------------------------------------------------------------- *)
(** * The request of [geminiService.ts] *)

Lemma push_loop (A B : Type) (f : A -> list B) (l : list A) : forall acc : list B,
  fold_left (fun parts x => (parts ++ f x)%list) l acc = (acc ++ flat_map f l)%list.
Proof.
  induction l as [ | x l IH ]; intros acc; cbn [fold_left flat_map].
  - now rewrite app_nil_r.
  - now rewrite IH, app_assoc.
Qed.

Lemma fold_left_ext (A B : Type) (f g : B -> A -> B) (l : list A) :
  (forall b a, f b a = g b a) -> forall b, fold_left f l b = fold_left g l b.
Proof.
  intros H. induction l as [ | x l IH ]; intros b; [ reflexivity | ].
  cbn [fold_left]. now rewrite H, IH.
Qed.

Lemma pdf_or_type (t : string) :
  (if t =? "application/pdf" then "application/pdf" else t) = t.
Proof. destruct (String.eqb_spec t "application/pdf") as [-> | _]; reflexivity. Qed.

Lemma analyzeDocuments_parts_flat (fileToBase64 : File.t -> string) (files : list File.t) :
  analyzeDocuments_parts fileToBase64 files
  = (flat_map (fun file => [ TextPart (fileNameText (File.name file));
                             InlineData (fileToBase64 file) (File.type file) ]) files
     ++ [TextPart promptText])%list.
Proof.
  unfold analyzeDocuments_parts, push. f_equal.
  rewrite <- (app_nil_l (flat_map _ files)), <- push_loop.
  apply fold_left_ext. intros parts file. rewrite pdf_or_type. now rewrite <- app_assoc.
Qed.

Lemma auditFromApi_parts_flat (files : list ApiFilePart.t) :
  auditFromApi_parts files
  = (flat_map (fun file => [ TextPart (fileNameText (ApiFilePart.fileName file));
                             InlineData (ApiFilePart.base64Data file)
                               (ApiFilePart.mimeType file) ]) files
     ++ [TextPart promptText])%list.
Proof.
  unfold auditFromApi_parts, push. f_equal.
  rewrite <- (app_nil_l (flat_map _ files)), <- push_loop.
  apply fold_left_ext. intros parts file. now rewrite <- app_assoc.
Qed.

(** X14: the request of [analyzeDocuments] holds, for each file in the
    order given, the text that names the file followed by its content with
    the MIME type of the file unchanged, and ends with the prompt: two
    parts for each file and one more. *)
Theorem X14_request_parts (fileToBase64 : File.t -> string) (files : list File.t) :
  List.length (analyzeDocuments_parts fileToBase64 files) = 2 * List.length files + 1 /\
  last (analyzeDocuments_parts fileToBase64 files) (TextPart EmptyString)
    = TextPart promptText /\
  forall i file, nth_error files i = Some file ->
    nth_error (analyzeDocuments_parts fileToBase64 files) (2 * i)
      = Some (TextPart (fileNameText (File.name file))) /\
    nth_error (analyzeDocuments_parts fileToBase64 files) (2 * i + 1)
      = Some (InlineData (fileToBase64 file) (File.type file)).
Proof.
  rewrite analyzeDocuments_parts_flat. split; [ | split ].
  - rewrite length_app. cbn [List.length].
    induction files as [ | f fs IH ]; cbn [flat_map List.length app] in *; lia.
  - apply last_last.
  - induction files as [ | f fs IH ]; intros i file Hi.
    + destruct i; discriminate.
    + destruct i as [ | i ].
      * cbn in Hi. injection Hi as <-. split; reflexivity.
      * cbn [nth_error] in Hi. specialize (IH i file Hi).
        replace (2 * S i) with (S (S (2 * i))) by lia.
        replace (S (S (2 * i)) + 1) with (S (S (2 * i + 1))) by lia.
        cbn [flat_map app nth_error]. exact IH.
Qed.

Lemma X14_request_parts_witness :
  nth_error (analyzeDocuments_parts sampleRead sampleFiles) (2 * 1 + 1)
  = Some (InlineData "iVBORw0KGgo=" "image/png").
Proof.
  refine (proj2 (proj2 (proj2 (X14_request_parts sampleRead sampleFiles))
                   1 (File.mk "termo.png" "image/png") eq_refl)).
Defined.

(** X15: [analyzeDocuments] sends what [auditFromApi] sends when it is
    given, for each file, the name, the content read by [fileToBase64] and
    the MIME type of the file. *)
Theorem X15_browser_and_api_requests_agree (fileToBase64 : File.t -> string)
    (files : list File.t) :
  analyzeDocuments_parts fileToBase64 files
  = auditFromApi_parts (map (toApiFilePart fileToBase64) files).
Proof.
  rewrite analyzeDocuments_parts_flat, auditFromApi_parts_flat. f_equal.
  induction files as [ | f fs IH ]; [ reflexivity | ].
  cbn [map flat_map]. now rewrite IH.
Qed.

(* ---------------------------------------------------------------------- *)
(** * [removeFile] *)

Lemma filterIndexFrom_past (A : Type) (xs : list A) : forall i index,
  index < i -> filterIndexFrom i index xs = xs.
Proof.
  induction xs as [ | x xs IH ]; intros i index H; [ reflexivity | ].
  cbn [filterIndexFrom]. destruct (Nat.eqb_spec i index); [ lia | ].
  cbn [negb]. rewrite IH by lia. reflexivity.
Qed.

Lemma filterIndexFrom_spec (A : Type) (xs : list A) : forall i n,
  filterIndexFrom i (i + n) xs = (firstn n xs ++ skipn (S n) xs)%list.
Proof.
  induction xs as [ | x xs IH ]; intros i n.
  - now destruct n.
  - cbn [filterIndexFrom]. destruct n as [ | n ].
    + rewrite Nat.add_0_r, Nat.eqb_refl. cbn [negb firstn skipn app].
      apply filterIndexFrom_past. lia.
    + destruct (Nat.eqb_spec i (i + S n)); [ lia | ]. cbn [negb firstn skipn app].
      f_equal. replace (i + S n) with (S i + n) by lia. apply IH.
Qed.

(** X16: [removeFile] takes out the file at the index given and keeps the
    others in their order, and for every index it leaves [isAnalyzing],
    [extractedData], [auditResults] and [error] as they are; an index of
    the list leaves one file less, an index past it changes nothing. *)
Theorem X16_removeFile_at_index (index : nat) (s : AppState) :
  files (removeFile index s) = (firstn index (files s) ++ skipn (S index) (files s))%list /\
  (isAnalyzing (removeFile index s) = isAnalyzing s /\
   extractedData (removeFile index s) = extractedData s /\
   auditResults (removeFile index s) = auditResults s /\
   error (removeFile index s) = error s) /\
  (index < List.length (files s) ->
     S (List.length (files (removeFile index s))) = List.length (files s)) /\
  (List.length (files s) <= index -> removeFile index s = s).
Proof.
  assert (H : files (removeFile index s)
              = (firstn index (files s) ++ skipn (S index) (files s))%list)
    by apply (filterIndexFrom_spec (files s) 0 index).
  split; [ exact H | ]. split; [ repeat split | ]. split.
  - intros Hlt. rewrite H, length_app, length_firstn, length_skipn. lia.
  - intros Hle. destruct s as [fs an ed ar er]. unfold removeFile in *. cbn [files] in *.
    f_equal. rewrite H.
    rewrite firstn_all2 by lia. rewrite skipn_all2 by lia. apply app_nil_r.
Qed.

Lemma X16_removeFile_at_index_witness :
  S (List.length (files (removeFile 0
        (handleFilesSelected sampleRead sampleFiles initialState))))
  = List.length (files (handleFilesSelected sampleRead sampleFiles initialState)).
Proof.
  refine (proj1 (proj2 (proj2 (X16_removeFile_at_index 0
            (handleFilesSelected sampleRead sampleFiles initialState)))) _).
  cbn. lia.
Defined.

(* ---------------------------------------------------------------------- *)
(** * The state of [App] *)

Lemma runAuditRules_not_nil (host : Host) (data : ExtractedData) :
  (List.length (runAuditRules host data) =? 0)%nat = false.
Proof.
  apply Nat.eqb_neq.
  rewrite runAuditRules_blocks, !length_app, rule_sicaf_length. lia.
Qed.

Lemma introVisible_no_data (s : AppState) :
  introVisible s = true -> extractedData s = None.
Proof.
  unfold introVisible. intros H. apply andb_true_iff in H as [_ H].
  now destruct (extractedData s).
Qed.

Lemma dispatch_consistent (host : Host) (s : AppState) (e : Event) :
  consistent host s -> consistent host (dispatch host s e).
Proof.
  intros Hs. destruct e as [read newFiles | index | | | o | ]; cbn [dispatch].
  - destruct Hs as [H1 [H2 H3]]. unfold consistent, handleFilesSelected.
    cbn [extractedData auditResults isAnalyzing error].
    split; [ exact H1 | ]. split; [ | congruence ].
    intros Ha. split; [ apply (H2 Ha) | reflexivity ].
  - exact Hs.
  - exact Hs.
  - destruct (canAnalyze s) eqn:Ecan; [ | exact Hs ].
    unfold handleAnalyze_begin. destruct (_ =? 0)%nat; [ exact Hs | ].
    unfold canAnalyze in Ecan. apply andb_true_iff in Ecan as [Hintro _].
    apply introVisible_no_data in Hintro.
    unfold consistent. cbn [extractedData auditResults isAnalyzing error].
    rewrite Hintro. split; [ reflexivity | ]. split; [ now split | congruence ].
  - destruct (isAnalyzing s) eqn:Ean; [ | exact Hs ].
    destruct Hs as [H1 [H2 H3]]. destruct (H2 Ean) as [Hdata Herr].
    destruct o as [data0 | ]; unfold consistent, handleAnalyze_resume;
      cbn [extractedData auditResults isAnalyzing error].
    + split; [ split; [ reflexivity | now exists data0 ] | ].
      split; [ discriminate | ]. intros Hne. now rewrite Herr in Hne.
    + rewrite Hdata in *. split; [ exact H1 | ]. split; [ discriminate | reflexivity ].
  - destruct Hs as [_ [H2 _]]. unfold consistent, reset.
    cbn [extractedData auditResults isAnalyzing error].
    split; [ reflexivity | ]. split; [ now split | reflexivity ].
Qed.

Lemma run_consistent (host : Host) (events : list Event) : consistent host (run host events).
Proof.
  unfold run.
  assert (H : forall s, consistent host s -> consistent host (fold_left (dispatch host) events s)).
  { induction events as [ | e events IH ]; intros s Hs; [ exact Hs | ].
    cbn [fold_left]. apply IH. now apply dispatch_consistent. }
  apply H. unfold consistent, initialState. cbn.
  split; [ reflexivity | ]. split; [ discriminate | congruence ].
Qed.

(** X17: whatever the sequence of selections, removals, clicks, analyses
    returned (with data of the declared type, or failed) and resets, the
    page is in one of two states.  Either it holds extracted data: then
    the data went through the CNPJ failsafe, the findings are those of
    [runAuditRules] on exactly that data, the upload section is not drawn,
    no analysis is running and no error is set.  Or it holds none: then
    there is no finding and the upload section is drawn. *)
Theorem X17_findings_belong_to_shown_data (host : Host) (events : list Event) :
  match extractedData (run host events) with
  | Some data =>
      (exists data0, data = autoCorrectCnpj data0) /\
      auditResults (run host events) = runAuditRules host data /\
      introVisible (run host events) = false /\
      isAnalyzing (run host events) = false /\
      error (run host events) = None
  | None =>
      auditResults (run host events) = [] /\
      introVisible (run host events) = true
  end.
Proof.
  destruct (run_consistent host events) as [H1 [H2 H3]].
  unfold introVisible.
  destruct (extractedData (run host events)) as [data | ] eqn:E.
  - destruct H1 as [H1 Hd0]. split; [ exact Hd0 | ]. split; [ exact H1 | ].
    split; [ apply andb_false_r | ]. split.
    + destruct (isAnalyzing (run host events)); [ | reflexivity ].
      now destruct (H2 eq_refl).
    + destruct (error (run host events)) as [msg | ]; [ | reflexivity ].
      discriminate H3. discriminate.
  - split; [ exact H1 | ]. now rewrite H1.
Qed.

(** Both states are reached: an analysis that returns shows the data
    after the failsafe, one that fails shows none. *)
Example both_pages_reached :
  extractedData (run hostUTC fullAnalysis) = Some (autoCorrectCnpj Samples.full) /\
  List.length (auditResults (run hostUTC fullAnalysis)) = 6 /\
  extractedData (run hostUTC failedAnalysis) = None.
Proof. repeat split; vm_compute; reflexivity. Qed.

(** X18: where every analysis returns data of the declared type or fails
    before any data is set, an error message that is set is on a page
    that draws it, after every sequence of events: the upload section is
    drawn, and no analysis is running.  And in every state, a click on
    Auditar that the page accepts starts an analysis, with the findings
    and the error cleared: the guard on an empty list of files in
    [handleAnalyze] is never the one that stops it.  (A response that is
    not of the declared type, on which [runAuditRules] throws after the
    data is set, is outside [Outcome].) *)
Theorem X18_error_is_always_drawn (host : Host) :
  (forall events,
     error (run host events) <> None ->
     introVisible (run host events) = true /\
     isAnalyzing (run host events) = false) /\
  (forall s,
     canAnalyze s = true ->
     isAnalyzing (dispatch host s AnalyzeClicked) = true /\
     auditResults (dispatch host s AnalyzeClicked) = [] /\
     error (dispatch host s AnalyzeClicked) = None /\
     files (dispatch host s AnalyzeClicked) = files s).
Proof.
  split.
  - intros events Herr. destruct (run_consistent host events) as [H1 [H2 H3]].
    specialize (H3 Herr). rewrite H3 in H1. split.
    + unfold introVisible. now rewrite H1, H3.
    + destruct (isAnalyzing (run host events)); [ | reflexivity ].
      destruct (H2 eq_refl) as [_ Hnone]. contradiction.
  - intros s Hcan. cbn [dispatch]. rewrite Hcan.
    unfold canAnalyze in Hcan. apply andb_true_iff in Hcan as [_ Hen].
    apply negb_true_iff, orb_false_iff in Hen as [_ Hfiles].
    unfold handleAnalyze_begin. rewrite Hfiles. repeat split.
Qed.

Lemma X18_error_is_always_drawn_witness :
  error (run hostUTC failedAnalysis) <> None /\
  introVisible (run hostUTC failedAnalysis) = true /\
  isAnalyzing (run hostUTC failedAnalysis) = false /\
  canAnalyze (run hostUTC failedAnalysis) = true /\
  isAnalyzing (dispatch hostUTC (run hostUTC failedAnalysis) AnalyzeClicked) = true.
Proof.
  assert (H : error (run hostUTC failedAnalysis) <> None) by (vm_compute; discriminate).
  assert (Hc : canAnalyze (run hostUTC failedAnalysis) = true) by (vm_compute; reflexivity).
  split; [ exact H | ].
  destruct (proj1 (X18_error_is_always_drawn hostUTC) failedAnalysis H) as [Hi Ha].
  split; [ exact Hi | ]. split; [ exact Ha | ]. split; [ exact Hc | ].
  exact (proj1 (proj2 (X18_error_is_always_drawn hostUTC) _ Hc)).
Defined.

(* ---------------------------------------------------------------------- *)
(** * The figures of the side panel *)

Lemma SFcompare_Lt_Gt (a b : SpecFloat.spec_float) :
  SpecFloat.SFcompare a b = Some Lt -> SpecFloat.SFcompare b a = Some Gt.
Proof.
  destruct a as [ [ | ] | [ | ] | | [ | ] m1 e1 ], b as [ [ | ] | [ | ] | | [ | ] m2 e2 ];
    cbn; try congruence.
  - rewrite (Z.compare_antisym e1 e2).
    destruct (e1 ?= e2)%Z eqn:E; cbn; try congruence.
    fold (Pos.compare m1 m2). fold (Pos.compare m2 m1).
    rewrite (Pos.compare_antisym m1 m2).
    destruct (m1 ?= m2)%positive; cbn; congruence.
  - rewrite (Z.compare_antisym e1 e2).
    destruct (e1 ?= e2)%Z eqn:E; cbn; try congruence.
    fold (Pos.compare m1 m2). fold (Pos.compare m2 m1).
    rewrite (Pos.compare_antisym m1 m2).
    destruct (m1 ?= m2)%positive; cbn; congruence.
Qed.

(** [x < y] excludes [y < x], on every pair of binary64 values. *)
Lemma ltb_asym (x y : float) : PrimFloat.ltb x y = true -> PrimFloat.ltb y x = false.
Proof.
  rewrite !FloatAxioms.ltb_spec. unfold SpecFloat.SFltb.
  destruct (SpecFloat.SFcompare (Prim2SF x) _) as [ [ | | ] | ] eqn:E; try discriminate.
  intros _. now rewrite (SFcompare_Lt_Gt _ _ E).
Qed.

(** X19: when the invoice and the receipt are found and the side panel
    prints the total of the receipt in red ([isTrMismatch]), the output
    holds the finding [value-check-gross] and it is not a PASS: the red
    figure ([|g - t| > 0.05]) always has a finding behind it
    ([|g - t| < 0.05] fails). *)
Theorem X19_red_total_has_a_finding (host : Host) (data : ExtractedData) :
  NotaFiscal.found (notaFiscal data) = true ->
  TermoRecebimento.found (termoRecebimento data) = true ->
  fst (mismatches (Some data)) = true ->
  exists r,
    findingsWith "value-check-gross" (runAuditRules host data) = [r] /\
    status r <> PASS.
Proof.
  intros Hnf Htr Hred.
  rewrite (@findingsWith_block host data "value-check-gross" 4 eq_refl). cbn [nth].
  unfold rule_value, push. rewrite Hnf, Htr. cbn [andb].
  unfold mismatches in Hred.
  destruct (NotaFiscal.grossValue (notaFiscal data)) as [g | ]; [ | discriminate ].
  destruct (negb (JsNumber.truthy g)); [ discriminate | ].
  cbn [fst] in Hred.
  destruct (TermoRecebimento.totalValue (termoRecebimento data)) as [t | ]; [ | discriminate ].
  apply ltb_asym in Hred.
  exists (valueFinding host g (NotaFiscal.liquidValue (notaFiscal data)) t).
  split.
  { cbn [app]. unfold findingsWith. cbn [filter]. now rewrite valueFinding_id. }
  unfold valueFinding, JsNumber.within, JsNumber.tol_value.
  rewrite Hred.
  destruct (match NotaFiscal.liquidValue (notaFiscal data) with
            | Some l => _
            | None => false
            end); cbn [status]; discriminate.
Qed.

Lemma X19_red_total_has_a_finding_witness :
  fst (mismatches (Some (valueBundle 1000 (Some 950%float) 950))) = true /\
  exists r,
    findingsWith "value-check-gross"
      (runAuditRules hostUTC (valueBundle 1000 (Some 950%float) 950)) = [r] /\
    status r <> PASS.
Proof.
  assert (H : fst (mismatches (Some (valueBundle 1000 (Some 950%float) 950))) = true)
    by (vm_compute; reflexivity).
  split; [ exact H | ].
  exact (@X19_red_total_has_a_finding hostUTC (valueBundle 1000 (Some 950%float) 950)
           eq_refl eq_refl H).
Defined.

(* ---------------------------------------------------------------------- *)
(** * The properties of the stock-entry check and of the note, on bundles *)

Lemma X5_one_sub_item_per_group_witness :
  exists r subs,
    findingsWith "rmm-check-detailed" (runAuditRules hostUTC Samples.full) = [r] /\
    subItems r = Some subs /\
    List.length subs = 1.
Proof.
  destruct (@X5_one_sub_item_per_group hostUTC Samples.full eq_refl eq_refl eq_refl)
    as [r [subs [Hr [Hs [Hl _]]]]].
  - discriminate.
  - exists r, subs. split; [ exact Hr | ]. split; [ exact Hs | ].
    rewrite Hl. vm_compute. reflexivity.
Defined.

Lemma X6_status_is_worst_sub_item_witness :
  exists r subs,
    findingsWith "rmm-check-detailed" (runAuditRules hostUTC Samples.full) = [r] /\
    subItems r = Some subs /\
    status r = worstOf (map SubItem.status subs).
Proof.
  destruct (@X6_status_is_worst_sub_item hostUTC Samples.full eq_refl eq_refl eq_refl)
    as [r [Hr [Hsome _]]].
  destruct Hsome as [subs [Hs Hw]]; [ discriminate | ].
  exists r, subs. split; [ exact Hr | ]. split; [ exact Hs | exact Hw ].
Defined.

Lemma X8_wrong_document_justifies_nothing_witness :
  exists r rest,
    runAuditRules hostUTC wrongNote = r :: rest /\
    id r = "doc-validation-info-admin" /\ status r = FAIL.
Proof.
  exact (proj1 (@X8_wrong_document_justifies_nothing hostUTC wrongNote eq_refl)).
Defined.
